(** * jira-assets-tracker: the reconciliation pass, embedded and verified

    The program (package [app]) polls a catalogue of assets, each with an
    "Update" date, and keeps the linked Jira tickets in step with it.  This
    development embeds the five source files

      - [app/config.py]       constants and message templates,
      - [app/helpres.py]      the ticket cache and the attribute helpers,
      - [app/jira_board.py]   the ticket client,
      - [app/jira_assets.py]  the asset client and the attribute extractor,
      - [app/updater.py]      the reconciler,

    as Rocq functions over Python values, and proves properties of them.

    Modelling choices.
      - A Python value that came out of [response.json()] or [json.load] is a
        [value]; JSON numbers are integers here (no floats).  A character of
        a Python string is an [ascii] of a Rocq [string].
      - Exceptions are explicit: a pure computation returns a [result], an
        effectful one runs in the monad [M], state plus exception; the state
        written before an exception is raised is kept, as in Python.
      - The HTTP layer, the clock and the two library functions the program
        calls ([datetime.strptime], [str] of a container) are a [Host], which
        every definition takes as a parameter.  A request is recorded with the
        method arguments that determine its URL and body.
      - Instants are integers: microseconds, the resolution of [datetime].
        [timedelta.total_seconds()] is compared with [0] and with [432000],
        both exact as floats, so comparing microseconds is the same test.
      - [logging] calls are kept, as records appended to [log].
      - [entered] is ghost state: the reconciler's functions append a marker
        when they are entered, so that invocations can be counted. *)

From Stdlib Require Import ZArith List String Ascii Bool Lia DecimalString.
Import ListNotations.
Local Open Scope string_scope.
Set Warnings "-register-all".

(** ** Python values *)

Inductive value : Type :=
| VNone
| VBool (b : bool)
| VInt (n : Z)
| VStr (s : string)
| VList (items : list value)
| VDict (entries : list (string * value)).

Inductive exn : Type :=
| KeyError | TypeError | AttributeError | IndexError | ValueError.

Inductive result (A : Type) : Type :=
| Ok (a : A)
| Raise (e : exn).

Arguments Ok {A} a.
Arguments Raise {A} e.

(** A dict built by the program itself ([task_cache], [attributes], the two
    mappings) has arbitrary hashable keys; the first binding of a key is its
    binding and the order of the list is the insertion order. *)
Definition pydict (A : Type) : Type := list (value * A).

Module Py.

Definition bind {A B} (r : result A) (k : A -> result B) : result B :=
  match r with
  | Ok a => k a
  | Raise e => Raise e
  end.

(** [bool(v)] *)
Definition truthy (v : value) : bool :=
  match v with
  | VNone => false
  | VBool b => b
  | VInt n => negb (n =? 0)%Z
  | VStr s => negb (s =? "")
  | VList l => match l with [] => false | _ => true end
  | VDict d => match d with [] => false | _ => true end
  end.

(** lists and dicts are unhashable *)
Definition hashable (v : value) : bool :=
  match v with
  | VList _ | VDict _ => false
  | _ => true
  end.

Definition int_of_bool (b : bool) : Z := if b then 1%Z else 0%Z.

(** [a == b] on hashable values: [True == 1] and [False == 0] hold *)
Definition key_eqb (a b : value) : bool :=
  match a, b with
  | VNone, VNone => true
  | VBool x, VBool y => Bool.eqb x y
  | VInt x, VInt y => (x =? y)%Z
  | VBool x, VInt y => (int_of_bool x =? y)%Z
  | VInt x, VBool y => (x =? int_of_bool y)%Z
  | VStr x, VStr y => (x =? y)
  | _, _ => false
  end.

(** [v == "s"] and [v != "s"] for a string literal *)
Definition eq_str (v : value) (s : string) : bool :=
  match v with
  | VStr t => (t =? s)
  | _ => false
  end.

Definition ne_str (v : value) (s : string) : bool := negb (eq_str v s).

(** JSON objects: string keys *)
Fixpoint lookup (k : string) (d : list (string * value)) : option value :=
  match d with
  | [] => None
  | (k', v) :: d' => if (k' =? k) then Some v else lookup k d'
  end.

(** [d[k] = v] on a JSON object *)
Fixpoint store (k : string) (v : value) (d : list (string * value))
  : list (string * value) :=
  match d with
  | [] => [(k, v)]
  | (k', v') :: d' =>
      if (k' =? k) then (k, v) :: d' else (k', v') :: store k v d'
  end.

(** [d.update(e)] *)
Definition update (d e : list (string * value)) : list (string * value) :=
  fold_left (fun acc kv => store (fst kv) (snd kv) acc) e d.

(** dicts of the program: hashable keys *)
Fixpoint find {A} (k : value) (d : pydict A) : option A :=
  match d with
  | [] => None
  | (k', a) :: d' => if key_eqb k' k then Some a else find k d'
  end.

Fixpoint set {A} (k : value) (a : A) (d : pydict A) : pydict A :=
  match d with
  | [] => [(k, a)]
  | (k', a') :: d' =>
      if key_eqb k' k then (k', a) :: d' else (k', a') :: set k a d'
  end.

(** [d.get(k)], [k in d]: hashing an unhashable key raises *)
Definition dict_get (d : pydict value) (k : value) : result value :=
  if hashable k then
    Ok (match find k d with Some v => v | None => VNone end)
  else Raise TypeError.

Definition dict_contains {A} (d : pydict A) (k : value) : result bool :=
  if hashable k then
    Ok (match find k d with Some _ => true | None => false end)
  else Raise TypeError.

Definition dict_getitem {A} (d : pydict A) (k : value) : result A :=
  if hashable k then
    match find k d with Some a => Ok a | None => Raise KeyError end
  else Raise TypeError.

Definition dict_setitem {A} (d : pydict A) (k : value) (a : A)
  : result (pydict A) :=
  if hashable k then Ok (set k a d) else Raise TypeError.

(** [o.get(k, default)]: only a dict has the method *)
Definition get (o : value) (k : string) (default : value) : result value :=
  match o with
  | VDict d => Ok (match lookup k d with Some v => v | None => default end)
  | _ => Raise AttributeError
  end.

(** [o[k]] for a string [k] *)
Definition getitem (o : value) (k : string) : result value :=
  match o with
  | VDict d => match lookup k d with Some v => Ok v | None => Raise KeyError end
  | _ => Raise TypeError
  end.

(** [sub in s] on strings *)
Definition contains (s sub : string) : bool :=
  match String.index 0 sub s with
  | Some _ => true
  | None => false
  end.

(** [k in o] for a string [k]: key of a dict, element of a list,
    substring of a string; the other values are not iterable *)
Definition contains_str (k : string) (o : value) : result bool :=
  match o with
  | VDict d => Ok (match lookup k d with Some _ => true | None => false end)
  | VList l => Ok (existsb (fun x => eq_str x k) l)
  | VStr s => Ok (contains s k)
  | _ => Raise TypeError
  end.

Fixpoint chars (s : string) : list value :=
  match s with
  | EmptyString => []
  | String c s' => VStr (String c EmptyString) :: chars s'
  end.

Fixpoint keys (seen : list string) (d : list (string * value)) : list value :=
  match d with
  | [] => []
  | (k, _) :: d' =>
      if existsb (String.eqb k) seen then keys seen d'
      else VStr k :: keys (k :: seen) d'
  end.

(** the elements a [for] loop visits *)
Definition iter (o : value) : result (list value) :=
  match o with
  | VList l => Ok l
  | VDict d => Ok (keys [] d)
  | VStr s => Ok (chars s)
  | _ => Raise TypeError
  end.

(** [l[0]] on a list *)
Definition first {A} (l : list A) : result A :=
  match l with
  | x :: _ => Ok x
  | [] => Raise IndexError
  end.

(** [str(v)], as an f-string or [str.format] inserts it; [repr] is the
    text of a list or dict *)
Definition str (repr : value -> string) (v : value) : string :=
  match v with
  | VStr s => s
  | VNone => "None"
  | VBool true => "True"
  | VBool false => "False"
  | VInt n => NilZero.string_of_int (Z.to_int n)
  | _ => repr v
  end.

End Py.

Notation "x <~ r ;; k" := (Py.bind r (fun x => k))
  (at level 61, r at next level, right associativity).

(** ** The host: remote services, clock, library functions *)

(** What a client sends.  [GetTask k] is [GET rest/api/2/issue/{k}],
    [AddComment k c] posts [{"body": c}] to [.../issue/{k}/comment],
    [GetTransitions k] and [TransitionTask k i] are the [GET] and the [POST]
    of [.../issue/{k}/transitions], [CreateTask p] posts [p] to
    [rest/api/2/issue], [ConnectedTickets o] is
    [GET /objectconnectedtickets/{o}/tickets] and [ObjectAql q] posts
    [{"qlQuery": q}] to [/object/aql]. *)
Inductive request : Type :=
| GetTask (issue_key : value)
| AddComment (issue_key : value) (comment : string)
| GetTransitions (issue_key : value)
| TransitionTask (issue_key : value) (transition_id : value)
| CreateTask (payload : value)
| ConnectedTickets (object_id : value)
| ObjectAql (query : string).

(** What [requests.request] did, as [_request] tells the cases apart. *)
Inductive response : Type :=
| Body (v : value)                  (* success, [response.text] is JSON *)
| NoBody                            (* success, [response.text] is empty *)
| HttpError (err text : string)     (* [raise_for_status] raised *)
| Failed (err : string).            (* any other exception *)

Record Host : Type := mkHost {
  World : Type;
  remote : request -> World -> response * World;
  clock : World -> Z * World;            (* [datetime.now()], microseconds *)
  strptime : string -> option Z;         (* [strptime(s, "%Y-%m-%d")] *)
  repr : value -> string                 (* [str] of a list or a dict *)
}.

(** ** Logging *)

Inductive level : Type := INFO | WARNING | ERROR.

Inductive message : Type :=
| HttpErrorLogged (err : string)
| RequestFailed (err : string)
| ErrorParsingUpdateDate
| TaskNotFound (issue_key : value)
| UpdatePropertyMissing
| ErrorParsingTaskUpdateDate (issue_key : value)
| TaskOverdue (issue_key : value)
| TaskAlreadyInProgress (issue_key : value)
| TaskStuck (issue_key : value)
| TaskDoneOutdated (issue_key : value)
| TaskDoneUpToDate (issue_key : value)
| EnvironmentNotSet
| AssetIdMissing
| AlreadyHasLinkedUpdateIssue (asset_id : value)
| NamePropertyMissing
| FailedToCreateTask (asset_id response : value)
| CreatedNewUpdateTask (asset_id key : value)
| NoValidUpdateDate
| RequiresUpdate
| ScheduledForUpdate
| UpToDate
| NewUpdateTaskIsBeingCreated (asset_id : value)
| LinkedTaskNotFound (asset_id issue_key : value)
| TaskIsActive (asset_id issue_key status : value)
| RunningIteration
| EndOfIteration.

(** ghost markers: which function of the reconciler was entered *)
Inductive entry : Type :=
| ProcessLinkedUpdateIssue (issue : value)
| CreateUpdateTask (is_outdated : bool)
| HandleOverdueAsset (asset : value)
| HandleFutureAsset (asset : value).

(** ** Program state *)

Record state (W : Type) : Type := mkState {
  task_cache : pydict value;          (* [helpres.task_cache] *)
  world : W;
  requests : list request;            (* sent so far, oldest first *)
  log : list (level * message);
  entered : list entry
}.

Arguments mkState {W}.
Arguments task_cache {W}.
Arguments world {W}.
Arguments requests {W}.
Arguments log {W}.
Arguments entered {W}.

(** ** Configuration: environment variables and the two mapping files *)

Record Config : Type := mkConfig {
  JIRA_WORKSPACE_ID : option string;
  JIRA_PROJECT_KEY : option string;
  JIRA_ASSETS_OBJECT_TYPE_ID : option string;
  attribute_map : pydict value;       (* [app/attributes.json] *)
  ASSIGNEE_MAPPING : pydict value     (* [app/user_mapping.json] *)
}.

(** ** app/config.py *)

Definition ONE_DAY_SECONDS : Z := 86400.
Definition UPDATE_WARNING_DAYS : Z := 5.
Definition UPDATE_WARNING_SECONDS : Z := UPDATE_WARNING_DAYS * ONE_DAY_SECONDS.

Definition nl : string := String (ascii_of_nat 10) EmptyString.

Definition TASK_SUMMARY_TEMPLATE (asset_name : string) : string :=
  "Update " ++ asset_name.

Definition TASK_DESCRIPTION_TEMPLATE (asset_name : string) : string :=
  "Please update the asset '" ++ asset_name ++ "'." ++ nl ++ nl ++
  "Required steps:" ++ nl ++
  "1. Update the app" ++ nl ++
  "2. Update the 'Update' property in Asset" ++ nl ++
  "3. Move task to -> DONE".

Definition COMMENT_REMINDER (update_date : string) : string :=
  "Reminder: The asset update is overdue (Update date: " ++ update_date ++
  "). Please update the asset.".

Definition COMMENT_REQUEST_UPDATE : string :=
  "The Update date is outdated. Please update the asset accordingly.".

(** one second of [timedelta.total_seconds()], in microseconds *)
Definition SECOND : Z := 1000000.

(** ** The monad of the program: state and exceptions *)

Section Program.

Variable H : Host.
Variable cfg : Config.

Definition St : Type := state (World H).

Definition M (A : Type) : Type := St -> result A * St.

Definition ret {A} (a : A) : M A := fun s => (Ok a, s).

Definition raise {A} (e : exn) : M A := fun s => (Raise e, s).

Definition bind {A B} (m : M A) (k : A -> M B) : M B :=
  fun s =>
    match m s with
    | (Ok a, s') => k a s'
    | (Raise e, s') => (Raise e, s')
    end.

Definition lift {A} (r : result A) : M A := fun s => (r, s).

Notation "x <- m ;; k" := (bind m (fun x => k))
  (at level 61, m at next level, right associativity).
Notation "m ;; k" := (bind m (fun _ => k))
  (at level 61, right associativity).

(** [logging.info], [logging.warning], [logging.error] *)
Definition note (l : level) (m : message) : M unit :=
  fun s =>
    (Ok tt,
     mkState (task_cache s) (world s) (requests s) (log s ++ [(l, m)])
             (entered s)).

Definition enter (e : entry) : M unit :=
  fun s =>
    (Ok tt,
     mkState (task_cache s) (world s) (requests s) (log s)
             (entered s ++ [e])).

(** [datetime.now()] *)
Definition now : M Z :=
  fun s =>
    let tw := clock H (world s) in
    (Ok (fst tw),
     mkState (task_cache s) (snd tw) (requests s) (log s) (entered s)).

Definition read_cache : M (pydict value) := fun s => (Ok (task_cache s), s).

Definition write_cache (c : pydict value) : M unit :=
  fun s => (Ok tt, mkState c (world s) (requests s) (log s) (entered s)).

(** [for x in l: body(x)] *)
Fixpoint for_each {A} (l : list A) (body : A -> M unit) : M unit :=
  match l with
  | [] => ret tt
  | x :: rest => body x ;; for_each rest body
  end.

(** ** [_request] of [JiraBoard] and of [JiraAssets]

    The two methods differ in the URL prefix and in the text they log: the
    request is sent, and a failure comes back as a dict with an ["error"]
    key, never as an exception. *)

Definition error_value (r : response) : value :=
  match r with
  | Body v => v
  | NoBody => VNone
  | HttpError err text => VDict [("error", VStr err); ("response", VStr text)]
  | Failed err => VDict [("error", VStr err)]
  end.

Definition error_log (r : response) : list (level * message) :=
  match r with
  | HttpError err _ => [(ERROR, HttpErrorLogged err)]
  | Failed err => [(ERROR, RequestFailed err)]
  | _ => []
  end.

Definition _request (r : request) : M value :=
  fun s =>
    let rw := remote H r (world s) in
    (Ok (error_value (fst rw)),
     mkState (task_cache s) (snd rw) (requests s ++ [r])
             (log s ++ error_log (fst rw)) (entered s)).

(** ** app/jira_board.py *)

Record task_kwargs : Type := mkKwargs {
  assignee_id : option value;
  duedate : option value;
  task_labels : option value;
  custom_fields : option (list (string * value))
}.

(** [if x := kwargs.get(name): fields[field] = wrap(x)] *)
Definition set_if (kw : option value) (field : string)
    (wrap : value -> value) (fields : list (string * value))
  : list (string * value) :=
  match kw with
  | Some x => if Py.truthy x then Py.store field (wrap x) fields else fields
  | None => fields
  end.

Definition create_task (project_key summary description issue_type : string)
    (kwargs : task_kwargs) : M value :=
  if (project_key =? "") || (summary =? "") || (description =? "") then
    raise ValueError
  else
    let fields :=
      [("project", VDict [("key", VStr project_key)]);
       ("summary", VStr summary);
       ("description", VStr description);
       ("issuetype", VDict [("name", VStr issue_type)])] in
    let fields :=
      set_if (assignee_id kwargs) "assignee" (fun x => VDict [("id", x)]) fields in
    let fields := set_if (duedate kwargs) "duedate" (fun x => x) fields in
    let fields := set_if (task_labels kwargs) "labels" (fun x => x) fields in
    let fields :=
      match custom_fields kwargs with
      | Some (c :: cs) => Py.update fields (c :: cs)
      | _ => fields
      end in
    _request (CreateTask (VDict [("fields", VDict fields)])).

Definition get_task (issue_key : value) : M value :=
  _request (GetTask issue_key).

Definition add_comment (issue_key : value) (comment : string) : M value :=
  _request (AddComment issue_key comment).

Definition get_transitions (issue_key : value) : M value :=
  _request (GetTransitions issue_key).

Definition transition_task (issue_key transition_id : value) : M value :=
  _request (TransitionTask issue_key transition_id).

(** the loop of [find_transition_by_name] *)
Fixpoint find_transition (transitions : list value) (transition_name : string)
  : result value :=
  match transitions with
  | [] => Ok VNone
  | transition :: rest =>
      name <~ Py.getitem transition "name" ;;
      if Py.eq_str name transition_name then Py.getitem transition "id"
      else find_transition rest transition_name
  end.

Definition find_transition_by_name (issue_key : value)
    (transition_name : string) : M value :=
  transitions <- get_transitions issue_key ;;
  lift (listed <~ Py.get transitions "transitions" (VList []) ;;
        items <~ Py.iter listed ;;
        find_transition items transition_name).

Definition transition_task_by_name (issue_key : value)
    (transition_name : string) : M value :=
  transition_id <- find_transition_by_name issue_key transition_name ;;
  if negb (Py.truthy transition_id) then raise ValueError
  else transition_task issue_key transition_id.

(** ** app/jira_assets.py *)

(** the inner loop of [extract_attribute_values] *)
Fixpoint extract_values (entries values : list value) : result (list value) :=
  match entries with
  | [] => Ok values
  | value :: rest =>
      has_value <~ Py.contains_str "value" value ;;
      if has_value then
        v <~ Py.getitem value "value" ;;
        extract_values rest (values ++ [v])
      else
        has_reference <~ Py.contains_str "referencedObject" value ;;
        if has_reference then
          referenced <~ Py.getitem value "referencedObject" ;;
          label <~ Py.get referenced "label" VNone ;;
          extract_values rest (values ++ [label])
        else extract_values rest values
  end.

(** the outer loop of [extract_attribute_values] *)
Fixpoint extract_attributes (attribute_map : pydict value) (attrs : list value)
    (attributes : pydict (list value)) : result (pydict (list value)) :=
  match attrs with
  | [] => Ok attributes
  | attr :: rest =>
      attr_id <~ Py.getitem attr "objectTypeAttributeId" ;;
      attr_name <~ Py.dict_get attribute_map attr_id ;;
      if Py.truthy attr_name then
        raw <~ Py.get attr "objectAttributeValues" (VList []) ;;
        entries <~ Py.iter raw ;;
        values <~ extract_values entries [] ;;
        attributes' <~ Py.dict_setitem attributes attr_name values ;;
        extract_attributes attribute_map rest attributes'
      else extract_attributes attribute_map rest attributes
  end.

Definition extract_attribute_values (object_data : value)
    (attribute_map : pydict value) : result (pydict (list value)) :=
  raw <~ Py.get object_data "attributes" (VList []) ;;
  attrs <~ Py.iter raw ;;
  extract_attributes attribute_map attrs [].

Definition get_object_connected_tickets (object_id : value) : M value :=
  response <- _request (ConnectedTickets object_id) ;;
  if Py.truthy response then
    has_tickets <- lift (Py.contains_str "tickets" response) ;;
    if (has_tickets : bool) then lift (Py.getitem response "tickets")
    else ret (VList [])
  else ret (VList []).

Definition post_object_aql (query : string) : M value :=
  _request (ObjectAql query).

(** ** app/helpres.py *)

Definition get_task_cached (issue_key : value) : M value :=
  cache <- read_cache ;;
  present <- lift (Py.dict_contains cache issue_key) ;;
  (if negb present then
     task <- get_task issue_key ;;
     cache <- read_cache ;;
     cache' <- lift (Py.dict_setitem cache issue_key task) ;;
     write_cache cache'
   else ret tt) ;;
  cache <- read_cache ;;
  lift (Py.dict_getitem cache issue_key).

Definition clear_task_cache : M unit := write_cache [].

(** [attributes.get(name, [None])[0]] *)
Definition first_value (attributes : pydict (list value)) (name : string)
  : result value :=
  Py.first (match Py.find (VStr name) attributes with
            | Some values => values
            | None => [VNone]
            end).

(** [datetime.strptime(v, "%Y-%m-%d")] under [try]: a value that is not a
    string raises [TypeError], a string that does not parse [ValueError] *)
Definition parse_date (v : value) : option Z :=
  match v with
  | VStr text => strptime H text
  | _ => None
  end.

Definition extract_update_date (attributes : pydict (list value))
  : M (option Z) :=
  update_date_str <- lift (first_value attributes "Update") ;;
  if Py.truthy update_date_str then
    match parse_date update_date_str with
    | Some update_date => ret (Some update_date)
    | None => note ERROR ErrorParsingUpdateDate ;; ret None
    end
  else ret None.

Definition extract_assignee_name (attributes : pydict (list value))
  : result value :=
  first_value attributes "Primary Responsible Employee".

Definition is_task_for_update (task : value) : result bool :=
  if negb (Py.truthy task) then Ok false
  else
    fields <~ Py.get task "fields" (VDict []) ;;
    labels <~ Py.get fields "labels" (VList []) ;;
    Py.contains_str "AssetUpdate" labels.

(** the loop of [filter_update_issues] *)
Fixpoint filter_loop (linked_issues filtered : list value) : M (list value) :=
  match linked_issues with
  | [] => ret filtered
  | linked_issue :: rest =>
      issue_key <- lift (Py.get linked_issue "key" VNone) ;;
      task <- get_task_cached issue_key ;;
      keep <- lift (is_task_for_update task) ;;
      filter_loop rest
        (if (keep : bool) then filtered ++ [linked_issue] else filtered)
  end.

Definition filter_update_issues (linked_issues : value) : M (list value) :=
  items <- lift (Py.iter linked_issues) ;;
  filter_loop items [].

(** ** app/updater.py *)

(** [bool(os.getenv(name))] fails for an unset and for an empty variable *)
Definition getenv_set (v : option string) : option string :=
  match v with
  | Some s => if (s =? "") then None else Some s
  | None => None
  end.

(** [f"{os.getenv(name)}"] *)
Definition getenv_text (v : option string) : string :=
  match v with
  | Some s => s
  | None => "None"
  end.

(** [task.get("fields", {}).get("status", {}).get("name", "")] *)
Definition status_name (task : value) : result value :=
  fields <~ Py.get task "fields" (VDict []) ;;
  status <~ Py.get fields "status" (VDict []) ;;
  Py.get status "name" (VStr "").

Definition process_linked_update_issue (issue asset : value)
    (attributes : pydict (list value)) : M unit :=
  enter (ProcessLinkedUpdateIssue issue) ;;
  issue_key <- lift (Py.getitem issue "key") ;;
  task <- get_task_cached issue_key ;;
  if negb (Py.truthy task) then note WARNING (TaskNotFound issue_key)
  else
    status <- lift (status_name task) ;;
    update_date_str <- lift (first_value attributes "Update") ;;
    if negb (Py.truthy update_date_str) then note ERROR UpdatePropertyMissing
    else
      match update_date_str, parse_date update_date_str with
      | VStr date_text, Some update_date =>
          now <- now ;;
          if Py.ne_str status "Done" then
            if (update_date <=? now)%Z then
              if Py.ne_str status "In Progress" then
                _ <- lift (Py.get asset "id" VNone) ;;
                note INFO (TaskOverdue issue_key) ;;
                add_comment issue_key (COMMENT_REMINDER date_text) ;;
                transition_task_by_name issue_key "In Progress" ;;
                ret tt
              else
                _ <- lift (Py.get asset "id" VNone) ;;
                note INFO (TaskAlreadyInProgress issue_key)
            else
              _ <- lift (Py.get asset "id" VNone) ;;
              note INFO (TaskStuck issue_key)
          else
            if (update_date <=? now)%Z then
              _ <- lift (Py.get asset "id" VNone) ;;
              note INFO (TaskDoneOutdated issue_key) ;;
              add_comment issue_key COMMENT_REQUEST_UPDATE ;;
              ret tt
            else
              _ <- lift (Py.get asset "id" VNone) ;;
              note INFO (TaskDoneUpToDate issue_key)
      | _, _ => note ERROR (ErrorParsingTaskUpdateDate issue_key)
      end.

Definition create_update_task (asset : value)
    (attributes : pydict (list value)) (is_outdated : bool) : M unit :=
  enter (CreateUpdateTask is_outdated) ;;
  match getenv_set (JIRA_WORKSPACE_ID cfg), getenv_set (JIRA_PROJECT_KEY cfg) with
  | Some workspace_id, Some project_key =>
      asset_id <- lift (Py.get asset "id" VNone) ;;
      if negb (Py.truthy asset_id) then note ERROR AssetIdMissing
      else
        linked_issues <- get_object_connected_tickets asset_id ;;
        update_issues <- filter_update_issues linked_issues ;;
        match update_issues with
        | first_issue :: _ =>
            _ <- lift (Py.get first_issue "key" (VStr "")) ;;
            note INFO (AlreadyHasLinkedUpdateIssue asset_id)
        | [] =>
            let custom_field_id :=
              workspace_id ++ ":" ++ Py.str (repr H) asset_id in
            asset_name <- lift (first_value attributes "Name") ;;
            if negb (Py.truthy asset_name) then note ERROR NamePropertyMissing
            else
              duedate <- lift (first_value attributes "Update") ;;
              if negb (Py.truthy duedate) then note ERROR UpdatePropertyMissing
              else
                assignee_name <- lift (extract_assignee_name attributes) ;;
                assignee_id <-
                  (if Py.truthy assignee_name
                   then lift (Py.dict_get (ASSIGNEE_MAPPING cfg) assignee_name)
                   else ret VNone) ;;
                let task_payload :=
                  mkKwargs
                    (if Py.truthy assignee_id && negb (Py.key_eqb assignee_id (VInt 0))
                     then Some assignee_id else None)
                    (Some duedate)
                    (Some (VList [VStr "AssetUpdate"]))
                    (Some [("customfield_10191",
                            VList [VDict [("workspaceId", VStr workspace_id);
                                          ("id", VStr custom_field_id);
                                          ("objectId", asset_id)]])]) in
                response <-
                  create_task project_key
                    (TASK_SUMMARY_TEMPLATE (Py.str (repr H) asset_name))
                    (TASK_DESCRIPTION_TEMPLATE (Py.str (repr H) asset_name))
                    "Task" task_payload ;;
                if negb (Py.truthy response) then
                  note ERROR (FailedToCreateTask asset_id response)
                else
                  has_key <- lift (Py.contains_str "key" response) ;;
                  if negb has_key then
                    note ERROR (FailedToCreateTask asset_id response)
                  else
                    key <- lift (Py.getitem response "key") ;;
                    note INFO (CreatedNewUpdateTask asset_id key)
        end
  | _, _ => note ERROR EnvironmentNotSet
  end.

Definition handle_overdue_asset (asset : value)
    (attributes : pydict (list value)) : M unit :=
  enter (HandleOverdueAsset asset) ;;
  asset_id <- lift (Py.getitem asset "id") ;;
  linked_issues <- get_object_connected_tickets asset_id ;;
  update_issues <- filter_update_issues linked_issues ;;
  match update_issues with
  | _ :: _ =>
      for_each update_issues
        (fun issue => process_linked_update_issue issue asset attributes)
  | [] =>
      create_update_task asset attributes true ;;
      note INFO (NewUpdateTaskIsBeingCreated asset_id)
  end.

Definition active_statuses : list string := ["TO DO"; "In Progress"].

(** the loop of [handle_future_asset]; its result is [active_issue_found] *)
Fixpoint find_active_issue (asset_id : value) (update_issues : list value)
  : M bool :=
  match update_issues with
  | [] => ret false
  | issue :: rest =>
      issue_key <- lift (Py.getitem issue "key") ;;
      task <- get_task_cached issue_key ;;
      if negb (Py.truthy task) then
        note WARNING (LinkedTaskNotFound asset_id issue_key) ;;
        find_active_issue asset_id rest
      else
        status <- lift (status_name task) ;;
        if existsb (Py.eq_str status) active_statuses then
          note INFO (TaskIsActive asset_id issue_key status) ;;
          ret true
        else find_active_issue asset_id rest
  end.

Definition handle_future_asset (asset : value)
    (attributes : pydict (list value)) (update_date : Z) : M unit :=
  enter (HandleFutureAsset asset) ;;
  asset_id <- lift (Py.getitem asset "id") ;;
  linked_issues <- get_object_connected_tickets asset_id ;;
  update_issues <- filter_update_issues linked_issues ;;
  active_issue_found <- find_active_issue asset_id update_issues ;;
  if negb active_issue_found then
    create_update_task asset attributes false ;;
    note INFO (NewUpdateTaskIsBeingCreated asset_id)
  else ret tt.

(** the three branches of [process_asset_update] *)
Inductive urgency : Type := Overdue | DueSoon | Current.

Definition classify (update_date now : Z) : urgency :=
  let time_diff := (update_date - now)%Z in
  if (time_diff <=? 0)%Z then Overdue
  else if (time_diff <=? UPDATE_WARNING_SECONDS * SECOND)%Z then DueSoon
  else Current.

Definition process_asset_update (asset : value) : M unit :=
  attributes <- lift (extract_attribute_values asset (attribute_map cfg)) ;;
  update_date <- extract_update_date attributes ;;
  match update_date with
  | None => note WARNING NoValidUpdateDate
  | Some update_date =>
      now <- now ;;
      match classify update_date now with
      | Overdue =>
          note INFO RequiresUpdate ;;
          handle_overdue_asset asset attributes
      | DueSoon =>
          note INFO ScheduledForUpdate ;;
          handle_future_asset asset attributes update_date
      | Current => note INFO UpToDate
      end
  end.

Definition process_assets_with_update (assets : value) : M unit :=
  items <- lift (Py.iter assets) ;;
  for_each items process_asset_update.

(** one turn of the loop of [run_every_10_minutes], without the sleep *)
Definition run_iteration : M unit :=
  note INFO RunningIteration ;;
  clear_task_cache ;;
  assets <-
    post_object_aql
      ("objectTypeId = " ++ getenv_text (JIRA_ASSETS_OBJECT_TYPE_ID cfg) ++
       " AND Update is not EMPTY") ;;
  values <- lift (Py.get assets "values" (VList [])) ;;
  process_assets_with_update values ;;
  note INFO EndOfIteration.

End Program.

(** ** Observations on runs *)

Local Open Scope list_scope.

(** the requests of [l] that fetch the ticket of key [k] *)
Definition fetches_of (k : value) (l : list request) : nat :=
  List.length (filter (fun r => match r with
                           | GetTask k' => Py.key_eqb k k'
                           | _ => false
                           end) l).

(** requests that change nothing on the site *)
Definition is_read (r : request) : bool :=
  match r with
  | GetTask _ | GetTransitions _ | ConnectedTickets _ | ObjectAql _ => true
  | AddComment _ _ | TransitionTask _ _ | CreateTask _ => false
  end.

Definition is_create (r : request) : bool :=
  match r with
  | CreateTask _ => true
  | _ => false
  end.


Definition is_creator (e : entry) : bool :=
  match e with
  | CreateUpdateTask _ => true
  | _ => false
  end.


(** the site answers a read without changing: nobody else writes to it
    while a pass runs *)
Definition reads_pure (H : Host) : Prop :=
  forall r w, is_read r = true -> snd (remote H r w) = w.

(** the state after the ticket of key [k] was fetched and cached *)
Definition fetched (H : Host) (k : value) (s : St H) : St H :=
  let rw := remote H (GetTask k) (world s) in
  mkState (Py.set k (error_value (fst rw)) (task_cache s)) (snd rw)
          (requests s ++ [GetTask k]) (log s ++ error_log (fst rw))
          (entered s).

(** nothing was entered between [s] and [s'] *)
Definition kept (H : Host) (s s' : St H) : Prop := entered s' = entered s.

(** between [s] and [s'] nothing was entered, only reads were sent, the
    cache kept what it held, and a site that reads leave alone is as it was *)
Definition quiet (H : Host) (s s' : St H) : Prop :=
  entered s' = entered s /\
  (exists l, requests s' = requests s ++ l /\ forallb is_read l = true) /\
  (forall k t, Py.find k (task_cache s) = Some t ->
               Py.find k (task_cache s') = Some t) /\
  (reads_pure H -> world s' = world s).

(** nothing was sent between [s] and [s'] *)
Definition unsent (H : Host) (s s' : St H) : Prop := requests s' = requests s.

(** [c'] holds what [c] holds *)
Definition cache_le (c c' : pydict value) : Prop :=
  forall k t, Py.find k c = Some t -> Py.find k c' = Some t.

(** the first two statements of the handlers and of [create_update_task]:
    the linked tickets of the asset, filtered *)
Definition linked_update_issues (H : Host) (asset_id : value)
  : M H (list value) :=
  bind H (get_object_connected_tickets H asset_id) (filter_update_issues H).

(** the cache [c] holds, under the key of the link [issue], a ticket with
    the remediation label *)
Definition remediation_ticket (c : pydict value) (issue : value) : Prop :=
  exists k t,
    Py.get issue "key" VNone = Ok k /\ Py.hashable k = true /\
    Py.find k c = Some t /\ is_task_for_update t = Ok true.

(** the cache [c] holds the ticket of the link [issue], found, under [key],
    and its status reads [status] *)
Definition cached_status (c : pydict value) (issue key status : value) : Prop :=
  exists t,
    Py.getitem issue "key" = Ok key /\ Py.hashable key = true /\
    Py.find key c = Some t /\ Py.truthy t = true /\ status_name t = Ok status.

Definition is_active (status : value) : bool :=
  existsb (Py.eq_str status) active_statuses.

(** the first ticket, by (key, status), whose status is an active one *)
Fixpoint first_active (l : list (value * value)) : option (value * value) :=
  match l with
  | [] => None
  | (key, status) :: l' =>
      if is_active status then Some (key, status) else first_active l'
  end.

(** the state in which the decider compares the date with the clock *)
Definition at_clock (H : Host) (s1 : St H) (m : message) : St H :=
  snd (note H INFO m (snd (now H s1))).

(** what [create_update_task] does with the answer to its [create_task] *)
Definition after_create (H : Host) (asset_id response : value) : M H unit :=
  if negb (Py.truthy response) then
    note H ERROR (FailedToCreateTask asset_id response)
  else
    bind H (lift H (Py.contains_str "key" response))
      (fun has_key : bool =>
         if negb has_key then
           note H ERROR (FailedToCreateTask asset_id response)
         else
           bind H (lift H (Py.getitem response "key"))
             (fun key => note H INFO (CreatedNewUpdateTask asset_id key))).

(** the id [create_update_task] resolves for the responsible person *)
Definition resolved_assignee (cfg : Config) (assignee_name : value)
  : result value :=
  if Py.truthy assignee_name
  then Py.dict_get (ASSIGNEE_MAPPING cfg) assignee_name
  else Ok VNone.

(** [payload["fields"][name]] of a posted ticket, when it is there *)
Definition posted_field (payload : value) (name : string) : option value :=
  match payload with
  | VDict p =>
      match Py.lookup "fields" p with
      | Some (VDict fields) => Py.lookup name fields
      | _ => None
      end
  | _ => None
  end.



(** 1 when the cache of [s] holds the key [k], else 0 *)
Definition cached (H : Host) (k : value) (s : St H) : nat :=
  match Py.find k (task_cache s) with
  | Some _ => 1
  | None => 0
  end.

(** between [s] and [s'] a ticket was fetched exactly when its key entered
    the cache *)
Definition tracked (H : Host) (s s' : St H) : Prop :=
  exists l,
    requests s' = requests s ++ l /\
    forall k, fetches_of k l + cached H k s = cached H k s'.

Definition is_fetch (r : request) : bool :=
  match r with
  | GetTask _ => true
  | _ => false
  end.

(** ** Hosts and sites for the examples

    A host whose site answers every request from fixed tables, whose clock
    stands still and whose [strptime] reads the dates Python accepts for
    ["%Y-%m-%d"] when the digits are ASCII. *)

Module Iso.

Definition digit (c : ascii) : option Z :=
  let n := Z.of_nat (nat_of_ascii c) in
  if ((48 <=? n) && (n <=? 57))%Z then Some (n - 48)%Z else None.

Definition is_leap (y : Z) : bool :=
  (((y mod 4 =? 0) && negb (y mod 100 =? 0)) || (y mod 400 =? 0))%Z.

Definition days_in_month (y m : Z) : Z :=
  if (m =? 2)%Z then (if is_leap y then 29 else 28)%Z
  else if ((m =? 4) || (m =? 6) || (m =? 9) || (m =? 11))%Z then 30%Z
  else 31%Z.

Definition days_before_year (y : Z) : Z :=
  (365 * (y - 1) + (y - 1) / 4 - (y - 1) / 100 + (y - 1) / 400)%Z.

Definition days_before_month (y m : Z) : Z :=
  fold_left Z.add
    (map (fun i => days_in_month y (Z.of_nat i)) (seq 1 (Z.to_nat m - 1)))
    0%Z.

(** microseconds from 0001-01-01 00:00:00 to the given second *)
Definition instant (y m d hh mm ss : Z) : Z :=
  (((((days_before_year y + days_before_month y m + (d - 1)) * 24 + hh) * 60
      + mm) * 60 + ss) * 1000000)%Z.

(** [\d\d\d\d] *)
Definition read_year (l : list ascii) : option (Z * list ascii) :=
  match l with
  | c1 :: c2 :: c3 :: c4 :: rest =>
      match digit c1, digit c2, digit c3, digit c4 with
      | Some a, Some b, Some c, Some d =>
          Some ((((a * 10 + b) * 10 + c) * 10 + d)%Z, rest)
      | _, _, _, _ => None
      end
  | _ => None
  end.

Definition read_dash (l : list ascii) : option (list ascii) :=
  match l with
  | c :: rest => if Ascii.eqb c "-"%char then Some rest else None
  | [] => None
  end.

(** [1[0-2]|0[1-9]|[1-9]] *)
Definition read_month (l : list ascii) : option (Z * list ascii) :=
  match l with
  | c1 :: rest1 =>
      match digit c1 with
      | Some a =>
          let one := if (1 <=? a)%Z then Some (a, rest1) else None in
          match rest1 with
          | c2 :: rest2 =>
              match digit c2 with
              | Some b =>
                  if (((a =? 1) && (b <=? 2)) || ((a =? 0) && (1 <=? b)))%Z
                  then Some ((10 * a + b)%Z, rest2)
                  else one
              | None => one
              end
          | [] => one
          end
      | None => None
      end
  | [] => None
  end.

(** [3[0-1]|[1-2]\d|0[1-9]|[1-9]| [1-9]] *)
Definition read_day (l : list ascii) : option (Z * list ascii) :=
  match l with
  | c1 :: rest1 =>
      match digit c1 with
      | Some a =>
          let one := if (1 <=? a)%Z then Some (a, rest1) else None in
          match rest1 with
          | c2 :: rest2 =>
              match digit c2 with
              | Some b =>
                  if (((a =? 3) && (b <=? 1)) || (a =? 1) || (a =? 2)
                      || ((a =? 0) && (1 <=? b)))%Z
                  then Some ((10 * a + b)%Z, rest2)
                  else one
              | None => one
              end
          | [] => one
          end
      | None =>
          if Ascii.eqb c1 " "%char then
            match rest1 with
            | c2 :: rest2 =>
                match digit c2 with
                | Some b => if (1 <=? b)%Z then Some (b, rest2) else None
                | None => None
                end
            | [] => None
            end
          else None
      end
  | [] => None
  end.

Definition strptime (text : string) : option Z :=
  match read_year (list_ascii_of_string text) with
  | Some (y, l1) =>
      match read_dash l1 with
      | Some l2 =>
          match read_month l2 with
          | Some (m, l3) =>
              match read_dash l3 with
              | Some l4 =>
                  match read_day l4 with
                  | Some (d, []) =>
                      if ((1 <=? y) && (d <=? days_in_month y m))%Z
                      then Some (instant y m d 0 0 0)
                      else None
                  | _ => None
                  end
              | None => None
              end
          | None => None
          end
      | None => None
      end
  | None => None
  end.

End Iso.

Definition site_host (answer : request -> response) (clock_reads : Z) : Host :=
  mkHost unit
         (fun r w => (answer r, w))
         (fun w => (clock_reads, w))
         Iso.strptime
         (fun _ => "[...]").

Definition fresh {W} (w : W) : state W := mkState [] w [] [] [].

Fixpoint assoc {A} (k : string) (l : list (string * A)) : option A :=
  match l with
  | [] => None
  | (k', a) :: l' => if (k' =? k)%string then Some a else assoc k l'
  end.

(** a ticket as [GET rest/api/2/issue/{key}] returns it *)
Definition ticket (status : string) (labels : list string) : value :=
  VDict [("fields",
          VDict [("status", VDict [("name", VStr status)]);
                 ("labels", VList (map VStr labels))])].

(** an entry of the connected-tickets answer *)
Definition link (key : string) : value := VDict [("key", VStr key)].

Definition literal (attr_id text : string) : value :=
  VDict [("objectTypeAttributeId", VStr attr_id);
         ("objectAttributeValues", VList [VDict [("value", VStr text)]])].

(** an asset with a name and an update date *)
Definition asset_record (id name update : string) : value :=
  VDict [("id", VStr id);
         ("attributes", VList [literal "134" name; literal "140" update])].

(** the attributes the extractor reads off [asset_record id name update] *)
Definition attributes_of (name update : string) : pydict (list value) :=
  [(VStr "Name", [VStr name]); (VStr "Update", [VStr update])].

(** the attributes of an asset that also names its responsible person *)
Definition attributes_for (name update responsible : string)
  : pydict (list value) :=
  [(VStr "Name", [VStr name]); (VStr "Update", [VStr update]);
   (VStr "Primary Responsible Employee", [VStr responsible])].


Record site : Type := mkSite {
  site_assets : list value;                       (* answer to the AQL query *)
  site_links : list (string * list string);       (* asset id, ticket keys *)
  site_tickets : list (string * value);           (* ticket key, ticket *)
  site_transitions : list (string * list (string * string))
                                                  (* ticket key, (id, name) *)
}.

Definition site_answer (st : site) (r : request) : response :=
  match r with
  | ObjectAql _ => Body (VDict [("values", VList (site_assets st))])
  | ConnectedTickets (VStr id) =>
      match assoc id (site_links st) with
      | Some keys => Body (VDict [("tickets", VList (map link keys))])
      | None => Body (VDict [("tickets", VList [])])
      end
  | GetTask (VStr key) =>
      match assoc key (site_tickets st) with
      | Some t => Body t
      | None => HttpError "404 Client Error: Not Found" "Issue does not exist"
      end
  | GetTransitions (VStr key) =>
      match assoc key (site_transitions st) with
      | Some ts =>
          Body (VDict [("transitions",
                        VList (map (fun t => VDict [("id", VStr (fst t));
                                                    ("name", VStr (snd t))])
                                   ts))])
      | None => HttpError "404 Client Error: Not Found" "Issue does not exist"
      end
  | AddComment _ _ => Body (VDict [("id", VStr "10000")])
  | TransitionTask _ _ => NoBody
  | CreateTask _ => Body (VDict [("id", VStr "10100"); ("key", VStr "OPS-100")])
  | _ => Failed "No connection adapters were found"
  end.

Definition demo_config : Config :=
  mkConfig (Some "ws-1") (Some "OPS") (Some "7")
           [(VStr "134", VStr "Name"); (VStr "140", VStr "Update");
            (VStr "141", VStr "Primary Responsible Employee")]
           [(VStr "Ann Lee", VStr "acc-1"); (VStr "Bo Ek", VInt 0)].

(** the clock of the examples reads 2024-06-01 00:00:00 *)
Definition demo_now : Z := Iso.instant 2024 6 1 0 0 0.

Definition demo_host (st : site) : Host := site_host (site_answer st) demo_now.

(** two overdue assets; the workflow of their tickets names the move to
    "In Progress" differently, as Jira workflows commonly do *)
Definition stuck_site : site :=
  mkSite [asset_record "1" "Laptop" "2024-01-01";
          asset_record "2" "Printer" "2024-01-01"]
         [("1", ["AU-1"; "AU-2"]); ("2", ["AU-3"])]
         [("AU-1", ticket "To Do" ["AssetUpdate"]);
          ("AU-2", ticket "To Do" ["AssetUpdate"]);
          ("AU-3", ticket "To Do" ["AssetUpdate"])]
         [("AU-1", [("11", "Start Progress"); ("31", "Done")]);
          ("AU-2", [("11", "Start Progress"); ("31", "Done")]);
          ("AU-3", [("11", "Start Progress"); ("31", "Done")])].

(** the same assets on a workflow that offers "In Progress" *)
Definition plain_site : site :=
  mkSite [asset_record "1" "Laptop" "2024-01-01";
          asset_record "2" "Printer" "2024-01-01"]
         [("1", ["AU-1"; "AU-2"]); ("2", ["AU-3"])]
         [("AU-1", ticket "To Do" ["AssetUpdate"]);
          ("AU-2", ticket "In Progress" ["AssetUpdate"]);
          ("AU-3", ticket "Done" ["AssetUpdate"])]
         [("AU-1", [("21", "In Progress"); ("31", "Done")]);
          ("AU-2", [("31", "Done")]);
          ("AU-3", [("11", "To Do")])].

(** an asset due on 2024-06-04, three days after the clock of the examples,
    with one linked remediation ticket of the given status *)
Definition soon_site (status : string) : site :=
  mkSite [asset_record "5" "Router" "2024-06-04"]
         [("5", ["AU-9"])]
         [("AU-9", ticket status ["AssetUpdate"])]
         [("AU-9", [("21", "In Progress"); ("31", "Done")])].

(** an asset without linked tickets *)
Definition bare_site : site :=
  mkSite [asset_record "1" "Laptop" "2024-01-01"] [] [] [].

(** ** More of the clients *)

(** [JiraBoard.is_task_done]: the ticket is fetched from the site, not from
    the cache *)
Definition is_task_done (H : Host) (issue_key : value) : M H bool :=
  bind H (get_task H issue_key)
    (fun task =>
       if Py.truthy task then
         lift H (fields <~ Py.get task "fields" (VDict []) ;;
                 status <~ Py.get fields "status" (VDict []) ;;
                 name <~ Py.get status "name" VNone ;;
                 Ok (Py.eq_str name "Done"))
       else ret H false).

(** one condition of [JiraAssets.build_aql_query] *)
Definition aql_condition (repr : value -> string) (field : string)
    (v : value) : string :=
  match v with
  | VList items =>
      (field ++ " IN (" ++ String.concat ", " (map (Py.str repr) items)
         ++ ")")%string
  | VStr text => (field ++ " = " ++ ("'" ++ text ++ "'"))%string
  | _ => (field ++ " = " ++ Py.str repr v)%string
  end.

(** [JiraAssets.build_aql_query]; [filters] are the items of the dict, in
    its order *)
Definition build_aql_query (H : Host) (filters : list (string * value))
  : string :=
  String.concat " AND "
    (map (fun fv => aql_condition (repr H) (fst fv) (snd fv)) filters).

(** [JiraAssets.get_assets_by_filter] *)
Definition get_assets_by_filter (H : Host) (filters : list (string * value))
  : M H value :=
  post_object_aql H (build_aql_query H filters).

(** the comprehension of [JiraAssets.get_attribute_dict] *)
Fixpoint attribute_pairs (attributes : list value) (d : pydict value)
  : result (pydict value) :=
  match attributes with
  | [] => Ok d
  | attr :: rest =>
      attr_id <~ Py.getitem attr "id" ;;
      attr_name <~ Py.getitem attr "name" ;;
      d' <~ Py.dict_setitem d attr_id attr_name ;;
      attribute_pairs rest d'
  end.

(** [JiraAssets.get_attribute_dict], from what [get_object_attributes]
    returned on *)
Definition attribute_dict_of (attributes : value) : result (pydict value) :=
  if negb (Py.truthy attributes) then Ok []
  else
    items <~ Py.iter attributes ;;
    attribute_pairs items [].

(** ** More observations *)

(** the answer carries no JSON body *)
Definition is_failure (r : response) : bool :=
  match r with
  | Body _ => false
  | NoBody | HttpError _ _ | Failed _ => true
  end.

(** the cache [c] holds a labelled ticket under the key of the link *)
Definition labelled (c : pydict value) (issue : value) : bool :=
  match Py.get issue "key" VNone with
  | Ok k =>
      match Py.find k c with
      | Some t =>
          match is_task_for_update t with
          | Ok keep => keep
          | Raise _ => false
          end
      | None => false
      end
  | Raise _ => false
  end.

(** an entry of a listing of the site, a transition of a ticket or an
    attribute of an object type, with its id and its name *)
Definition listed_as (transition : value) (id_name : value * value) : Prop :=
  exists d,
    transition = VDict d /\
    Py.lookup "name" d = Some (snd id_name) /\
    Py.lookup "id" d = Some (fst id_name).

(** the id of the first listed transition of that name *)
Fixpoint first_named (name : string) (l : list (value * value)) : value :=
  match l with
  | [] => VNone
  | (id, n) :: l' => if Py.eq_str n name then id else first_named name l'
  end.

(** how the reminder starts, whatever the date *)
Definition REMINDER_HEAD : string :=
  "Reminder: The asset update is overdue (Update date: ".

(** what a pass may send: any read, any transition, one of the two comments,
    a ticket with the label and a due date *)
Definition proper_request (r : request) : bool :=
  match r with
  | AddComment _ c =>
      (c =? COMMENT_REQUEST_UPDATE)%string || String.prefix REMINDER_HEAD c
  | CreateTask p =>
      match posted_field p "labels", posted_field p "duedate" with
      | Some (VList [VStr l]), Some d =>
          (l =? "AssetUpdate")%string && Py.truthy d
      | _, _ => false
      end
  | _ => true
  end.

Definition proper (H : Host) (s s' : St H) : Prop :=
  exists l, requests s' = requests s ++ l /\ forallb proper_request l = true.

(** between [s] and [s'] at most [n] tickets were posted *)
Definition creates (H : Host) (n : nat) (s s' : St H) : Prop :=
  exists l,
    requests s' = requests s ++ l /\ List.length (filter is_create l) <= n.

(** the cache of [s'] holds what the cache of [s] holds *)
Definition remembers (H : Host) (s s' : St H) : Prop :=
  cache_le (task_cache s) (task_cache s').

(** the name the catalogue lists last for [attr_id] *)
Fixpoint listed_name (attr_id : value) (l : list (value * value))
  : option value :=
  match l with
  | [] => None
  | (i, n) :: l' =>
      match listed_name attr_id l' with
      | Some n' => Some n'
      | None => if Py.key_eqb i attr_id then Some n else None
      end
  end.

(** a site that cannot answer the link query *)
Definition outage_answer (r : request) : response :=
  match r with
  | ConnectedTickets _ => HttpError "503 Server Error" "Service Unavailable"
  | CreateTask _ => Body (VDict [("id", VStr "10100"); ("key", VStr "OPS-100")])
  | _ => Failed "Connection refused"
  end.


(** an asset whose links mix remediation tickets with a ticket of another
    kind and with one the site no longer has *)
Definition mixed_site : site :=
  mkSite [asset_record "1" "Laptop" "2024-01-01"]
         [("1", ["AU-1"; "HR-7"; "AU-404"; "AU-2"])]
         [("AU-1", ticket "To Do" ["AssetUpdate"]);
          ("HR-7", ticket "To Do" ["Onboarding"]);
          ("AU-2", ticket "Done" ["AssetUpdate"; "Hardware"])]
         [("AU-1", [("21", "In Progress"); ("31", "Done")])].


(** the optional argument [kw] of [create_task], when it is given and truthy *)
Definition given (kw : option value) : option value :=
  match kw with
  | Some x => if Py.truthy x then Some x else None
  | None => None
  end.

(** the field [name] of the ticket [create_task] posts: the custom field of
    that name, the last one, else the field the other arguments give *)
Definition expected_field (project_key summary description issue_type : string)
    (kwargs : task_kwargs) (name : string) : option value :=
  let custom := match custom_fields kwargs with Some l => l | None => [] end in
  match Py.lookup name (rev custom) with
  | Some v => Some v
  | None =>
      if (name =? "project")%string then
        Some (VDict [("key", VStr project_key)])
      else if (name =? "summary")%string then Some (VStr summary)
      else if (name =? "description")%string then Some (VStr description)
      else if (name =? "issuetype")%string then
        Some (VDict [("name", VStr issue_type)])
      else if (name =? "assignee")%string then
        option_map (fun x => VDict [("id", x)]) (given (assignee_id kwargs))
      else if (name =? "duedate")%string then given (duedate kwargs)
      else if (name =? "labels")%string then given (task_labels kwargs)
      else None
  end.


(** nothing was sent and nothing entered between [s] and [s'] *)
Definition idle (H : Host) (s s' : St H) : Prop :=
  requests s' = requests s /\ entered s' = entered s.

(** the query of a pass *)
Definition pass_query (cfg : Config) : string :=
  ("objectTypeId = " ++ getenv_text (JIRA_ASSETS_OBJECT_TYPE_ID cfg) ++
   " AND Update is not EMPTY")%string.


(** the state in which a pass starts on the assets: the cache is empty and
    the query was sent *)
Definition after_query (H : Host) (cfg : Config) (s : St H) : St H :=
  snd (_request H (ObjectAql (pass_query cfg))
         (snd (clear_task_cache H (snd (note H INFO RunningIteration s))))).

(** the site of [soon_site "Done"] on a bad day: it answers the first query
    for the links of an asset and fails on every later one; the world counts
    the link queries *)
Definition flaky_host : Host :=
  mkHost nat
         (fun r n =>
            match r with
            | ConnectedTickets _ =>
                (if Nat.eqb n 0 then site_answer (soon_site "Done") r
                 else HttpError "503 Server Error" "Service Unavailable",
                 S n)
            | _ => (site_answer (soon_site "Done") r, n)
            end)
         (fun n => (demo_now, n))
         Iso.strptime
         (fun _ => "[...]").


(** * Properties *)

Section Properties.

Variable H : Host.
Variable cfg : Config.

(** ** Keys of the cache *)

Lemma key_eqb_refl k : Py.hashable k = true -> Py.key_eqb k k = true.
Proof.
  destruct k as [| b | n | s | l | d]; simpl; intros Hk; try discriminate.
  - reflexivity.
  - destruct b; reflexivity.
  - apply Z.eqb_refl.
  - apply String.eqb_refl.
Qed.

Lemma key_eqb_sym a b : Py.key_eqb a b = Py.key_eqb b a.
Proof.
  destruct a as [| x | x | x | x | x], b as [| y | y | y | y | y]; simpl;
    try reflexivity.
  - destruct x, y; reflexivity.
  - apply Z.eqb_sym.
  - apply Z.eqb_sym.
  - apply Z.eqb_sym.
  - apply String.eqb_sym.
Qed.

Lemma key_eqb_trans a b c :
  Py.key_eqb a b = true -> Py.key_eqb b c = true -> Py.key_eqb a c = true.
Proof.
  destruct a as [| x | x | x | x | x], b as [| y | y | y | y | y],
           c as [| z | z | z | z | z]; simpl; try discriminate; try reflexivity;
    rewrite ?Z.eqb_eq, ?String.eqb_eq, ?Bool.eqb_true_iff;
    unfold Py.int_of_bool; intros; subst; try reflexivity;
    repeat match goal with b : bool |- _ => destruct b end;
    try reflexivity; try discriminate; try lia.
Qed.

Lemma find_set_same {A} k (a : A) d :
  Py.hashable k = true -> Py.find k (Py.set k a d) = Some a.
Proof.
  intros Hk. induction d as [| [k' a'] d IH]; simpl.
  - rewrite key_eqb_refl by assumption. reflexivity.
  - destruct (Py.key_eqb k' k) eqn:E; simpl; rewrite E; auto.
Qed.

Lemma find_set_other {A} k k2 (a : A) d :
  Py.key_eqb k k2 = false -> Py.find k2 (Py.set k a d) = Py.find k2 d.
Proof.
  intros Hne. induction d as [| [k' a'] d IH]; simpl.
  - rewrite Hne. reflexivity.
  - destruct (Py.key_eqb k' k) eqn:E; simpl.
    + destruct (Py.key_eqb k' k2) eqn:E2; [| reflexivity].
      rewrite key_eqb_sym in E.
      rewrite (key_eqb_trans _ _ _ E E2) in Hne. discriminate.
    + destruct (Py.key_eqb k' k2); [reflexivity | apply IH].
Qed.

Lemma find_equal_keys {A} k k2 (d : pydict A) :
  Py.key_eqb k k2 = true -> Py.find k2 d = Py.find k d.
Proof.
  intros He. induction d as [| [k' a'] d IH]; simpl; [reflexivity |].
  destruct (Py.key_eqb k' k) eqn:E.
  - rewrite (key_eqb_trans _ _ _ E He). reflexivity.
  - destruct (Py.key_eqb k' k2) eqn:E2; [| apply IH].
    rewrite key_eqb_sym in He.
    rewrite (key_eqb_trans _ _ _ E2 He) in E. discriminate.
Qed.

(** ** The cache: what one lookup does *)

Lemma get_task_cached_unhashable k (s : St H) :
  Py.hashable k = false -> get_task_cached H k s = (Raise TypeError, s).
Proof.
  intros Hk. unfold get_task_cached, bind, read_cache, lift, Py.dict_contains.
  rewrite Hk. reflexivity.
Qed.

Lemma get_task_cached_hit k t (s : St H) :
  Py.hashable k = true -> Py.find k (task_cache s) = Some t ->
  get_task_cached H k s = (Ok t, s).
Proof.
  intros Hk Hf.
  unfold get_task_cached, bind, read_cache, lift, Py.dict_contains,
    Py.dict_getitem, ret.
  rewrite Hk, Hf. simpl. rewrite Hf. reflexivity.
Qed.

Lemma get_task_cached_miss k (s : St H) :
  Py.hashable k = true -> Py.find k (task_cache s) = None ->
  get_task_cached H k s =
    (Ok (error_value (fst (remote H (GetTask k) (world s)))), fetched H k s).
Proof.
  intros Hk Hf.
  unfold get_task_cached, bind, read_cache, lift, Py.dict_contains,
    Py.dict_getitem, Py.dict_setitem, ret, get_task, _request, write_cache,
    fetched.
  rewrite Hk, Hf. simpl.
  rewrite find_set_same by assumption. reflexivity.
Qed.

Lemma lookup_caches k t (s s1 : St H) :
  get_task_cached H k s = (Ok t, s1) ->
  Py.hashable k = true /\ Py.find k (task_cache s1) = Some t.
Proof.
  intros E. destruct (Py.hashable k) eqn:Hk.
  - split; [reflexivity |].
    destruct (Py.find k (task_cache s)) as [t' |] eqn:Ef.
    + rewrite (get_task_cached_hit k t' s Hk Ef) in E. inversion E; subst.
      exact Ef.
    + rewrite (get_task_cached_miss k s Hk Ef) in E. inversion E; subst.
      simpl. apply find_set_same. exact Hk.
  - rewrite (get_task_cached_unhashable k s Hk) in E. discriminate.
Qed.



(** ** Runs, step by step *)

Lemma bind_cases {A B} (m : M H A) (k : A -> M H B) (s : St H) :
  (exists a s', m s = (Ok a, s') /\ bind H m k s = k a s') \/
  (exists e s', m s = (Raise e, s') /\ bind H m k s = (Raise e, s')).
Proof.
  unfold bind. destruct (m s) as [[a | e] s'].
  - left. exists a, s'. split; reflexivity.
  - right. exists e, s'. split; reflexivity.
Qed.

Lemma bind_ok {A B} (m : M H A) (k : A -> M H B) (s s' : St H) a :
  m s = (Ok a, s') -> bind H m k s = k a s'.
Proof. intros E. unfold bind. rewrite E. reflexivity. Qed.

Lemma bind_raise {A B} (m : M H A) (k : A -> M H B) (s s' : St H) e :
  m s = (Raise e, s') -> bind H m k s = (Raise e, s').
Proof. intros E. unfold bind. rewrite E. reflexivity. Qed.

Lemma bind_lift {A B} (r : result A) (k : A -> M H B) (s : St H) :
  bind H (lift H r) k s =
    match r with
    | Ok a => k a s
    | Raise e => (Raise e, s)
    end.
Proof. unfold bind, lift. destruct r; reflexivity. Qed.

(** ** Frames: what a computation leaves alone

    [respects R m]: every run of [m] takes a state to an [R]-related one. *)

Definition respects {A} (R : St H -> St H -> Prop) (m : M H A) : Prop :=
  forall s, R s (snd (m s)).

Section Frame.

Variable R : St H -> St H -> Prop.
Variable allowed : request -> bool.
Hypothesis R_refl : forall s, R s s.
Hypothesis R_trans : forall s1 s2 s3, R s1 s2 -> R s2 s3 -> R s1 s3.
Hypothesis R_note : forall l m, respects R (note H l m).
Hypothesis R_request : forall r, allowed r = true -> respects R (_request H r).
Hypothesis R_lookup : forall k, respects R (get_task_cached H k).

Lemma respects_ret {A} (a : A) : respects R (ret H a).
Proof. intros s. apply R_refl. Qed.

Lemma respects_raise {A} e : respects R (@raise H A e).
Proof. intros s. apply R_refl. Qed.

Lemma respects_lift {A} (r : result A) : respects R (lift H r).
Proof. intros s. apply R_refl. Qed.

Lemma respects_bind {A B} (m : M H A) (k : A -> M H B) :
  respects R m -> (forall a, respects R (k a)) -> respects R (bind H m k).
Proof.
  intros Hm Hk s.
  destruct (bind_cases m k s) as [(a & s' & E & ->) | (e & s' & E & ->)];
    specialize (Hm s); rewrite E in Hm; simpl in Hm.
  - eapply R_trans; [exact Hm | apply Hk].
  - exact Hm.
Qed.

Lemma respects_for_each {A} (l : list A) (body : A -> M H unit) :
  (forall x, respects R (body x)) -> respects R (for_each H l body).
Proof.
  intros Hb. induction l as [| x l IH]; simpl.
  - apply respects_ret.
  - apply respects_bind; [apply Hb | intros _; exact IH].
Qed.

Lemma respects_filter_loop (l : list value) :
  forall filtered, respects R (filter_loop H l filtered).
Proof.
  induction l as [| x l IH]; intros filtered; simpl.
  - apply respects_ret.
  - apply respects_bind; [apply respects_lift | intros k].
    apply respects_bind; [apply R_lookup | intros t].
    apply respects_bind; [apply respects_lift | intros b]. apply IH.
Qed.

Lemma respects_filter_update_issues (linked : value) :
  respects R (filter_update_issues H linked).
Proof.
  unfold filter_update_issues.
  apply respects_bind; [apply respects_lift | intros l].
  apply respects_filter_loop.
Qed.

Lemma respects_connected_tickets (object_id : value) :
  allowed (ConnectedTickets object_id) = true ->
  respects R (get_object_connected_tickets H object_id).
Proof.
  intros Ha. unfold get_object_connected_tickets.
  apply respects_bind; [apply R_request; exact Ha | intros response].
  destruct (Py.truthy response); [| apply respects_ret].
  apply respects_bind; [apply respects_lift | intros b].
  destruct b; [apply respects_lift | apply respects_ret].
Qed.

Lemma respects_find_active_issue asset_id (l : list value) :
  respects R (find_active_issue H asset_id l).
Proof.
  induction l as [| x l IH]; simpl.
  - apply respects_ret.
  - apply respects_bind; [apply respects_lift | intros k].
    apply respects_bind; [apply R_lookup | intros t].
    destruct (negb (Py.truthy t)).
    + apply respects_bind; [apply R_note | intros _; exact IH].
    + apply respects_bind; [apply respects_lift | intros st].
      match goal with |- respects _ (if ?c then _ else _) => destruct c end;
        [| exact IH].
      apply respects_bind; [apply R_note | intros _; apply respects_ret].
Qed.

Lemma respects_find_transition_by_name k name :
  allowed (GetTransitions k) = true ->
  respects R (find_transition_by_name H k name).
Proof.
  intros Ha. unfold find_transition_by_name, get_transitions.
  apply respects_bind; [apply R_request; exact Ha | intros t].
  apply respects_lift.
Qed.

Lemma respects_transition_task_by_name k name :
  allowed (GetTransitions k) = true ->
  (forall i, allowed (TransitionTask k i) = true) ->
  respects R (transition_task_by_name H k name).
Proof.
  intros Ha Hb. unfold transition_task_by_name.
  apply respects_bind;
    [apply respects_find_transition_by_name; exact Ha | intros i].
  destruct (negb (Py.truthy i)); [apply respects_raise |].
  apply R_request. apply Hb.
Qed.

Lemma respects_create_task pk sm ds it kw :
  (forall p, allowed (CreateTask p) = true) ->
  respects R (create_task H pk sm ds it kw).
Proof.
  intros Ha. unfold create_task.
  destruct ((pk =? "") || (sm =? "") || (ds =? ""))%string;
    [apply respects_raise | apply R_request; apply Ha].
Qed.

End Frame.

(** ** The two frames used below *)

Lemma kept_refl (s : St H) : kept H s s.
Proof. reflexivity. Qed.

Lemma kept_trans (s1 s2 s3 : St H) : kept H s1 s2 -> kept H s2 s3 -> kept H s1 s3.
Proof. unfold kept. congruence. Qed.

Lemma kept_note l m : respects (kept H) (note H l m).
Proof. intros s. reflexivity. Qed.

Lemma kept_now : respects (kept H) (now H).
Proof. intros s. reflexivity. Qed.

Lemma kept_request r : respects (kept H) (_request H r).
Proof. intros s. reflexivity. Qed.

Lemma kept_lookup k : respects (kept H) (get_task_cached H k).
Proof.
  intros s. destruct (Py.hashable k) eqn:Hk.
  - destruct (Py.find k (task_cache s)) as [t |] eqn:Ef.
    + rewrite (get_task_cached_hit k t s Hk Ef). reflexivity.
    + rewrite (get_task_cached_miss k s Hk Ef). reflexivity.
  - rewrite (get_task_cached_unhashable k s Hk). reflexivity.
Qed.

Lemma quiet_refl (s : St H) : quiet H s s.
Proof.
  repeat split; auto. exists []. rewrite app_nil_r. split; reflexivity.
Qed.

Lemma quiet_trans (s1 s2 s3 : St H) :
  quiet H s1 s2 -> quiet H s2 s3 -> quiet H s1 s3.
Proof.
  intros (E1 & (l1 & Q1 & F1) & C1 & W1) (E2 & (l2 & Q2 & F2) & C2 & W2).
  repeat split.
  - congruence.
  - exists (l1 ++ l2). rewrite Q2, Q1, app_assoc. split; [reflexivity |].
    rewrite forallb_app, F1, F2. reflexivity.
  - auto.
  - intros P. rewrite (W2 P). apply W1. exact P.
Qed.

Lemma quiet_note l m : respects (quiet H) (note H l m).
Proof.
  intros s. simpl. repeat split; auto.
  exists []. rewrite app_nil_r. split; reflexivity.
Qed.

Lemma quiet_request r : is_read r = true -> respects (quiet H) (_request H r).
Proof.
  intros Hr s. simpl. repeat split; auto.
  - exists [r]. split; [reflexivity |]. simpl. rewrite Hr. reflexivity.
  - intros P. apply P. exact Hr.
Qed.

Lemma quiet_lookup k : respects (quiet H) (get_task_cached H k).
Proof.
  intros s. destruct (Py.hashable k) eqn:Hk.
  - destruct (Py.find k (task_cache s)) as [t |] eqn:Ef.
    + rewrite (get_task_cached_hit k t s Hk Ef). apply quiet_refl.
    + rewrite (get_task_cached_miss k s Hk Ef). simpl. repeat split.
      * exists [GetTask k]. split; reflexivity.
      * intros k2 t2 Ek2. simpl.
        destruct (Py.key_eqb k k2) eqn:Ekk.
        -- rewrite (find_equal_keys k k2 _ Ekk) in Ek2. congruence.
        -- rewrite find_set_other by exact Ekk. exact Ek2.
      * intros P. simpl. apply P. reflexivity.
  - rewrite (get_task_cached_unhashable k s Hk). apply quiet_refl.
Qed.

Create HintDb frame.

#[local] Hint Resolve kept_refl kept_trans kept_note kept_now kept_request
  kept_lookup quiet_refl quiet_trans quiet_note quiet_request quiet_lookup
  : frame.

(** a frame goal, taken apart along the program text; [allowed] tells which
    requests the frame admits *)
Ltac frame_with allowed :=
  repeat (intros;
    match goal with
    | |- respects _ (bind _ _ _) => apply respects_bind
    | |- respects _ (ret _ _) => apply respects_ret
    | |- respects _ (raise _ _) => apply respects_raise
    | |- respects _ (lift _ _) => apply respects_lift
    | |- respects _ (for_each _ _ _) => apply respects_for_each
    | |- respects _ (filter_update_issues _ _) =>
        eapply respects_filter_update_issues
    | |- respects ?R (get_object_connected_tickets _ _) =>
        eapply (respects_connected_tickets R allowed)
    | |- respects _ (find_active_issue _ _ _) =>
        eapply respects_find_active_issue
    | |- respects ?R (transition_task_by_name _ _ _) =>
        eapply (respects_transition_task_by_name R allowed)
    | |- respects ?R (create_task _ _ _ _ _ _) =>
        eapply (respects_create_task R allowed)
    | |- respects _ (add_comment _ _ _) => unfold add_comment
    | |- respects _ (if ?c then _ else _) => destruct c
    | |- respects _ (match ?x with _ => _ end) => destruct x
    | |- _ = true => reflexivity
    | |- _ => solve [eauto with frame]
    | |- _ => progress cbv zeta
    end).

Lemma quiet_linked_update_issues asset_id :
  respects (quiet H) (linked_update_issues H asset_id).
Proof. unfold linked_update_issues. frame_with is_read. Qed.


Lemma kept_creator_body asset attributes is_outdated :
  exists body,
    create_update_task H cfg asset attributes is_outdated =
      bind H (enter H (CreateUpdateTask is_outdated)) (fun _ => body) /\
    respects (kept H) body.
Proof.
  eexists. split; [reflexivity |]. frame_with (fun _ : request => true).
Qed.


Lemma creator_enters_once asset attributes is_outdated (s : St H) :
  entered (snd (create_update_task H cfg asset attributes is_outdated s)) =
    entered s ++ [CreateUpdateTask is_outdated].
Proof.
  destruct (kept_creator_body asset attributes is_outdated) as (body & -> & Hb).
  unfold bind, enter. simpl. apply Hb.
Qed.

Lemma bind_assoc {A B C} (m : M H A) (f : A -> M H B) (g : B -> M H C)
    (s : St H) :
  bind H (bind H m f) g s = bind H m (fun x => bind H (f x) g) s.
Proof.
  unfold bind. destruct (m s) as [[a | e] s']; reflexivity.
Qed.

(** ** A pass fetches a ticket at most once *)

Lemma fetches_of_app k l1 l2 :
  fetches_of k (l1 ++ l2) = fetches_of k l1 + fetches_of k l2.
Proof. unfold fetches_of. rewrite filter_app, length_app. reflexivity. Qed.

Lemma tracked_refl (s : St H) : tracked H s s.
Proof. exists []. rewrite app_nil_r. split; reflexivity. Qed.

Lemma tracked_trans (s1 s2 s3 : St H) :
  tracked H s1 s2 -> tracked H s2 s3 -> tracked H s1 s3.
Proof.
  intros (l1 & Q1 & F1) (l2 & Q2 & F2). exists (l1 ++ l2). split.
  - rewrite Q2, Q1, app_assoc. reflexivity.
  - intros k. rewrite fetches_of_app, <- F2, <- F1. lia.
Qed.

Lemma tracked_note l m : respects (tracked H) (note H l m).
Proof.
  intros s. exists []. simpl. rewrite app_nil_r. split; reflexivity.
Qed.

Lemma tracked_enter e : respects (tracked H) (enter H e).
Proof.
  intros s. exists []. simpl. rewrite app_nil_r. split; reflexivity.
Qed.

Lemma tracked_now : respects (tracked H) (now H).
Proof.
  intros s. exists []. simpl. rewrite app_nil_r. split; reflexivity.
Qed.

Lemma tracked_request r :
  negb (is_fetch r) = true -> respects (tracked H) (_request H r).
Proof.
  intros Hr s. exists [r]. split; [reflexivity |].
  intros k. destruct r; try discriminate; reflexivity.
Qed.

Lemma tracked_lookup k : respects (tracked H) (get_task_cached H k).
Proof.
  intros s. destruct (Py.hashable k) eqn:Hk.
  - destruct (Py.find k (task_cache s)) as [t |] eqn:Ef.
    + rewrite (get_task_cached_hit k t s Hk Ef). apply tracked_refl.
    + rewrite (get_task_cached_miss k s Hk Ef). exists [GetTask k].
      split; [reflexivity |]. intros k2. unfold cached, fetches_of. simpl.
      rewrite key_eqb_sym. destruct (Py.key_eqb k k2) eqn:Ekk.
      * rewrite (find_equal_keys k k2 _ Ekk), Ef.
        rewrite (find_equal_keys k k2 _ Ekk).
        rewrite find_set_same by exact Hk. reflexivity.
      * rewrite find_set_other by exact Ekk. reflexivity.
  - rewrite (get_task_cached_unhashable k s Hk). apply tracked_refl.
Qed.

#[local] Hint Resolve tracked_refl tracked_trans tracked_note tracked_enter
  tracked_now tracked_request tracked_lookup : frame.

Lemma tracked_decider issue asset attributes :
  respects (tracked H) (process_linked_update_issue H issue asset attributes).
Proof.
  unfold process_linked_update_issue, status_name.
  frame_with (fun r => negb (is_fetch r)).
Qed.

Lemma tracked_creator asset attributes is_outdated :
  respects (tracked H) (create_update_task H cfg asset attributes is_outdated).
Proof.
  unfold create_update_task. frame_with (fun r => negb (is_fetch r)).
Qed.

#[local] Hint Resolve tracked_decider tracked_creator : frame.

Lemma tracked_asset asset :
  respects (tracked H) (process_asset_update H cfg asset).
Proof.
  unfold process_asset_update, extract_update_date, handle_overdue_asset,
    handle_future_asset.
  frame_with (fun r => negb (is_fetch r)).
Qed.

#[local] Hint Resolve tracked_asset : frame.

Lemma tracked_assets assets :
  respects (tracked H) (process_assets_with_update H cfg assets).
Proof.
  unfold process_assets_with_update. frame_with (fun r => negb (is_fetch r)).
Qed.

#[local] Hint Resolve tracked_assets : frame.



(** ** The overdue handler *)

Lemma handle_overdue_asset_run asset attributes (s s1 : St H) asset_id us :
  Py.getitem asset "id" = Ok asset_id ->
  linked_update_issues H asset_id (snd (enter H (HandleOverdueAsset asset) s))
    = (Ok us, s1) ->
  handle_overdue_asset H cfg asset attributes s =
    match us with
    | _ :: _ =>
        for_each H us
          (fun issue => process_linked_update_issue H issue asset attributes) s1
    | [] =>
        bind H (create_update_task H cfg asset attributes true)
          (fun _ => note H INFO (NewUpdateTaskIsBeingCreated asset_id)) s1
    end.
Proof.
  intros Hid Hl. unfold handle_overdue_asset.
  rewrite (bind_ok (enter H (HandleOverdueAsset asset)) _ s
             (snd (enter H (HandleOverdueAsset asset) s)) tt eq_refl).
  rewrite bind_lift, Hid.
  unfold linked_update_issues in Hl.
  rewrite <- bind_assoc. rewrite (bind_ok _ _ _ _ _ Hl).
  destruct us; reflexivity.
Qed.



(** ** The ticket client *)

Lemma request_run r (s : St H) :
  exists v s',
    _request H r s = (Ok v, s') /\
    v = error_value (fst (remote H r (world s))) /\
    requests s' = requests s ++ [r] /\
    entered s' = entered s /\ task_cache s' = task_cache s.
Proof.
  eexists. eexists. split; [reflexivity |]. repeat split.
Qed.

Lemma transition_by_name_found k name tid (s s1 : St H) :
  find_transition_by_name H k name s = (Ok tid, s1) ->
  Py.truthy tid = true ->
  requests s1 = requests s ++ [GetTransitions k] /\
  fst (transition_task_by_name H k name s) = Ok
    (error_value (fst (remote H (TransitionTask k tid) (world s1)))) /\
  requests (snd (transition_task_by_name H k name s)) =
    requests s ++ [GetTransitions k; TransitionTask k tid].
Proof.
  intros Hf Ht.
  assert (Hr : requests s1 = requests s ++ [GetTransitions k]).
  { unfold find_transition_by_name, get_transitions in Hf.
    rewrite (bind_ok (_request H (GetTransitions k)) _ s
               (snd (_request H (GetTransitions k) s)) _ eq_refl) in Hf.
    unfold lift in Hf. inversion Hf. reflexivity. }
  split; [exact Hr |].
  unfold transition_task_by_name. rewrite (bind_ok _ _ _ _ _ Hf), Ht. simpl.
  rewrite Hr, <- app_assoc. split; reflexivity.
Qed.

Lemma transition_by_name_missing k name tid (s s1 : St H) :
  find_transition_by_name H k name s = (Ok tid, s1) ->
  Py.truthy tid = false ->
  transition_task_by_name H k name s = (Raise ValueError, s1).
Proof.
  intros Hf Ht. unfold transition_task_by_name.
  rewrite (bind_ok _ _ _ _ _ Hf), Ht. reflexivity.
Qed.

(** ** The decider *)

Lemma ne_str_true v text : Py.ne_str v text = true <-> v <> VStr text.
Proof.
  unfold Py.ne_str, Py.eq_str. destruct v as [| b | n | t | l | d]; simpl;
    try (split; [discriminate | reflexivity]).
  destruct (String.eqb_spec t text) as [-> | Hne]; simpl.
  - split; [discriminate | congruence].
  - split; [congruence | reflexivity].
Qed.

Lemma ne_str_false v text : Py.ne_str v text = false <-> v = VStr text.
Proof.
  destruct (Py.ne_str v text) eqn:E.
  - apply ne_str_true in E. split; [discriminate | congruence].
  - split; [intros _ | reflexivity].
    destruct v as [| b | n | t | l | d]; try discriminate.
    unfold Py.ne_str, Py.eq_str in E. apply negb_false_iff in E.
    apply String.eqb_eq in E. congruence.
Qed.

Lemma truthy_text text : text <> "" -> Py.truthy (VStr text) = true.
Proof.
  intros Hne. simpl. destruct (String.eqb_spec text ""); [contradiction |].
  reflexivity.
Qed.

Lemma decider_run issue asset attributes (s s1 : St H)
    key task status asset_id text date :
  Py.getitem issue "key" = Ok key ->
  get_task_cached H key (snd (enter H (ProcessLinkedUpdateIssue issue) s))
    = (Ok task, s1) ->
  Py.truthy task = true ->
  status_name task = Ok status ->
  first_value attributes "Update" = Ok (VStr text) ->
  text <> "" ->
  strptime H text = Some date ->
  Py.get asset "id" VNone = Ok asset_id ->
  process_linked_update_issue H issue asset attributes s =
    let t := fst (clock H (world s1)) in
    if Py.ne_str status "Done" then
      if (date <=? t)%Z then
        if Py.ne_str status "In Progress" then
          bind H (add_comment H key (COMMENT_REMINDER text))
            (fun _ => bind H (transition_task_by_name H key "In Progress")
                        (fun _ => ret H tt))
            (at_clock H s1 (TaskOverdue key))
        else (Ok tt, at_clock H s1 (TaskAlreadyInProgress key))
      else (Ok tt, at_clock H s1 (TaskStuck key))
    else
      if (date <=? t)%Z then
        bind H (add_comment H key COMMENT_REQUEST_UPDATE) (fun _ => ret H tt)
          (at_clock H s1 (TaskDoneOutdated key))
      else (Ok tt, at_clock H s1 (TaskDoneUpToDate key)).
Proof.
  intros Hkey Hget Htask Hstatus Hfirst Htext Hdate Hid.
  unfold process_linked_update_issue.
  rewrite (bind_ok (enter H (ProcessLinkedUpdateIssue issue)) _ s
             (snd (enter H (ProcessLinkedUpdateIssue issue) s)) tt eq_refl).
  rewrite bind_lift, Hkey. rewrite (bind_ok _ _ _ _ _ Hget).
  rewrite Htask. cbn [negb].
  rewrite bind_lift, Hstatus, bind_lift, Hfirst.
  rewrite (truthy_text text Htext). cbn [negb parse_date]. rewrite Hdate.
  rewrite (bind_ok (now H) _ s1 (snd (now H s1)) (fst (clock H (world s1)))
             eq_refl).
  cbv zeta.
  destruct (Py.ne_str status "Done"), (date <=? fst (clock H (world s1)))%Z;
    try destruct (Py.ne_str status "In Progress");
    rewrite bind_lift, Hid; reflexivity.
Qed.

Section Decider.

Variables (issue asset : value) (attributes : pydict (list value)).
Variables (s s1 : St H) (key task status asset_id : value).
Variables (text : string) (date : Z).

Hypothesis Hkey : Py.getitem issue "key" = Ok key.
Hypothesis Hget :
  get_task_cached H key (snd (enter H (ProcessLinkedUpdateIssue issue) s))
    = (Ok task, s1).
Hypothesis Htask : Py.truthy task = true.
Hypothesis Hstatus : status_name task = Ok status.
Hypothesis Hfirst : first_value attributes "Update" = Ok (VStr text).
Hypothesis Htext : text <> "".
Hypothesis Hdate : strptime H text = Some date.
Hypothesis Hid : Py.get asset "id" VNone = Ok asset_id.

Let run := process_linked_update_issue H issue asset attributes s.
Let t := fst (clock H (world s1)).

Lemma decider_reminder :
  status <> VStr "Done" -> (date <= t)%Z -> status <> VStr "In Progress" ->
  let s3 :=
    snd (add_comment H key (COMMENT_REMINDER text)
           (at_clock H s1 (TaskOverdue key))) in
  requests s3 = requests s1 ++ [AddComment key (COMMENT_REMINDER text)] /\
  run = bind H (transition_task_by_name H key "In Progress")
          (fun _ => ret H tt) s3.
Proof.
  intros Hd Hle Hp s3. subst s3 run t.
  rewrite (decider_run issue asset attributes s s1 key task status asset_id
             text date Hkey Hget Htask Hstatus Hfirst Htext Hdate Hid).
  cbv zeta.
  rewrite (proj2 (ne_str_true status "Done") Hd).
  rewrite (proj2 (Z.leb_le _ _) Hle).
  rewrite (proj2 (ne_str_true status "In Progress") Hp).
  split; reflexivity.
Qed.

Lemma decider_in_progress :
  status = VStr "In Progress" -> (date <= t)%Z ->
  fst run = Ok tt /\ requests (snd run) = requests s1.
Proof.
  intros Hp Hle. subst run t.
  rewrite (decider_run issue asset attributes s s1 key task status asset_id
             text date Hkey Hget Htask Hstatus Hfirst Htext Hdate Hid).
  cbv zeta. rewrite (proj2 (Z.leb_le _ _) Hle). subst status.
  split; reflexivity.
Qed.

Lemma decider_done :
  status = VStr "Done" -> (date <= t)%Z ->
  fst run = Ok tt /\
  requests (snd run) = requests s1 ++ [AddComment key COMMENT_REQUEST_UPDATE].
Proof.
  intros Hp Hle. subst run t.
  rewrite (decider_run issue asset attributes s s1 key task status asset_id
             text date Hkey Hget Htask Hstatus Hfirst Htext Hdate Hid).
  cbv zeta. rewrite (proj2 (Z.leb_le _ _) Hle). subst status.
  split; reflexivity.
Qed.

Lemma decider_future :
  (t < date)%Z -> fst run = Ok tt /\ requests (snd run) = requests s1.
Proof.
  intros Hlt. subst run t.
  rewrite (decider_run issue asset attributes s s1 key task status asset_id
             text date Hkey Hget Htask Hstatus Hfirst Htext Hdate Hid).
  cbv zeta. rewrite (proj2 (Z.leb_gt _ _) Hlt).
  destruct (Py.ne_str status "Done"); split; reflexivity.
Qed.

Lemma decider_transition_found tid (s3 s4 : St H) :
  status <> VStr "Done" -> (date <= t)%Z -> status <> VStr "In Progress" ->
  s3 = snd (add_comment H key (COMMENT_REMINDER text)
              (at_clock H s1 (TaskOverdue key))) ->
  find_transition_by_name H key "In Progress" s3 = (Ok tid, s4) ->
  Py.truthy tid = true ->
  fst run = Ok tt /\
  requests (snd run) =
    requests s1 ++ [AddComment key (COMMENT_REMINDER text);
                    GetTransitions key; TransitionTask key tid].
Proof.
  intros Hd Hle Hp Hs3 Hf Ht.
  destruct (decider_reminder Hd Hle Hp) as [Hr ->]. rewrite <- Hs3 in *.
  destruct (transition_by_name_found key "In Progress" tid s3 s4 Hf Ht)
    as (_ & Hok & Hreq).
  unfold bind.
  destruct (transition_task_by_name H key "In Progress" s3) as [[v | e] s5];
    simpl in *; [| discriminate].
  split; [reflexivity |]. rewrite Hreq, Hr, <- app_assoc. reflexivity.
Qed.

Lemma decider_transition_missing tid (s3 s4 : St H) :
  status <> VStr "Done" -> (date <= t)%Z -> status <> VStr "In Progress" ->
  s3 = snd (add_comment H key (COMMENT_REMINDER text)
              (at_clock H s1 (TaskOverdue key))) ->
  find_transition_by_name H key "In Progress" s3 = (Ok tid, s4) ->
  Py.truthy tid = false ->
  run = (Raise ValueError, s4).
Proof.
  intros Hd Hle Hp Hs3 Hf Ht.
  destruct (decider_reminder Hd Hle Hp) as [Hr ->]. rewrite <- Hs3.
  rewrite (bind_raise _ _ _ _ _
             (transition_by_name_missing key "In Progress" tid s3 s4 Hf Ht)).
  reflexivity.
Qed.

End Decider.

(** the transitions the site lists, and what the decider has sent when the
    date has passed and the ticket is neither done nor in progress *)

Lemma find_transition_first name ts :
  forall l,
    Forall2 listed_as ts l ->
    find_transition ts name = Ok (first_named name l).
Proof.
  induction ts as [| t ts IH]; intros l Hl; inversion Hl; subst.
  - reflexivity.
  - match goal with Hx : listed_as t ?y |- _ =>
      destruct y as [i n]; destruct Hx as (d & -> & Hn & Hi)
    end.
    cbn [find_transition first_named Py.getitem Py.bind fst snd] in *.
    rewrite Hn. cbn [Py.bind]. destruct (Py.eq_str n name).
    + rewrite Hi. reflexivity.
    + apply IH. assumption.
Qed.

Lemma find_transition_by_name_listed k name d ts l (s : St H) :
  fst (remote H (GetTransitions k) (world s)) = Body (VDict d) ->
  Py.lookup "transitions" d = Some (VList ts) ->
  Forall2 listed_as ts l ->
  find_transition_by_name H k name s =
    (Ok (first_named name l), snd (_request H (GetTransitions k) s)).
Proof.
  intros Ha Ht Hl.
  unfold find_transition_by_name, get_transitions, bind, _request, lift.
  cbn [fst snd]. rewrite Ha. cbn [error_value Py.get]. rewrite Ht.
  cbn [Py.bind Py.iter]. rewrite (find_transition_first name ts l Hl).
  reflexivity.
Qed.

Lemma find_transition_by_name_state k name (s : St H) :
  snd (find_transition_by_name H k name s) =
    snd (_request H (GetTransitions k) s).
Proof.
  unfold find_transition_by_name, get_transitions, bind, _request, lift.
  reflexivity.
Qed.

Lemma transition_requests k name (s : St H) :
  let run := transition_task_by_name H k name s in
  (exists tid v,
     fst run = Ok v /\
     requests (snd run) = requests s ++ [GetTransitions k; TransitionTask k tid])
  \/
  (exists e,
     fst run = Raise e /\ requests (snd run) = requests s ++ [GetTransitions k]).
Proof.
  intros run. subst run.
  pose proof (find_transition_by_name_state k name s) as Hs.
  destruct (find_transition_by_name H k name s) as [[tid | e] s1] eqn:E;
    cbn [snd] in Hs.
  - destruct (Py.truthy tid) eqn:Et.
    + left. destruct (transition_by_name_found k name tid s s1 E Et)
        as (_ & Hv & Hr).
      exists tid. eexists. split; [exact Hv | exact Hr].
    + right. rewrite (transition_by_name_missing k name tid s s1 E Et).
      exists ValueError. split; [reflexivity |]. rewrite Hs. reflexivity.
  - right. unfold transition_task_by_name.
    rewrite (bind_raise _ _ _ _ _ E). exists e. split; [reflexivity |].
    cbn [snd]. rewrite Hs. reflexivity.
Qed.

Lemma decider_due_requests issue asset attributes (s s1 : St H)
    key task status asset_id text date :
  Py.getitem issue "key" = Ok key ->
  get_task_cached H key (snd (enter H (ProcessLinkedUpdateIssue issue) s))
    = (Ok task, s1) ->
  Py.truthy task = true ->
  status_name task = Ok status ->
  first_value attributes "Update" = Ok (VStr text) ->
  text <> "" ->
  strptime H text = Some date ->
  Py.get asset "id" VNone = Ok asset_id ->
  Py.ne_str status "Done" = true ->
  Py.ne_str status "In Progress" = true ->
  (date <= fst (clock H (world s1)))%Z ->
  let run := process_linked_update_issue H issue asset attributes s in
  (exists tid,
     fst run = Ok tt /\
     requests (snd run) =
       requests s1 ++ [AddComment key (COMMENT_REMINDER text);
                       GetTransitions key; TransitionTask key tid])
  \/
  (exists e,
     fst run = Raise e /\
     requests (snd run) =
       requests s1 ++ [AddComment key (COMMENT_REMINDER text);
                       GetTransitions key]).
Proof.
  intros Hkey Hget Htask Hstatus Hfirst Htext Hparse Hid Hnd Hnp Hdue run.
  subst run.
  rewrite (decider_run issue asset attributes s s1 key task status asset_id
             text date Hkey Hget Htask Hstatus Hfirst Htext Hparse Hid).
  cbv zeta. rewrite Hnd, Hnp.
  apply Z.leb_le in Hdue. rewrite Hdue.
  unfold add_comment.
  rewrite (bind_ok (_request H (AddComment key (COMMENT_REMINDER text))) _
             _ _ _ eq_refl).
  match goal with
  | |- context [bind H (transition_task_by_name H key "In Progress") _ ?s3] =>
      destruct (transition_requests key "In Progress" s3)
        as [(tid & v & Hv & Hr) | (e & He & Hr)];
      destruct (transition_task_by_name H key "In Progress" s3)
        as [[v' | e'] s4] eqn:E; cbn [fst snd] in *; try discriminate
  end.
  - left. exists tid. rewrite (bind_ok _ _ _ _ _ E). split; [reflexivity |].
    cbn [ret snd]. rewrite Hr. cbn [_request at_clock note now snd requests].
    rewrite <- app_assoc. reflexivity.
  - right. exists e'. rewrite (bind_raise _ _ _ _ _ E). split; [reflexivity |].
    cbn [snd]. rewrite Hr. cbn [_request at_clock note now snd requests].
    rewrite <- app_assoc. reflexivity.
Qed.

(** C4, as the code has it.  The decision table of the decider, for a ticket
    that was found and a due date that parses.  [s1] is the state after the
    ticket was looked up in the cache and [t] what the clock reads then.
      - not "Done", due, not "In Progress": the reminder, which quotes the
        due date, is posted, and then the transitions of the ticket are
        asked for, in every case.  When the site lists a transition named
        "In Progress" with an id, the ticket is moved along the first such
        one and the decider returns.  When the site lists none, the decider
        raises [ValueError]; whenever it does not return, the reminder and
        the query are all it has sent, and the ticket is not moved;
      - "In Progress", due: nothing is sent;
      - "Done", due: the request to update again is posted, nothing else;
      - not yet due, whatever the status: nothing is sent. *)
Theorem lifecycle_decision issue asset attributes (s s1 : St H)
    key task status asset_id text date :
  Py.getitem issue "key" = Ok key ->
  get_task_cached H key (snd (enter H (ProcessLinkedUpdateIssue issue) s))
    = (Ok task, s1) ->
  Py.truthy task = true ->
  status_name task = Ok status ->
  first_value attributes "Update" = Ok (VStr text) ->
  text <> "" ->
  strptime H text = Some date ->
  Py.get asset "id" VNone = Ok asset_id ->
  let run := process_linked_update_issue H issue asset attributes s in
  let t := fst (clock H (world s1)) in
  (status <> VStr "Done" -> (date <= t)%Z -> status <> VStr "In Progress" ->
   let s3 :=
     snd (add_comment H key (COMMENT_REMINDER text)
            (at_clock H s1 (TaskOverdue key))) in
   let reminder := AddComment key (COMMENT_REMINDER text) in
   requests s3 = requests s1 ++ [reminder] /\
   (exists before after,
      COMMENT_REMINDER text = (before ++ text ++ after)%string) /\
   run = bind H (transition_task_by_name H key "In Progress")
           (fun _ => ret H tt) s3 /\
   ((exists tid,
       fst run = Ok tt /\
       requests (snd run) =
         requests s1 ++ [reminder; GetTransitions key; TransitionTask key tid])
    \/
    (exists e,
       fst run = Raise e /\
       requests (snd run) = requests s1 ++ [reminder; GetTransitions key])) /\
   (forall tid s4,
      find_transition_by_name H key "In Progress" s3 = (Ok tid, s4) ->
      (Py.truthy tid = true ->
       fst run = Ok tt /\
       requests (snd run) =
         requests s1 ++ [reminder; GetTransitions key; TransitionTask key tid])
      /\
      (Py.truthy tid = false ->
       fst run = Raise ValueError /\
       requests (snd run) = requests s1 ++ [reminder; GetTransitions key])) /\
   (forall d ts l,
      fst (remote H (GetTransitions key) (world s3)) = Body (VDict d) ->
      Py.lookup "transitions" d = Some (VList ts) ->
      Forall2 listed_as ts l ->
      let tid := first_named "In Progress" l in
      (Py.truthy tid = true ->
       fst run = Ok tt /\
       requests (snd run) =
         requests s1 ++ [reminder; GetTransitions key; TransitionTask key tid])
      /\
      (Py.truthy tid = false ->
       fst run = Raise ValueError /\
       requests (snd run) = requests s1 ++ [reminder; GetTransitions key]))) /\
  (status = VStr "In Progress" -> (date <= t)%Z ->
   fst run = Ok tt /\ requests (snd run) = requests s1) /\
  (status = VStr "Done" -> (date <= t)%Z ->
   fst run = Ok tt /\
   requests (snd run) = requests s1 ++ [AddComment key COMMENT_REQUEST_UPDATE]) /\
  ((t < date)%Z -> fst run = Ok tt /\ requests (snd run) = requests s1).
Proof.
  intros Hkey Hget Htask Hstatus Hfirst Htext Hdate Hid run t.
  split; [| split; [| split]].
  - intros Hd Hle Hp s3 reminder.
    destruct (decider_reminder issue asset attributes s s1 key task status
                asset_id text date Hkey Hget Htask Hstatus Hfirst Htext Hdate
                Hid Hd Hle Hp) as [Hr Hrun].
    assert (Hoffered : forall tid s4,
              find_transition_by_name H key "In Progress" s3 = (Ok tid, s4) ->
              (Py.truthy tid = true ->
               fst run = Ok tt /\
               requests (snd run) =
                 requests s1 ++ [reminder; GetTransitions key;
                                 TransitionTask key tid]) /\
              (Py.truthy tid = false ->
               fst run = Raise ValueError /\
               requests (snd run) =
                 requests s1 ++ [reminder; GetTransitions key])).
    { intros tid s4 Hf. split; intros Ht.
      - eapply decider_transition_found; eauto.
      - pose proof (decider_transition_missing issue asset attributes s s1 key
                      task status asset_id text date Hkey Hget Htask Hstatus
                      Hfirst Htext Hdate Hid tid s3 s4 Hd Hle Hp eq_refl Hf Ht)
          as Hraised.
        fold run in Hraised. rewrite Hraised. split; [reflexivity |].
        pose proof (find_transition_by_name_state key "In Progress" s3) as Hs.
        rewrite Hf in Hs. cbn [snd] in Hs. rewrite Hs.
        change (requests s3 ++ [GetTransitions key] =
                requests s1 ++ [reminder; GetTransitions key]).
        unfold s3. rewrite Hr, <- app_assoc. reflexivity. }
    split; [exact Hr |]. split; [| split; [exact Hrun |]].
    + eexists. eexists. unfold COMMENT_REMINDER. reflexivity.
    + split; [| split; [exact Hoffered |]].
      * apply (decider_due_requests issue asset attributes s s1 key task
                 status asset_id text date); try assumption.
        -- apply ne_str_true. exact Hd.
        -- apply ne_str_true. exact Hp.
      * intros d ts l Ha Hts Hl tid.
        apply (Hoffered tid (snd (_request H (GetTransitions key) s3))).
        apply (find_transition_by_name_listed key "In Progress" d ts l s3
                 Ha Hts Hl).
  - eapply decider_in_progress; eauto.
  - eapply decider_done; eauto.
  - eapply decider_future; eauto.
Qed.

(** what a run that only looked a ticket up has sent *)
Ltac only_reads l Hl Hr :=
  exists l; cbn [snd requests note] in *; split; [exact Hl | exact Hr].

Lemma decider_without_date issue asset attributes (s : St H) :
  (forall v d, first_value attributes "Update" = Ok v ->
               Py.truthy v = true -> parse_date H v = Some d -> False) ->
  exists l,
    requests (snd (process_linked_update_issue H issue asset attributes s))
      = requests s ++ l /\
    forallb is_read l = true.
Proof.
  intros Hno. unfold process_linked_update_issue.
  rewrite (bind_ok (enter H (ProcessLinkedUpdateIssue issue)) _ s
             (snd (enter H (ProcessLinkedUpdateIssue issue) s)) tt eq_refl).
  rewrite bind_lift. destruct (Py.getitem issue "key") as [key | e].
  2: { exists []. simpl. rewrite app_nil_r. split; reflexivity. }
  pose proof (quiet_lookup key
                (snd (enter H (ProcessLinkedUpdateIssue issue) s))) as Hq.
  match goal with
  | |- context [bind H (get_task_cached H key) ?K ?S0] =>
      destruct (bind_cases (get_task_cached H key) K S0)
        as [(task & s1 & E & ->) | (e & s1 & E & ->)]
  end; rewrite E in Hq; destruct Hq as (_ & (l & Hl & Hr) & _);
    [| only_reads l Hl Hr].
  destruct (negb (Py.truthy task)); [only_reads l Hl Hr |].
  rewrite bind_lift. destruct (status_name task) as [status | e];
    [| only_reads l Hl Hr].
  rewrite bind_lift.
  destruct (first_value attributes "Update") as [v | e] eqn:Hf;
    [| only_reads l Hl Hr].
  destruct (negb (Py.truthy v)) eqn:Ht; [only_reads l Hl Hr |].
  apply negb_false_iff in Ht.
  destruct (parse_date H v) as [d |] eqn:Hp.
  - exfalso. exact (Hno v d eq_refl Ht Hp).
  - destruct v; try only_reads l Hl Hr.
    rewrite Hp. only_reads l Hl Hr.
Qed.

Lemma decider_stops_without_date issue asset attributes (s s1 : St H)
    key task status v :
  (forall d, Py.truthy v = true -> parse_date H v = Some d -> False) ->
  Py.getitem issue "key" = Ok key ->
  get_task_cached H key (snd (enter H (ProcessLinkedUpdateIssue issue) s))
    = (Ok task, s1) ->
  Py.truthy task = true ->
  status_name task = Ok status ->
  first_value attributes "Update" = Ok v ->
  exists m,
    process_linked_update_issue H issue asset attributes s
      = (Ok tt, snd (note H ERROR m s1)).
Proof.
  intros Hno Hkey Hget Htask Hstatus Hfirst.
  unfold process_linked_update_issue.
  rewrite (bind_ok (enter H (ProcessLinkedUpdateIssue issue)) _ s
             (snd (enter H (ProcessLinkedUpdateIssue issue) s)) tt eq_refl).
  rewrite bind_lift, Hkey. rewrite (bind_ok _ _ _ _ _ Hget).
  rewrite Htask. cbn [negb].
  rewrite bind_lift, Hstatus, bind_lift, Hfirst.
  destruct (negb (Py.truthy v)) eqn:Ht; [eexists; reflexivity |].
  apply negb_false_iff in Ht.
  destruct (parse_date H v) as [d |] eqn:Hp.
  - exfalso. exact (Hno d Ht eq_refl).
  - destruct v; try (eexists; reflexivity).
    rewrite Hp. eexists; reflexivity.
Qed.

(** C8. Without a due date that parses (the attribute is absent or empty,
    its first value is [None] or the empty string, is not a string, or is a
    string [strptime] rejects) the decider sends nothing but, at most, the
    read that fetches the ticket; when the ticket was found and the
    attribute has a first value it logs an error and returns.  The status
    is compared with ["Done"] as a string, exactly: every other value, such
    as "done", "DONE" or "Blocked", takes the not-Done branches, and when
    the date has passed and the status is not "In Progress" either, the
    reminder is posted and the transition attempted. *)
Theorem decider_date_and_status issue asset attributes (s : St H) :
  let run := process_linked_update_issue H issue asset attributes s in
  ((forall v d, first_value attributes "Update" = Ok v ->
                Py.truthy v = true -> parse_date H v = Some d -> False) ->
   (exists l, requests (snd run) = requests s ++ l /\
              forallb is_read l = true) /\
   (forall s1 key task status v,
      Py.getitem issue "key" = Ok key ->
      get_task_cached H key (snd (enter H (ProcessLinkedUpdateIssue issue) s))
        = (Ok task, s1) ->
      Py.truthy task = true ->
      status_name task = Ok status ->
      first_value attributes "Update" = Ok v ->
      fst run = Ok tt /\ requests (snd run) = requests s1 /\
      (Py.find key (task_cache s) = Some task ->
       requests (snd run) = requests s) /\
      exists m, log (snd run) = log s1 ++ [(ERROR, m)])) /\
  (forall status, Py.ne_str status "Done" = true <-> status <> VStr "Done") /\
  Py.ne_str (VStr "done") "Done" = true /\
  Py.ne_str (VStr "DONE") "Done" = true /\
  Py.ne_str (VStr "Blocked") "Done" = true /\
  (forall s1 key task status asset_id text date,
     Py.getitem issue "key" = Ok key ->
     get_task_cached H key (snd (enter H (ProcessLinkedUpdateIssue issue) s))
       = (Ok task, s1) ->
     Py.truthy task = true ->
     status_name task = Ok status ->
     first_value attributes "Update" = Ok (VStr text) ->
     text <> "" ->
     strptime H text = Some date ->
     Py.get asset "id" VNone = Ok asset_id ->
     status <> VStr "Done" ->
     (date <= fst (clock H (world s1)))%Z ->
     status <> VStr "In Progress" ->
     let s3 :=
       snd (add_comment H key (COMMENT_REMINDER text)
              (at_clock H s1 (TaskOverdue key))) in
     requests s3 = requests s1 ++ [AddComment key (COMMENT_REMINDER text)] /\
     run = bind H (transition_task_by_name H key "In Progress")
             (fun _ => ret H tt) s3).
Proof.
  intros run. split; [| split; [| split; [| split; [| split]]]].
  - intros Hno. split.
    + apply decider_without_date. exact Hno.
    + intros s1 key task status v Hkey Hget Htask Hstatus Hfirst.
      destruct (decider_stops_without_date issue asset attributes s s1 key
                  task status v (fun d => Hno v d Hfirst) Hkey Hget Htask
                  Hstatus Hfirst) as [m Hm].
      subst run. rewrite Hm. simpl. repeat split; [| exists m; reflexivity].
      intros Hc. destruct (lookup_caches key task _ s1 Hget) as [Hh _].
      rewrite (get_task_cached_hit key task
                 (snd (enter H (ProcessLinkedUpdateIssue issue) s)) Hh Hc)
        in Hget.
      inversion Hget. reflexivity.
  - intros status. apply ne_str_true.
  - reflexivity.
  - reflexivity.
  - reflexivity.
  - intros s1 key task status asset_id text date Hkey Hget Htask Hstatus
      Hfirst Htext Hdate Hid Hd Hle Hp.
    eapply decider_reminder; eauto.
Qed.

(** ** Exceptions leave the loops *)




(** ** The creator *)

Lemma getenv_set_nonempty v text :
  getenv_set v = Some text -> (text =? "")%string = false.
Proof.
  unfold getenv_set. destruct v as [t |]; [| discriminate].
  destruct (t =? "")%string eqn:E; [discriminate |].
  intros Ht. inversion Ht. subst. exact E.
Qed.

Lemma truthy_not_zero v :
  Py.truthy v = true -> Py.key_eqb v (VInt 0) = false.
Proof.
  destruct v as [| b | n | t | l | d]; simpl; try reflexivity.
  - intros ->. reflexivity.
  - intros Hn. apply negb_true_iff in Hn. exact Hn.
Qed.

Lemma create_task_posts pk summary description issue_type assignee date labels
    custom (s : St H) :
  (pk =? "")%string = false ->
  (summary =? "")%string = false ->
  (description =? "")%string = false ->
  Py.truthy date = true ->
  Py.truthy labels = true ->
  exists payload,
    create_task H pk summary description issue_type
      (mkKwargs assignee (Some date) (Some labels)
                (Some [("customfield_10191", custom)])) s
      = _request H (CreateTask payload) s /\
    posted_field payload "duedate" = Some date /\
    posted_field payload "labels" = Some labels /\
    posted_field payload "summary" = Some (VStr summary) /\
    posted_field payload "customfield_10191" = Some custom /\
    posted_field payload "assignee" =
      match assignee with
      | Some i => if Py.truthy i then Some (VDict [("id", i)]) else None
      | None => None
      end.
Proof.
  intros Hp Hs Hd Hdate Hlabels. unfold create_task.
  rewrite Hp, Hs, Hd. cbn [orb].
  eexists. split; [reflexivity |].
  unfold set_if. cbn [assignee_id duedate task_labels custom_fields].
  rewrite Hdate, Hlabels.
  destruct assignee as [i |]; [destruct (Py.truthy i) |]; repeat split.
Qed.

Lemma unsent_refl (s : St H) : unsent H s s.
Proof. reflexivity. Qed.

Lemma unsent_trans (s1 s2 s3 : St H) :
  unsent H s1 s2 -> unsent H s2 s3 -> unsent H s1 s3.
Proof. unfold unsent. congruence. Qed.

Lemma unsent_note l m : respects (unsent H) (note H l m).
Proof. intros s. reflexivity. Qed.

#[local] Hint Resolve unsent_refl unsent_trans unsent_note : frame.

Lemma unsent_after_create asset_id response :
  respects (unsent H) (after_create H asset_id response).
Proof. unfold after_create. frame_with (fun _ : request => false). Qed.

Lemma creator_tail ws pk asset_id name date assignee (s1 : St H) :
  (pk =? "")%string = false ->
  Py.truthy date = true ->
  exists payload,
    requests
      (snd (bind H
              (create_task H pk
                 (TASK_SUMMARY_TEMPLATE (Py.str (repr H) name))
                 (TASK_DESCRIPTION_TEMPLATE (Py.str (repr H) name))
                 "Task"
                 (mkKwargs
                    (if Py.truthy assignee
                        && negb (Py.key_eqb assignee (VInt 0))
                     then Some assignee else None)
                    (Some date)
                    (Some (VList [VStr "AssetUpdate"]))
                    (Some [("customfield_10191",
                            VList [VDict [("workspaceId", VStr ws);
                                          ("id", VStr (ws ++ ":" ++
                                             Py.str (repr H) asset_id)%string);
                                          ("objectId", asset_id)]])])))
              (after_create H asset_id) s1))
      = requests s1 ++ [CreateTask payload] /\
    posted_field payload "duedate" = Some date /\
    posted_field payload "labels" = Some (VList [VStr "AssetUpdate"]) /\
    posted_field payload "summary" =
      Some (VStr (TASK_SUMMARY_TEMPLATE (Py.str (repr H) name))) /\
    posted_field payload "assignee" =
      if Py.truthy assignee then Some (VDict [("id", assignee)]) else None.
Proof.
  intros Hp Hdate.
  match goal with
  | |- context [create_task H pk ?sm ?ds ?it (mkKwargs ?a _ _ (Some [(_, ?c)]))] =>
      destruct (create_task_posts pk sm ds it a date
                  (VList [VStr "AssetUpdate"]) c s1 Hp eq_refl eq_refl Hdate
                  eq_refl)
        as (payload & Hrun & Hd & Hl & Hs & _ & Has)
  end.
  exists payload. split; [| repeat split; try assumption].
  - unfold bind. rewrite Hrun. simpl.
    rewrite (unsent_after_create asset_id _ _). reflexivity.
  - rewrite Has. destruct (Py.truthy assignee) eqn:Et; [| reflexivity].
    rewrite (truthy_not_zero assignee Et). simpl. rewrite Et. reflexivity.
Qed.

Lemma bind_ret {A B} (a : A) (k : A -> M H B) (s : St H) :
  bind H (ret H a) k s = k a s.
Proof. reflexivity. Qed.

(** the creator returned before it sent anything *)
Ltac nothing_sent :=
  exists []; split; [reflexivity | left; simpl; rewrite app_nil_r; reflexivity].

Lemma creator_requests asset attributes is_outdated (s : St H) :
  let run := create_update_task H cfg asset attributes is_outdated s in
  exists l,
    forallb is_read l = true /\
    (requests (snd run) = requests s ++ l \/
     exists payload name date assignee_name assignee,
       requests (snd run) = requests s ++ l ++ [CreateTask payload] /\
       first_value attributes "Name" = Ok name /\
       Py.truthy name = true /\
       first_value attributes "Update" = Ok date /\
       Py.truthy date = true /\
       extract_assignee_name attributes = Ok assignee_name /\
       resolved_assignee cfg assignee_name = Ok assignee /\
       posted_field payload "duedate" = Some date /\
       posted_field payload "labels" = Some (VList [VStr "AssetUpdate"]) /\
       posted_field payload "assignee" =
         if Py.truthy assignee then Some (VDict [("id", assignee)]) else None).
Proof.
  intros run. subst run. unfold create_update_task.
  rewrite (bind_ok (enter H (CreateUpdateTask is_outdated)) _ s
             (snd (enter H (CreateUpdateTask is_outdated) s)) tt eq_refl).
  destruct (getenv_set (JIRA_WORKSPACE_ID cfg)) as [ws |] eqn:Ews;
    [| nothing_sent].
  destruct (getenv_set (JIRA_PROJECT_KEY cfg)) as [pk |] eqn:Epk;
    [| nothing_sent].
  rewrite bind_lift.
  destruct (Py.get asset "id" VNone) as [asset_id | e]; [| nothing_sent].
  destruct (negb (Py.truthy asset_id)); [nothing_sent |].
  rewrite <- bind_assoc. fold (linked_update_issues H asset_id).
  pose proof (quiet_linked_update_issues asset_id
                (snd (enter H (CreateUpdateTask is_outdated) s))) as Hq.
  match goal with
  | |- context [bind H (linked_update_issues H asset_id) ?K ?S0] =>
      destruct (bind_cases (linked_update_issues H asset_id) K S0)
        as [(us & s1 & E & ->) | (e & s1 & E & ->)]
  end; rewrite E in Hq; destruct Hq as (_ & (l & Hl & Hr) & _);
    cbn [snd requests enter] in Hl; exists l; (split; [exact Hr |]).
  2: { left. exact Hl. }
  destruct us as [| first_issue us].
  2: { left. rewrite bind_lift.
       destruct (Py.get first_issue "key" (VStr "")); exact Hl. }
  cbv zeta. rewrite bind_lift.
  destruct (first_value attributes "Name") as [name | e] eqn:Ename.
  2: { left. exact Hl. }
  destruct (negb (Py.truthy name)) eqn:Tname.
  { left. exact Hl. }
  apply negb_false_iff in Tname. rewrite bind_lift.
  destruct (first_value attributes "Update") as [date | e] eqn:Edate.
  2: { left. exact Hl. }
  destruct (negb (Py.truthy date)) eqn:Tdate.
  { left. exact Hl. }
  apply negb_false_iff in Tdate. rewrite bind_lift.
  destruct (extract_assignee_name attributes) as [assignee_name | e] eqn:Ean.
  2: { left. exact Hl. }
  assert (Hres :
    (if Py.truthy assignee_name
     then lift H (Py.dict_get (ASSIGNEE_MAPPING cfg) assignee_name)
     else ret H VNone) = lift H (resolved_assignee cfg assignee_name)).
  { unfold resolved_assignee. destruct (Py.truthy assignee_name); reflexivity. }
  rewrite Hres, bind_lift.
  destruct (resolved_assignee cfg assignee_name) as [assignee | e] eqn:Eres.
  2: { left. exact Hl. }
  right.
  destruct (creator_tail ws pk asset_id name date assignee s1
              (getenv_set_nonempty _ _ Epk) Tdate)
    as (payload & Hsent & Hd & Hlab & _ & Has).
  exists payload, name, date, assignee_name, assignee.
  split; [| repeat split; assumption].
  unfold after_create in Hsent. rewrite Hsent, Hl, <- app_assoc. reflexivity.
Qed.

Lemma creator_start asset attributes is_outdated (s s1 : St H)
    ws pk asset_id us :
  getenv_set (JIRA_WORKSPACE_ID cfg) = Some ws ->
  getenv_set (JIRA_PROJECT_KEY cfg) = Some pk ->
  Py.get asset "id" VNone = Ok asset_id ->
  Py.truthy asset_id = true ->
  linked_update_issues H asset_id (snd (enter H (CreateUpdateTask is_outdated) s))
    = (Ok us, s1) ->
  create_update_task H cfg asset attributes is_outdated s =
    match us with
    | first_issue :: _ =>
        bind H (lift H (Py.get first_issue "key" (VStr "")))
          (fun _ => note H INFO (AlreadyHasLinkedUpdateIssue asset_id)) s1
    | [] =>
        bind H (lift H (first_value attributes "Name"))
          (fun asset_name =>
             if negb (Py.truthy asset_name) then note H ERROR NamePropertyMissing
             else
               bind H (lift H (first_value attributes "Update"))
                 (fun duedate =>
                    if negb (Py.truthy duedate)
                    then note H ERROR UpdatePropertyMissing
                    else
                      bind H (lift H (extract_assignee_name attributes))
                        (fun assignee_name =>
                           bind H (lift H (resolved_assignee cfg assignee_name))
                             (fun assignee_id =>
                                bind H
                                  (create_task H pk
                                     (TASK_SUMMARY_TEMPLATE
                                        (Py.str (repr H) asset_name))
                                     (TASK_DESCRIPTION_TEMPLATE
                                        (Py.str (repr H) asset_name))
                                     "Task"
                                     (mkKwargs
                                        (if Py.truthy assignee_id
                                            && negb (Py.key_eqb assignee_id
                                                       (VInt 0))
                                         then Some assignee_id else None)
                                        (Some duedate)
                                        (Some (VList [VStr "AssetUpdate"]))
                                        (Some
                                           [("customfield_10191",
                                             VList
                                               [VDict
                                                  [("workspaceId", VStr ws);
                                                   ("id",
                                                    VStr (ws ++ ":" ++
                                                      Py.str (repr H)
                                                        asset_id)%string);
                                                   ("objectId", asset_id)]])])))
                                  (after_create H asset_id))))) s1
    end.
Proof.
  intros Ews Epk Hid Ht Hl. unfold create_update_task.
  rewrite (bind_ok (enter H (CreateUpdateTask is_outdated)) _ s
             (snd (enter H (CreateUpdateTask is_outdated) s)) tt eq_refl).
  rewrite Ews, Epk, bind_lift, Hid, Ht. cbn [negb].
  rewrite <- bind_assoc. fold (linked_update_issues H asset_id).
  rewrite (bind_ok _ _ _ _ _ Hl).
  destruct us as [| u us]; [| reflexivity].
  cbv zeta. unfold bind, lift.
  destruct (first_value attributes "Name") as [name | e]; [| reflexivity].
  destruct (negb (Py.truthy name)); [reflexivity |].
  destruct (first_value attributes "Update") as [date | e]; [| reflexivity].
  destruct (negb (Py.truthy date)); [reflexivity |].
  destruct (extract_assignee_name attributes) as [an | e]; [| reflexivity].
  unfold resolved_assignee, ret. destruct (Py.truthy an); reflexivity.
Qed.

Lemma creator_submits asset attributes is_outdated (s s1 : St H)
    ws pk asset_id name date assignee_name assignee :
  getenv_set (JIRA_WORKSPACE_ID cfg) = Some ws ->
  getenv_set (JIRA_PROJECT_KEY cfg) = Some pk ->
  Py.get asset "id" VNone = Ok asset_id ->
  Py.truthy asset_id = true ->
  linked_update_issues H asset_id (snd (enter H (CreateUpdateTask is_outdated) s))
    = (Ok [], s1) ->
  first_value attributes "Name" = Ok name ->
  Py.truthy name = true ->
  first_value attributes "Update" = Ok date ->
  Py.truthy date = true ->
  extract_assignee_name attributes = Ok assignee_name ->
  resolved_assignee cfg assignee_name = Ok assignee ->
  exists payload,
    requests (snd (create_update_task H cfg asset attributes is_outdated s))
      = requests s1 ++ [CreateTask payload] /\
    posted_field payload "duedate" = Some date /\
    posted_field payload "labels" = Some (VList [VStr "AssetUpdate"]) /\
    posted_field payload "summary" =
      Some (VStr (TASK_SUMMARY_TEMPLATE (Py.str (repr H) name))) /\
    posted_field payload "assignee" =
      if Py.truthy assignee then Some (VDict [("id", assignee)]) else None.
Proof.
  intros Ews Epk Hid Ht Hl Hn Tn Hd Td Ha Hr.
  rewrite (creator_start asset attributes is_outdated s s1 ws pk asset_id []
             Ews Epk Hid Ht Hl).
  rewrite bind_lift, Hn, Tn. cbn [negb].
  rewrite bind_lift, Hd, Td. cbn [negb].
  rewrite bind_lift, Ha, bind_lift, Hr.
  apply creator_tail; [exact (getenv_set_nonempty _ _ Epk) | exact Td].
Qed.

(** C7. Whatever the creator is given, it posts at most one ticket, and a
    ticket it posts has the label ["AssetUpdate"] and, as its due date, the
    first value of the asset's "Update" attribute; that value and the first
    value of "Name" are then present and not empty, so an asset without a
    name or without a date gets no ticket.  A responsible person without an
    entry in the mapping, or with an entry that is zero (or empty), gives a
    ticket without assignee; and when the other conditions hold the ticket
    is posted all the same. *)
Theorem creator_submission asset attributes is_outdated (s : St H) :
  let run := create_update_task H cfg asset attributes is_outdated s in
  exists sent,
    requests (snd run) = requests s ++ sent /\
    List.length (filter is_create sent) <= 1 /\
    ((forall name, first_value attributes "Name" = Ok name ->
                   Py.truthy name = false) \/
     (forall date, first_value attributes "Update" = Ok date ->
                   Py.truthy date = false) ->
     filter is_create sent = []) /\
    (forall payload,
       In (CreateTask payload) sent ->
       (exists name,
          first_value attributes "Name" = Ok name /\ Py.truthy name = true) /\
       (exists date,
          first_value attributes "Update" = Ok date /\
          Py.truthy date = true /\
          posted_field payload "duedate" = Some date) /\
       posted_field payload "labels" = Some (VList [VStr "AssetUpdate"]) /\
       (forall assignee_name,
          extract_assignee_name attributes = Ok assignee_name ->
          (forall i, Py.find assignee_name (ASSIGNEE_MAPPING cfg) = Some i ->
                     Py.truthy i = false) ->
          posted_field payload "assignee" = None)) /\
    (forall ws pk asset_id s1 name date assignee_name,
       getenv_set (JIRA_WORKSPACE_ID cfg) = Some ws ->
       getenv_set (JIRA_PROJECT_KEY cfg) = Some pk ->
       Py.get asset "id" VNone = Ok asset_id ->
       Py.truthy asset_id = true ->
       linked_update_issues H asset_id
         (snd (enter H (CreateUpdateTask is_outdated) s)) = (Ok [], s1) ->
       first_value attributes "Name" = Ok name ->
       Py.truthy name = true ->
       first_value attributes "Update" = Ok date ->
       Py.truthy date = true ->
       extract_assignee_name attributes = Ok assignee_name ->
       Py.truthy assignee_name = false \/ Py.hashable assignee_name = true ->
       (forall i, Py.find assignee_name (ASSIGNEE_MAPPING cfg) = Some i ->
                  Py.truthy i = false) ->
       exists payload,
         In (CreateTask payload) sent /\
         posted_field payload "assignee" = None).
Proof.
  intros run. subst run.
  assert (Hreads : forall l, forallb is_read l = true -> filter is_create l = []).
  { induction l as [| r l IH]; [reflexivity |]. simpl. intros Hr.
    apply andb_prop in Hr. destruct Hr as [Hr1 Hr2].
    destruct r; simpl in *; try discriminate; auto. }
  destruct (creator_requests asset attributes is_outdated s)
    as (l & Hr & [Hl | (payload & name & date & an & assignee & Hl & Hn & Tn
                         & Hd & Td & Ha & Hres & Pd & Pl & Pa)]).
  - exists l. split; [exact Hl |].
    assert (Hnone : forall p, ~ In (CreateTask p) l).
    { intros p Hin. rewrite forallb_forall in Hr.
      specialize (Hr _ Hin). discriminate. }
    split; [rewrite (Hreads l Hr); simpl; lia |].
    split; [intros _; apply (Hreads l Hr) |]. split.
    + intros p Hin. destruct (Hnone p Hin).
    + intros ws pk asset_id s1 name date an Ews Epk Hid Ht Hlk Hn Tn Hd Td Ha
        Hh Hmap.
      assert (Hres : exists assignee,
                resolved_assignee cfg an = Ok assignee /\
                Py.truthy assignee = false).
      { unfold resolved_assignee, Py.dict_get.
        destruct Hh as [Hf | Hh].
        - rewrite Hf. exists VNone. split; reflexivity.
        - destruct (Py.truthy an); [| exists VNone; split; reflexivity].
          rewrite Hh.
          destruct (Py.find an (ASSIGNEE_MAPPING cfg)) as [i |] eqn:Ef.
          + exists i. split; [reflexivity | apply Hmap; reflexivity].
          + exists VNone. split; reflexivity. }
      destruct Hres as (assignee & Hres & Tas).
      destruct (creator_submits asset attributes is_outdated s s1 ws pk
                  asset_id name date an assignee Ews Epk Hid Ht Hlk Hn Tn Hd
                  Td Ha Hres) as (payload & Hsent & _).
      exfalso.
      pose proof (quiet_linked_update_issues asset_id
                    (snd (enter H (CreateUpdateTask is_outdated) s))) as Hq.
      rewrite Hlk in Hq. destruct Hq as (_ & (l1 & Hl1 & Hr1) & _).
      cbn [snd requests enter] in Hl1.
      rewrite Hl, Hl1, <- app_assoc in Hsent.
      apply app_inv_head in Hsent.
      apply (Hnone payload). rewrite Hsent. apply in_or_app. right.
      left. reflexivity.
  - exists (l ++ [CreateTask payload]). split; [exact Hl |].
    assert (Hin : forall p, In (CreateTask p) (l ++ [CreateTask payload]) ->
                            p = payload).
    { intros p Hp. apply in_app_or in Hp. destruct Hp as [Hp | [Hp | []]].
      - rewrite forallb_forall in Hr. specialize (Hr _ Hp). discriminate.
      - congruence. }
    assert (Hnoassignee :
              (forall i, Py.find an (ASSIGNEE_MAPPING cfg) = Some i ->
                         Py.truthy i = false) ->
              posted_field payload "assignee" = None).
    { intros Hmap. rewrite Pa.
      destruct (Py.truthy assignee) eqn:Tas; [| reflexivity].
      unfold resolved_assignee, Py.dict_get in Hres.
      destruct (Py.truthy an); [| inversion Hres; subst; discriminate].
      destruct (Py.hashable an); [| discriminate].
      destruct (Py.find an (ASSIGNEE_MAPPING cfg)) as [i |] eqn:Ef.
      - inversion Hres; subst. rewrite (Hmap assignee eq_refl) in Tas.
        discriminate.
      - inversion Hres; subst. discriminate. }
    split; [| split; [| split]].
    + rewrite filter_app, length_app, (Hreads l Hr). simpl. lia.
    + intros [Hmissing | Hmissing]; exfalso.
      * rewrite (Hmissing name Hn) in Tn. discriminate.
      * rewrite (Hmissing date Hd) in Td. discriminate.
    + intros p Hp. rewrite (Hin p Hp). repeat split.
      * exists name. split; assumption.
      * exists date. repeat split; assumption.
      * exact Pl.
      * intros an' Ha' Hmap. assert (an' = an) by congruence. subst an'.
        apply Hnoassignee. exact Hmap.
    + intros ws pk asset_id s1 name' date' an' _ _ _ _ _ _ _ _ _ Ha' _ Hmap.
      assert (an' = an) by congruence. subst an'.
      exists payload. split.
      * apply in_or_app. right. left. reflexivity.
      * apply Hnoassignee. exact Hmap.
Qed.

(** ** The filter and the cache *)

Lemma cache_le_refl c : cache_le c c.
Proof. intros k t E. exact E. Qed.

Lemma cache_le_trans c1 c2 c3 : cache_le c1 c2 -> cache_le c2 c3 -> cache_le c1 c3.
Proof. intros H1 H2 k t E. apply H2, H1, E. Qed.

Lemma quiet_cache_le (s s' : St H) :
  quiet H s s' -> cache_le (task_cache s) (task_cache s').
Proof. intros (_ & _ & Hc & _). exact Hc. Qed.

Lemma remediation_ticket_mono c c' issue :
  cache_le c c' -> remediation_ticket c issue -> remediation_ticket c' issue.
Proof.
  intros Hle (k & t & Hk & Hh & Hf & Hu). exists k, t. auto.
Qed.

Lemma quiet_filter_loop l acc : respects (quiet H) (filter_loop H l acc).
Proof.
  apply (respects_filter_loop (quiet H)); eauto with frame.
Qed.

Lemma filter_loop_sound l :
  forall acc (s s1 : St H) us,
    filter_loop H l acc s = (Ok us, s1) ->
    Forall (remediation_ticket (task_cache s)) acc ->
    Forall (remediation_ticket (task_cache s1)) us.
Proof.
  induction l as [| x l IH]; intros acc s s1 us E Hacc.
  - inversion E; subst. exact Hacc.
  - simpl in E. rewrite bind_lift in E.
    destruct (Py.get x "key" VNone) as [k | e] eqn:Ek; [| discriminate].
    pose proof (quiet_lookup k s) as Hq.
    destruct (bind_cases (get_task_cached H k)
                (fun task =>
                   bind H (lift H (is_task_for_update task))
                     (fun keep : bool =>
                        filter_loop H l
                          (if keep then acc ++ [x] else acc))) s)
      as [(t & sa & Eg & Eb) | (e & sa & Eg & Eb)];
      rewrite Eb in E; [| discriminate].
    rewrite Eg in Hq. apply quiet_cache_le in Hq. simpl in Hq.
    destruct (lookup_caches k t s sa Eg) as [Hk Hf].
    rewrite bind_lift in E.
    destruct (is_task_for_update t) as [keep | e] eqn:Eu; [| discriminate].
    apply (IH _ _ _ _ E).
    assert (Hacc' : Forall (remediation_ticket (task_cache sa)) acc).
    { eapply Forall_impl; [| exact Hacc].
      intros a. apply remediation_ticket_mono. exact Hq. }
    destruct keep; [| exact Hacc'].
    apply Forall_app. split; [exact Hacc' |].
    constructor; [| constructor]. exists k, t. auto.
Qed.

Lemma filter_loop_again l :
  forall acc (s s1 : St H) us,
    filter_loop H l acc s = (Ok us, s1) ->
    forall s2 : St H,
      cache_le (task_cache s1) (task_cache s2) ->
      filter_loop H l acc s2 = (Ok us, s2).
Proof.
  induction l as [| x l IH]; intros acc s s1 us E s2 Hle.
  - inversion E; subst. reflexivity.
  - simpl in E |- *. rewrite bind_lift in E. rewrite bind_lift.
    destruct (Py.get x "key" VNone) as [k | e] eqn:Ek; [| discriminate].
    destruct (bind_cases (get_task_cached H k)
                (fun task =>
                   bind H (lift H (is_task_for_update task))
                     (fun keep : bool =>
                        filter_loop H l
                          (if keep then acc ++ [x] else acc))) s)
      as [(t & sa & Eg & Eb) | (e & sa & Eg & Eb)];
      rewrite Eb in E; [| discriminate].
    destruct (lookup_caches k t s sa Eg) as [Hk Hf].
    rewrite bind_lift in E.
    destruct (is_task_for_update t) as [keep | e] eqn:Eu; [| discriminate].
    pose proof (quiet_filter_loop l (if keep then acc ++ [x] else acc) sa)
      as Hq.
    rewrite E in Hq. apply quiet_cache_le in Hq. simpl in Hq.
    rewrite (bind_ok _ _ _ _ _
               (get_task_cached_hit k t s2 Hk (Hle _ _ (Hq _ _ Hf)))).
    rewrite bind_lift, Eu.
    apply (IH _ _ _ _ E). exact Hle.
Qed.

Lemma connected_tickets_again asset_id (s s2 : St H) :
  world s2 = world s ->
  fst (get_object_connected_tickets H asset_id s2) =
    fst (get_object_connected_tickets H asset_id s) /\
  task_cache (snd (get_object_connected_tickets H asset_id s2)) = task_cache s2.
Proof.
  intros Hw. unfold get_object_connected_tickets, bind, _request, lift, ret.
  rewrite Hw.
  destruct (Py.truthy (error_value (fst (remote H (ConnectedTickets asset_id)
                                            (world s))))); [| split; reflexivity].
  destruct (Py.contains_str "tickets" _) as [[|] | e]; split; reflexivity.
Qed.

Lemma linked_update_issues_again asset_id (s s1 s2 : St H) us :
  linked_update_issues H asset_id s = (Ok us, s1) ->
  world s2 = world s ->
  cache_le (task_cache s1) (task_cache s2) ->
  exists s3,
    linked_update_issues H asset_id s2 = (Ok us, s3) /\ quiet H s2 s3.
Proof.
  intros E Hw Hle. unfold linked_update_issues in *.
  destruct (bind_cases (get_object_connected_tickets H asset_id)
              (filter_update_issues H) s)
    as [(linked & sa & Ec & Eb) | (e & sa & Ec & Eb)];
    rewrite Eb in E; [| discriminate].
  destruct (connected_tickets_again asset_id s s2 Hw) as [Hfst Hcache].
  assert (Hq : quiet H s2 (snd (get_object_connected_tickets H asset_id s2))).
  { apply (respects_connected_tickets (quiet H) is_read); eauto with frame. }
  destruct (get_object_connected_tickets H asset_id s2) as [r2 sb] eqn:E2.
  simpl in Hfst, Hcache, Hq. rewrite Ec in Hfst. simpl in Hfst. subst r2.
  exists sb. split; [| exact Hq].
  rewrite (bind_ok _ _ _ _ _ E2).
  unfold filter_update_issues in *. rewrite bind_lift in E. rewrite bind_lift.
  destruct (Py.iter linked) as [items | e]; [| discriminate].
  apply (filter_loop_again items [] sa s1 us E). rewrite Hcache. exact Hle.
Qed.

Lemma linked_update_issues_sound asset_id (s s1 : St H) us :
  linked_update_issues H asset_id s = (Ok us, s1) ->
  Forall (remediation_ticket (task_cache s1)) us.
Proof.
  intros E. unfold linked_update_issues in E.
  destruct (bind_cases (get_object_connected_tickets H asset_id)
              (filter_update_issues H) s)
    as [(linked & sa & Ec & Eb) | (e & sa & Ec & Eb)];
    rewrite Eb in E; [| discriminate].
  unfold filter_update_issues in E. rewrite bind_lift in E.
  destruct (Py.iter linked) as [items | e]; [| discriminate].
  apply (filter_loop_sound items [] sa s1 us E). constructor.
Qed.

Lemma linked_update_issues_requests asset_id (s : St H) :
  exists l,
    requests (snd (linked_update_issues H asset_id s)) =
      requests s ++ ConnectedTickets asset_id :: l /\
    forallb is_read l = true.
Proof.
  unfold linked_update_issues, get_object_connected_tickets.
  rewrite !bind_assoc.
  rewrite (bind_ok (_request H (ConnectedTickets asset_id)) _ s
             (snd (_request H (ConnectedTickets asset_id) s)) _ eq_refl).
  match goal with
  | |- context [snd (?m ?s0)] =>
      assert (Hq : respects (quiet H) m) by frame_with is_read;
      destruct (Hq s0) as (_ & (l & Hl & Hr) & _)
  end.
  exists l. split; [| exact Hr].
  rewrite Hl. simpl. rewrite <- app_assoc. reflexivity.
Qed.

(** ** The due-soon handler *)

Lemma find_active_issue_cons asset_id issue rest :
  find_active_issue H asset_id (issue :: rest) =
    bind H (lift H (Py.getitem issue "key"))
      (fun issue_key =>
         bind H (get_task_cached H issue_key)
           (fun task =>
              if negb (Py.truthy task) then
                bind H (note H WARNING (LinkedTaskNotFound asset_id issue_key))
                  (fun _ => find_active_issue H asset_id rest)
              else
                bind H (lift H (status_name task))
                  (fun status =>
                     if is_active status then
                       bind H
                         (note H INFO (TaskIsActive asset_id issue_key status))
                         (fun _ => ret H true)
                     else find_active_issue H asset_id rest))).
Proof. reflexivity. Qed.

Lemma find_active_issue_run asset_id us infos (s : St H) :
  Forall2 (fun issue ks => cached_status (task_cache s) issue (fst ks) (snd ks))
          us infos ->
  find_active_issue H asset_id us s =
    match first_active infos with
    | Some (key, status) =>
        (Ok true, snd (note H INFO (TaskIsActive asset_id key status) s))
    | None => (Ok false, s)
    end.
Proof.
  intros Hall. induction Hall as [| issue [key status] us infos Hc _ IH].
  - reflexivity.
  - destruct Hc as (t & Hkey & Hh & Hf & Ht & Hst). cbn [fst snd] in *.
    rewrite find_active_issue_cons. cbn [first_active].
    rewrite bind_lift, Hkey.
    rewrite (bind_ok _ _ _ _ _ (get_task_cached_hit key t s Hh Hf)).
    rewrite Ht. cbn [negb]. rewrite bind_lift, Hst.
    destruct (is_active status); [reflexivity |].
    exact IH.
Qed.

Lemma handle_future_asset_run asset attributes update_date (s s1 : St H)
    asset_id us :
  Py.getitem asset "id" = Ok asset_id ->
  linked_update_issues H asset_id (snd (enter H (HandleFutureAsset asset) s))
    = (Ok us, s1) ->
  handle_future_asset H cfg asset attributes update_date s =
    bind H (find_active_issue H asset_id us)
      (fun found : bool =>
         if negb found then
           bind H (create_update_task H cfg asset attributes false)
             (fun _ => note H INFO (NewUpdateTaskIsBeingCreated asset_id))
         else ret H tt) s1.
Proof.
  intros Hid Hl. unfold handle_future_asset.
  rewrite (bind_ok (enter H (HandleFutureAsset asset)) _ s
             (snd (enter H (HandleFutureAsset asset) s)) tt eq_refl).
  rewrite bind_lift, Hid.
  unfold linked_update_issues in Hl.
  rewrite <- bind_assoc. rewrite (bind_ok _ _ _ _ _ Hl). reflexivity.
Qed.

Lemma is_active_spec status :
  is_active status = true <->
  status = VStr "TO DO" \/ status = VStr "In Progress".
Proof.
  unfold is_active, active_statuses. simpl. rewrite !orb_true_iff.
  unfold Py.eq_str. destruct status as [| b | n | t | l | d];
    try (split; [intros [C | [C | C]]; discriminate
                | intros [C | C]; discriminate]).
  rewrite !String.eqb_eq. split.
  - intros [-> | [-> | C]]; [left | right | discriminate]; reflexivity.
  - intros [C | C]; inversion C; auto.
Qed.

Lemma first_active_some infos :
  Exists (fun ks => snd ks = VStr "TO DO" \/ snd ks = VStr "In Progress")
         infos ->
  exists key status,
    first_active infos = Some (key, status) /\ is_active status = true.
Proof.
  induction 1 as [[k st] l Hx | [k st] l _ IH]; simpl.
  - simpl in Hx. apply is_active_spec in Hx. rewrite Hx. exists k, st. auto.
  - destruct (is_active st) eqn:E; [exists k, st; auto | exact IH].
Qed.

Lemma connected_tickets_failed object_id (s : St H) :
  is_failure (fst (remote H (ConnectedTickets object_id) (world s))) = true ->
  get_object_connected_tickets H object_id s =
    (Ok (VList []), snd (_request H (ConnectedTickets object_id) s)).
Proof.
  intros Hf. unfold get_object_connected_tickets, bind, _request, lift, ret.
  cbn [fst snd].
  destruct (fst (remote H (ConnectedTickets object_id) (world s)))
    as [v | | err text | err]; try discriminate; reflexivity.
Qed.

Lemma linked_update_issues_failed object_id (s : St H) :
  is_failure (fst (remote H (ConnectedTickets object_id) (world s))) = true ->
  linked_update_issues H object_id s =
    (Ok [], snd (_request H (ConnectedTickets object_id) s)).
Proof.
  intros Hf. unfold linked_update_issues.
  rewrite (bind_ok _ _ _ _ _ (connected_tickets_failed object_id s Hf)).
  reflexivity.
Qed.

(** the creator, when its own look at the links finds a remediation ticket *)
Lemma creator_finds_linked asset attributes is_outdated (s s1 : St H)
    asset_id u us :
  Py.get asset "id" VNone = Ok asset_id ->
  linked_update_issues H asset_id (snd (enter H (CreateUpdateTask is_outdated) s))
    = (Ok (u :: us), s1) ->
  let run := create_update_task H cfg asset attributes is_outdated s in
  fst run = Ok tt /\
  (requests (snd run) = requests s \/ requests (snd run) = requests s1).
Proof.
  intros Hid Hl run. subst run.
  destruct (getenv_set (JIRA_WORKSPACE_ID cfg)) as [ws |] eqn:Ews.
  2: { unfold create_update_task.
       rewrite (bind_ok (enter H (CreateUpdateTask is_outdated)) _ s
                  (snd (enter H (CreateUpdateTask is_outdated) s)) tt eq_refl).
       rewrite Ews. split; [reflexivity | left; reflexivity]. }
  destruct (getenv_set (JIRA_PROJECT_KEY cfg)) as [pk |] eqn:Epk.
  2: { unfold create_update_task.
       rewrite (bind_ok (enter H (CreateUpdateTask is_outdated)) _ s
                  (snd (enter H (CreateUpdateTask is_outdated) s)) tt eq_refl).
       rewrite Ews, Epk. split; [reflexivity | left; reflexivity]. }
  destruct (Py.truthy asset_id) eqn:Ht.
  2: { unfold create_update_task.
       rewrite (bind_ok (enter H (CreateUpdateTask is_outdated)) _ s
                  (snd (enter H (CreateUpdateTask is_outdated) s)) tt eq_refl).
       rewrite Ews, Epk, bind_lift, Hid, Ht.
       split; [reflexivity | left; reflexivity]. }
  rewrite (creator_start asset attributes is_outdated s s1 ws pk asset_id
             (u :: us) Ews Epk Hid Ht Hl).
  pose proof (linked_update_issues_sound asset_id _ s1 (u :: us) Hl) as Hs.
  inversion Hs as [| ? ? (k & t & Hk & _) _]; subst.
  assert (exists k', Py.get u "key" (VStr "") = Ok k') as [k' Hk'].
  { destruct u; try discriminate. eexists. reflexivity. }
  rewrite bind_lift, Hk'. split; [reflexivity | right; reflexivity].
Qed.

Lemma getitem_get o k v default :
  Py.getitem o k = Ok v -> Py.get o k default = Ok v.
Proof.
  destruct o as [| b | n | t | l | d]; simpl; try discriminate.
  destruct (Py.lookup k d); [auto | discriminate].
Qed.

Lemma due_soon_not_active asset attributes update_date (s s1 : St H)
    asset_id us infos :
  Py.getitem asset "id" = Ok asset_id ->
  linked_update_issues H asset_id (snd (enter H (HandleFutureAsset asset) s))
    = (Ok us, s1) ->
  Forall2 (fun issue ks => cached_status (task_cache s1) issue (fst ks) (snd ks))
          us infos ->
  first_active infos = None ->
  let run := handle_future_asset H cfg asset attributes update_date s in
  entered (snd run) =
    entered s ++ [HandleFutureAsset asset; CreateUpdateTask false] /\
  (reads_pure H -> us <> [] ->
   fst run = Ok tt /\
   exists l, requests (snd run) = requests s ++ l /\ forallb is_read l = true).
Proof.
  intros Hid Hl Hall Hnone run. subst run.
  rewrite (handle_future_asset_run asset attributes update_date s s1 asset_id
             us Hid Hl).
  pose proof (find_active_issue_run asset_id us infos s1 Hall) as Hrun.
  rewrite Hnone in Hrun. rewrite (bind_ok _ _ _ _ _ Hrun). cbn [negb].
  pose proof (quiet_linked_update_issues asset_id
                (snd (enter H (HandleFutureAsset asset) s))) as Hq.
  rewrite Hl in Hq. destruct Hq as (He & (l1 & Hl1 & Hr1) & _ & Hw).
  cbn [snd entered requests world enter] in He, Hl1, Hw.
  pose proof (creator_enters_once asset attributes false s1) as Hc.
  split.
  - destruct (bind_cases (create_update_task H cfg asset attributes false)
                (fun _ => note H INFO (NewUpdateTaskIsBeingCreated asset_id))
                s1)
      as [(a & s' & E & ->) | (e & s' & E & ->)];
      rewrite E in Hc; simpl in Hc; simpl; rewrite Hc, He, <- app_assoc;
      reflexivity.
  - intros Hpure Hne. destruct us as [| u us']; [congruence |].
    destruct (linked_update_issues_again asset_id
                (snd (enter H (HandleFutureAsset asset) s)) s1
                (snd (enter H (CreateUpdateTask false) s1)) (u :: us') Hl)
      as (s3 & Hagain & Hq3).
    { simpl. apply Hw. exact Hpure. }
    { simpl. apply cache_le_refl. }
    destruct (creator_finds_linked asset attributes false s1 s3 asset_id u us'
                (getitem_get _ _ _ _ Hid) Hagain) as [Hok Hreq].
    destruct Hq3 as (_ & (l3 & Hl3 & Hr3) & _).
    cbn [snd requests enter] in Hl3.
    destruct (create_update_task H cfg asset attributes false s1)
      as [[[] | e] s'] eqn:E; simpl in Hok, Hreq; [| discriminate].
    rewrite (bind_ok _ _ _ _ _ E). simpl. split; [reflexivity |].
    destruct Hreq as [Hreq | Hreq]; rewrite Hreq.
    + exists l1. split; assumption.
    + exists (l1 ++ l3). rewrite Hl3, Hl1, app_assoc. split; [reflexivity |].
      rewrite forallb_app, Hr1, Hr3. reflexivity.
Qed.

Lemma connected_tickets_state object_id (s : St H) :
  snd (get_object_connected_tickets H object_id s) =
    snd (_request H (ConnectedTickets object_id) s).
Proof.
  unfold get_object_connected_tickets, bind, _request, lift, ret.
  cbn [fst snd].
  destruct (Py.truthy _); [| reflexivity].
  destruct (Py.contains_str _ _) as [[|] | e]; reflexivity.
Qed.

(** the creator, once it has its configuration and the id of the asset,
    asks for the links of the asset before it sends anything else *)
Lemma creator_asks_first asset attributes is_outdated (s : St H)
    ws pk asset_id :
  getenv_set (JIRA_WORKSPACE_ID cfg) = Some ws ->
  getenv_set (JIRA_PROJECT_KEY cfg) = Some pk ->
  Py.get asset "id" VNone = Ok asset_id ->
  Py.truthy asset_id = true ->
  exists l,
    requests (snd (create_update_task H cfg asset attributes is_outdated s)) =
      requests s ++ ConnectedTickets asset_id :: l.
Proof.
  intros Hws Hpk Hid Ht. unfold create_update_task.
  rewrite (bind_ok (enter H (CreateUpdateTask is_outdated)) _ s
             (snd (enter H (CreateUpdateTask is_outdated) s)) tt eq_refl).
  rewrite Hws, Hpk, bind_lift, Hid, Ht. cbn [negb].
  match goal with
  | |- context [bind H (get_object_connected_tickets H asset_id) ?K ?s0] =>
      assert (HK : forall v, respects (tracked H) (K v))
        by (intros v; frame_with (fun r => negb (is_fetch r)));
      pose proof (connected_tickets_state asset_id s0) as Hs;
      destruct (bind_cases (get_object_connected_tickets H asset_id) K s0)
        as [(v & s' & E & ->) | (e & s' & E & ->)];
      rewrite E in Hs; cbn [snd] in Hs; subst s'
  end.
  - destruct (HK v (snd (_request H (ConnectedTickets asset_id)
                           (snd (enter H (CreateUpdateTask is_outdated) s)))))
      as (l & Hl & _).
    exists l. rewrite Hl. cbn [_request enter snd requests].
    rewrite <- app_assoc. reflexivity.
  - exists []. reflexivity.
Qed.

(** C9, as the code has it.  With its configuration and the id of the asset
    the creator asks the site for the links of the asset itself, before
    anything else it sends.  What it does next depends on that look alone:
      - when the look finds a linked remediation ticket, of any status, the
        creator logs it and returns, and has sent nothing but reads;
      - when the site fails on the creator's query, the creator takes the
        asset for one without links and, given a name and a date, posts a
        ticket.
    So for an asset due soon whose linked remediation tickets are not active
    (a single "Done" ticket is such a case) the creator is entered, and no
    ticket is created on a site that its reads leave unchanged, where the
    creator's look finds what the handler's look found. *)
Theorem creator_rechecks_links asset attributes asset_id :
  (forall is_outdated (s : St H) ws pk,
     getenv_set (JIRA_WORKSPACE_ID cfg) = Some ws ->
     getenv_set (JIRA_PROJECT_KEY cfg) = Some pk ->
     Py.get asset "id" VNone = Ok asset_id ->
     Py.truthy asset_id = true ->
     let run := create_update_task H cfg asset attributes is_outdated s in
     let s0 := snd (enter H (CreateUpdateTask is_outdated) s) in
     (exists l,
        requests (snd run) = requests s ++ ConnectedTickets asset_id :: l) /\
     (forall s1 u us,
        linked_update_issues H asset_id s0 = (Ok (u :: us), s1) ->
        fst run = Ok tt /\
        requests (snd run) = requests s1 /\
        (exists l,
           requests s1 = requests s ++ ConnectedTickets asset_id :: l /\
           forallb is_read l = true) /\
        log (snd run) =
          log s1 ++ [(INFO, AlreadyHasLinkedUpdateIssue asset_id)] /\
        Forall (remediation_ticket (task_cache s1)) (u :: us)) /\
     (forall name date assignee_name assignee,
        is_failure (fst (remote H (ConnectedTickets asset_id) (world s)))
          = true ->
        first_value attributes "Name" = Ok name ->
        Py.truthy name = true ->
        first_value attributes "Update" = Ok date ->
        Py.truthy date = true ->
        extract_assignee_name attributes = Ok assignee_name ->
        resolved_assignee cfg assignee_name = Ok assignee ->
        exists payload,
          requests (snd run) =
            requests s ++ [ConnectedTickets asset_id; CreateTask payload] /\
          posted_field payload "labels" = Some (VList [VStr "AssetUpdate"]))) /\
  (forall is_outdated (s s1 : St H) u us,
     Py.get asset "id" VNone = Ok asset_id ->
     linked_update_issues H asset_id
       (snd (enter H (CreateUpdateTask is_outdated) s)) = (Ok (u :: us), s1) ->
     let run := create_update_task H cfg asset attributes is_outdated s in
     fst run = Ok tt /\
     (exists l,
        requests s1 = requests s ++ ConnectedTickets asset_id :: l /\
        forallb is_read l = true) /\
     (requests (snd run) = requests s \/ requests (snd run) = requests s1)) /\
  (forall update_date (s s1 : St H) us infos,
     Py.getitem asset "id" = Ok asset_id ->
     linked_update_issues H asset_id (snd (enter H (HandleFutureAsset asset) s))
       = (Ok us, s1) ->
     Forall2
       (fun issue ks => cached_status (task_cache s1) issue (fst ks) (snd ks))
       us infos ->
     first_active infos = None ->
     let run := handle_future_asset H cfg asset attributes update_date s in
     entered (snd run) =
       entered s ++ [HandleFutureAsset asset; CreateUpdateTask false] /\
     (reads_pure H -> us <> [] ->
      fst run = Ok tt /\
      exists l, requests (snd run) = requests s ++ l /\
                forallb is_read l = true)) /\
  (forall key, first_active [(key, VStr "Done")] = None).
Proof.
  split; [| split; [| split]].
  - intros is_outdated s ws pk Hws Hpk Hid Ht run s0.
    split; [| split].
    + apply (creator_asks_first asset attributes is_outdated s ws pk asset_id
               Hws Hpk Hid Ht).
    + intros s1 u us Hl.
      pose proof (linked_update_issues_sound asset_id s0 s1 (u :: us) Hl)
        as Hsound.
      destruct (linked_update_issues_requests asset_id s0) as (l & Hl1 & Hr1).
      rewrite Hl in Hl1. cbn [snd] in Hl1.
      assert (Hrun : run = (Ok tt,
                snd (note H INFO (AlreadyHasLinkedUpdateIssue asset_id) s1))).
      { subst run.
        rewrite (creator_start asset attributes is_outdated s s1 ws pk asset_id
                   (u :: us) Hws Hpk Hid Ht Hl).
        inversion Hsound as [| ? ? (k & t & Hk & _) _]; subst.
        assert (exists k', Py.get u "key" (VStr "") = Ok k') as [k' Hk'].
        { destruct u; try discriminate. eexists. reflexivity. }
        rewrite bind_lift, Hk'. reflexivity. }
      rewrite Hrun. split; [reflexivity |]. split; [reflexivity |].
      split; [exists l; split; [exact Hl1 | exact Hr1] |].
      split; [reflexivity | exact Hsound].
    + intros name date assignee_name assignee Hfail Hname Hnt Hdate Hdt Han Has.
      pose proof (linked_update_issues_failed asset_id s0 Hfail) as Hl.
      destruct (creator_submits asset attributes is_outdated s _ ws pk asset_id
                  name date assignee_name assignee Hws Hpk Hid Ht Hl
                  Hname Hnt Hdate Hdt Han Has)
        as (payload & Hr & _ & Hlab & _).
      exists payload. split; [| exact Hlab].
      fold run in Hr. rewrite Hr. subst s0.
      cbn [_request enter snd requests]. rewrite <- app_assoc. reflexivity.
  - intros is_outdated s s1 u us Hid Hl run. subst run.
    destruct (creator_finds_linked asset attributes is_outdated s s1 asset_id
                u us Hid Hl) as [Hok Hreq].
    split; [exact Hok |]. split; [| exact Hreq].
    destruct (linked_update_issues_requests asset_id
                (snd (enter H (CreateUpdateTask is_outdated) s)))
      as (l & Hl1 & Hr1).
    rewrite Hl in Hl1. exists l. split; [exact Hl1 | exact Hr1].
  - intros update_date s s1 us infos Hid Hl Hall Hnone.
    apply (due_soon_not_active asset attributes update_date s s1 asset_id us
             infos Hid Hl Hall Hnone).
  - reflexivity.
Qed.

(** C1, as the code has it.  For an asset due soon, with the statuses of its
    linked remediation tickets read from the cache: the statuses taken as
    active are "TO DO" and "In Progress", compared exactly.  If a ticket has
    one of them the handler stops at the first such ticket, logs it, and
    returns: the creator is not entered and nothing is sent after the
    tickets were fetched.  A status "To Do" is not one of them: with such a
    ticket alone the creator is entered, and on a site that its reads leave
    unchanged it finds the ticket linked and creates nothing. *)
Theorem due_soon_active_ticket asset attributes update_date (s s1 : St H)
    asset_id us infos :
  Py.getitem asset "id" = Ok asset_id ->
  linked_update_issues H asset_id (snd (enter H (HandleFutureAsset asset) s))
    = (Ok us, s1) ->
  Forall2 (fun issue ks => cached_status (task_cache s1) issue (fst ks) (snd ks))
          us infos ->
  let run := handle_future_asset H cfg asset attributes update_date s in
  (forall status,
     is_active status = true <->
     status = VStr "TO DO" \/ status = VStr "In Progress") /\
  (Exists (fun ks => snd ks = VStr "TO DO" \/ snd ks = VStr "In Progress")
          infos ->
   exists key status,
     first_active infos = Some (key, status) /\
     fst run = Ok tt /\
     entered (snd run) = entered s ++ [HandleFutureAsset asset] /\
     requests (snd run) = requests s1 /\
     log (snd run) = log s1 ++ [(INFO, TaskIsActive asset_id key status)]) /\
  (first_active infos = None ->
   entered (snd run) =
     entered s ++ [HandleFutureAsset asset; CreateUpdateTask false] /\
   (reads_pure H -> us <> [] ->
    fst run = Ok tt /\
    exists l, requests (snd run) = requests s ++ l /\
              forallb is_read l = true)) /\
  (forall key, first_active [(key, VStr "To Do")] = None).
Proof.
  intros Hid Hl Hall run. split; [| split; [| split]].
  - apply is_active_spec.
  - intros Hex. destruct (first_active_some infos Hex) as (key & status & Hf & _).
    exists key, status. split; [exact Hf |]. subst run.
    rewrite (handle_future_asset_run asset attributes update_date s s1
               asset_id us Hid Hl).
    pose proof (find_active_issue_run asset_id us infos s1 Hall) as Hrun.
    rewrite Hf in Hrun. rewrite (bind_ok _ _ _ _ _ Hrun). simpl.
    pose proof (quiet_linked_update_issues asset_id
                  (snd (enter H (HandleFutureAsset asset) s))) as Hq.
    rewrite Hl in Hq. destruct Hq as (He & _). simpl in He.
    repeat split. exact He.
  - intros Hnone.
    apply (due_soon_not_active asset attributes update_date s s1 asset_id us
             infos Hid Hl Hall Hnone).
  - reflexivity.
Qed.

(** ** The reconciler's three branches *)

Lemma process_asset_update_dispatch asset attributes v update_date (s : St H) :
  extract_attribute_values asset (attribute_map cfg) = Ok attributes ->
  first_value attributes "Update" = Ok v ->
  Py.truthy v = true ->
  parse_date H v = Some update_date ->
  process_asset_update H cfg asset s =
    match classify update_date (fst (clock H (world s))) with
    | Overdue =>
        handle_overdue_asset H cfg asset attributes
          (snd (note H INFO RequiresUpdate (snd (now H s))))
    | DueSoon =>
        handle_future_asset H cfg asset attributes update_date
          (snd (note H INFO ScheduledForUpdate (snd (now H s))))
    | Current => (Ok tt, snd (note H INFO UpToDate (snd (now H s))))
    end.
Proof.
  intros He Hf Ht Hp. unfold process_asset_update.
  rewrite bind_lift, He. unfold extract_update_date.
  rewrite bind_assoc, bind_lift, Hf, Ht, Hp, bind_ret.
  rewrite (bind_ok (now H) _ s (snd (now H s)) (fst (clock H (world s)))
             eq_refl).
  destruct (classify update_date (fst (clock H (world s)))); reflexivity.
Qed.

(** C3. The class of an asset depends on its due date and the clock only:
    overdue up to and including the instant of the due date, due soon for
    the next five days, the last instant included, current after that; and
    [process_asset_update] runs the handler of the class.  Instants are in
    microseconds. *)
Theorem urgency_classification asset attributes v update_date (s : St H) :
  extract_attribute_values asset (attribute_map cfg) = Ok attributes ->
  first_value attributes "Update" = Ok v ->
  Py.truthy v = true ->
  parse_date H v = Some update_date ->
  let five_days := (5 * 86400 * 1000000)%Z in
  (forall due now : Z,
     ((due <= now)%Z -> classify due now = Overdue) /\
     ((now < due <= now + five_days)%Z -> classify due now = DueSoon) /\
     ((now + five_days < due)%Z -> classify due now = Current)) /\
  (forall now : Z,
     classify now now = Overdue /\ classify (now + five_days) now = DueSoon) /\
  UPDATE_WARNING_SECONDS = 432000%Z /\
  process_asset_update H cfg asset s =
    match classify update_date (fst (clock H (world s))) with
    | Overdue =>
        handle_overdue_asset H cfg asset attributes
          (snd (note H INFO RequiresUpdate (snd (now H s))))
    | DueSoon =>
        handle_future_asset H cfg asset attributes update_date
          (snd (note H INFO ScheduledForUpdate (snd (now H s))))
    | Current => (Ok tt, snd (note H INFO UpToDate (snd (now H s))))
    end.
Proof.
  intros He Hf Ht Hp five_days.
  assert (Hc : forall due now : Z,
            ((due <= now)%Z -> classify due now = Overdue) /\
            ((now < due <= now + five_days)%Z -> classify due now = DueSoon) /\
            ((now + five_days < due)%Z -> classify due now = Current)).
  { intros due now. unfold classify, UPDATE_WARNING_SECONDS,
      UPDATE_WARNING_DAYS, ONE_DAY_SECONDS, SECOND. subst five_days.
    cbv zeta.
    destruct (Z.leb_spec (due - now) 0);
      destruct (Z.leb_spec (due - now) (5 * 86400 * 1000000));
      repeat split; intros; try reflexivity; lia. }
  split; [exact Hc |]. split; [| split].
  - intros now. split.
    + apply (proj1 (Hc now now)). lia.
    + apply (proj1 (proj2 (Hc (now + five_days)%Z now))).
      subst five_days. lia.
  - reflexivity.
  - apply (process_asset_update_dispatch asset attributes v update_date s
             He Hf Ht Hp).
Qed.

(** ** The attribute extractor *)



(** * More properties of the code *)

(** ** The filter, exactly *)

Lemma filter_loop_exact l :
  forall acc (s s1 : St H) us,
    filter_loop H l acc s = (Ok us, s1) ->
    us = acc ++ filter (labelled (task_cache s1)) l.
Proof.
  induction l as [| x l IH]; intros acc s s1 us E.
  - simpl in E. inversion E; subst. simpl. rewrite app_nil_r. reflexivity.
  - cbn [filter_loop] in E. rewrite bind_lift in E.
    destruct (Py.get x "key" VNone) as [k | e] eqn:Ek; [| discriminate].
    destruct (bind_cases (get_task_cached H k)
                (fun task =>
                   bind H (lift H (is_task_for_update task))
                     (fun keep : bool =>
                        filter_loop H l
                          (if keep then acc ++ [x] else acc))) s)
      as [(t & s' & Et & Eb) | (e & s' & Et & Eb)];
      rewrite Eb in E; [| discriminate].
    rewrite bind_lift in E.
    destruct (is_task_for_update t) as [keep | e] eqn:Ekeep; [| discriminate].
    destruct (lookup_caches k t s s' Et) as [Hk Hf].
    pose proof (quiet_cache_le _ _
                  (quiet_filter_loop l (if keep then acc ++ [x] else acc) s'))
      as Hle.
    rewrite E in Hle. simpl in Hle.
    rewrite (IH _ _ _ _ E). cbn [filter]. unfold labelled at 2.
    rewrite Ek, (Hle _ _ Hf), Ekeep.
    destruct keep; [rewrite <- app_assoc |]; reflexivity.
Qed.

Lemma filter_loop_fetches l :
  forall acc (s : St H),
    exists sent,
      requests (snd (filter_loop H l acc s)) = requests s ++ sent /\
      forallb is_fetch sent = true /\
      List.length sent <= List.length l.
Proof.
  induction l as [| x l IH]; intros acc s.
  - exists []. simpl. rewrite app_nil_r. repeat split. lia.
  - cbn [filter_loop]. rewrite bind_lift.
    destruct (Py.get x "key" VNone) as [k | e].
    2: { exists []. simpl. rewrite app_nil_r. repeat split. lia. }
    assert (Hstep : exists s' sent0,
              requests s' = requests s ++ sent0 /\
              forallb is_fetch sent0 = true /\ List.length sent0 <= 1 /\
              (get_task_cached H k s = (Raise TypeError, s') \/
               exists t, get_task_cached H k s = (Ok t, s'))).
    { destruct (Py.hashable k) eqn:Hk.
      - destruct (Py.find k (task_cache s)) as [t |] eqn:Ef.
        + exists s, []. rewrite app_nil_r. repeat split; [simpl; lia |].
          right. exists t. apply get_task_cached_hit; assumption.
        + exists (fetched H k s), [GetTask k]. repeat split; [simpl; lia |].
          right. eexists. apply get_task_cached_miss; assumption.
      - exists s, []. rewrite app_nil_r. repeat split; [simpl; lia |].
        left. apply get_task_cached_unhashable. exact Hk. }
    destruct Hstep as (s' & sent0 & Hs & Hf & Hn & [Et | [t Et]]).
    + rewrite (bind_raise _ _ _ _ _ Et). exists sent0.
      repeat split; [exact Hs | exact Hf | simpl; lia].
    + rewrite (bind_ok _ _ _ _ _ Et). rewrite bind_lift.
      destruct (is_task_for_update t) as [keep | e].
      * destruct (IH (if keep then acc ++ [x] else acc) s')
          as (sent & Hr & Hfs & Hl).
        exists (sent0 ++ sent). rewrite Hr, Hs, app_assoc.
        repeat split.
        -- rewrite forallb_app, Hf, Hfs. reflexivity.
        -- rewrite length_app. simpl. lia.
      * exists sent0. repeat split; [exact Hs | exact Hf | simpl; lia].
Qed.

(** X1. What [filter_update_issues] returns is the links whose ticket, as
    the cache then holds it, carries the label ["AssetUpdate"]: all of them,
    in the order of the links, and nothing else.  To find out it sends
    nothing but ticket fetches, at most one per link. *)
Theorem filter_keeps_the_labelled linked (s s1 : St H) us :
  filter_update_issues H linked s = (Ok us, s1) ->
  exists items sent,
    Py.iter linked = Ok items /\
    us = filter (labelled (task_cache s1)) items /\
    requests s1 = requests s ++ sent /\
    forallb is_fetch sent = true /\
    List.length sent <= List.length items.
Proof.
  intros E. unfold filter_update_issues in E. rewrite bind_lift in E.
  destruct (Py.iter linked) as [items | e]; [| discriminate].
  destruct (filter_loop_fetches items [] s) as (sent & Hr & Hf & Hl).
  rewrite E in Hr. simpl in Hr.
  exists items, sent. repeat split; try assumption.
  apply (filter_loop_exact items [] s s1 us E).
Qed.

(** X2. A link whose ticket the site cannot deliver (an HTTP error, a failed
    connection, an empty answer) is fetched once, dropped without an
    exception, and the filter goes on with the next link. *)
Theorem unfetched_ticket_is_dropped x k rest acc (s : St H) :
  Py.get x "key" VNone = Ok k ->
  Py.hashable k = true ->
  Py.find k (task_cache s) = None ->
  is_failure (fst (remote H (GetTask k) (world s))) = true ->
  filter_loop H (x :: rest) acc s = filter_loop H rest acc (fetched H k s) /\
  requests (fetched H k s) = requests s ++ [GetTask k].
Proof.
  intros Ek Hk Ef Hfail. split; [| reflexivity].
  cbn [filter_loop]. rewrite bind_lift, Ek.
  rewrite (bind_ok _ _ _ _ _ (get_task_cached_miss k s Hk Ef)).
  rewrite bind_lift.
  destruct (fst (remote H (GetTask k) (world s))) as [v | | err text | err];
    try discriminate; reflexivity.
Qed.

(** X3. Filtering the same links again, later in the pass, returns the same
    tickets and sends nothing: the answers come from the cache. *)
Theorem filter_again_is_free linked (s s1 : St H) us :
  filter_update_issues H linked s = (Ok us, s1) ->
  forall s2 : St H,
    cache_le (task_cache s1) (task_cache s2) ->
    filter_update_issues H linked s2 = (Ok us, s2).
Proof.
  intros E s2 Hle. unfold filter_update_issues in *.
  rewrite bind_lift in *.
  destruct (Py.iter linked) as [items | e]; [| discriminate].
  exact (filter_loop_again items [] s s1 us E s2 Hle).
Qed.


(** ** The links of an asset, when the site fails *)

Lemma requests_then_note {A} (m : M H A) l msg (s : St H) :
  requests (snd (bind H m (fun _ => note H l msg) s)) = requests (snd (m s)).
Proof.
  unfold bind. destruct (m s) as [[a | e] s']; reflexivity.
Qed.

(** X4. A failed link query is taken for an asset without links.  When the
    site cannot answer the query for the tickets of an overdue asset, the
    overdue handler asks twice (the creator asks again), finds nothing, and
    posts a new labelled ticket, whether or not the asset has one. *)
Theorem link_outage_posts_a_ticket asset attributes (s : St H)
    ws pk asset_id name date assignee_name assignee :
  (forall w, is_failure (fst (remote H (ConnectedTickets asset_id) w)) = true) ->
  getenv_set (JIRA_WORKSPACE_ID cfg) = Some ws ->
  getenv_set (JIRA_PROJECT_KEY cfg) = Some pk ->
  Py.getitem asset "id" = Ok asset_id ->
  Py.truthy asset_id = true ->
  first_value attributes "Name" = Ok name ->
  Py.truthy name = true ->
  first_value attributes "Update" = Ok date ->
  Py.truthy date = true ->
  extract_assignee_name attributes = Ok assignee_name ->
  resolved_assignee cfg assignee_name = Ok assignee ->
  exists payload,
    requests (snd (handle_overdue_asset H cfg asset attributes s)) =
      requests s ++ [ConnectedTickets asset_id; ConnectedTickets asset_id;
                     CreateTask payload] /\
    posted_field payload "labels" = Some (VList [VStr "AssetUpdate"]) /\
    posted_field payload "duedate" = Some date.
Proof.
  intros Hout Hws Hpk Hid Hidt Hname Hnamet Hdate Hdatet Han Has.
  pose proof (linked_update_issues_failed asset_id
                (snd (enter H (HandleOverdueAsset asset) s)) (Hout _)) as E0.
  rewrite (handle_overdue_asset_run asset attributes s _ asset_id [] Hid E0).
  rewrite requests_then_note.
  set (s1 := snd (_request H (ConnectedTickets asset_id)
                    (snd (enter H (HandleOverdueAsset asset) s)))) in *.
  pose proof (linked_update_issues_failed asset_id
                (snd (enter H (CreateUpdateTask true) s1)) (Hout _)) as E1.
  destruct (creator_submits asset attributes true s1 _ ws pk asset_id name date
              assignee_name assignee Hws Hpk
              (getitem_get _ _ _ VNone Hid) Hidt E1
              Hname Hnamet Hdate Hdatet Han Has)
    as (payload & Hr & Hd & Hl & _).
  exists payload. split; [| split; assumption].
  rewrite Hr. subst s1. cbn [_request enter snd requests].
  rewrite <- !app_assoc. reflexivity.
Qed.

(** ** Transitions by name *)

(** X5. [transition_task_by_name] moves the ticket along the first listed
    transition of the given name (names are compared exactly), with one
    query and one move; when no transition has the name, or the first one
    that has it carries an empty id, it raises [ValueError] after the query
    and moves nothing. *)
Theorem transition_by_name_takes_the_first k name d ts l (s : St H) :
  fst (remote H (GetTransitions k) (world s)) = Body (VDict d) ->
  Py.lookup "transitions" d = Some (VList ts) ->
  Forall2 listed_as ts l ->
  let tid := first_named name l in
  let run := transition_task_by_name H k name s in
  (Py.truthy tid = true ->
   requests (snd run) = requests s ++ [GetTransitions k; TransitionTask k tid]) /\
  (Py.truthy tid = false ->
   fst run = Raise ValueError /\
   requests (snd run) = requests s ++ [GetTransitions k]).
Proof.
  intros Ha Ht Hl tid run.
  pose proof (find_transition_by_name_listed k name d ts l s Ha Ht Hl) as E.
  split; intros Htid.
  - apply (transition_by_name_found k name tid s _ E Htid).
  - subst run. rewrite (transition_by_name_missing k name tid s _ E Htid).
    split; reflexivity.
Qed.

(** X6. When the site does not deliver the transitions of a ticket,
    [transition_task_by_name] moves nothing and raises: [ValueError], as for
    a transition that does not exist, after an HTTP error or a failed
    connection, and [AttributeError] after an empty answer. *)
Theorem transition_by_name_without_answer k name (s : St H) :
  is_failure (fst (remote H (GetTransitions k) (world s))) = true ->
  transition_task_by_name H k name s =
    (Raise (match fst (remote H (GetTransitions k) (world s)) with
            | NoBody => AttributeError
            | _ => ValueError
            end),
     snd (_request H (GetTransitions k) s)) /\
  requests (snd (transition_task_by_name H k name s)) =
    requests s ++ [GetTransitions k].
Proof.
  intros Hf.
  assert (E : transition_task_by_name H k name s =
    (Raise (match fst (remote H (GetTransitions k) (world s)) with
            | NoBody => AttributeError
            | _ => ValueError
            end),
     snd (_request H (GetTransitions k) s))).
  { unfold transition_task_by_name, find_transition_by_name, get_transitions,
      bind, _request, lift, raise.
    cbn [fst snd].
    destruct (fst (remote H (GetTransitions k) (world s)))
      as [v | | err text | err]; try discriminate; reflexivity. }
  split; [exact E | rewrite E; reflexivity].
Qed.

(** ** The ticket [create_task] posts *)

Lemma lookup_store k k' v d :
  Py.lookup k (Py.store k' v d) =
    if (k' =? k)%string then Some v else Py.lookup k d.
Proof.
  induction d as [| [k0 v0] d IH]; simpl.
  - reflexivity.
  - destruct (k0 =? k')%string eqn:E0; simpl.
    + apply String.eqb_eq in E0. subst k0.
      destruct (k' =? k)%string; reflexivity.
    + destruct (k0 =? k)%string eqn:E1.
      * apply String.eqb_eq in E1. subst k0.
        rewrite String.eqb_sym, E0. reflexivity.
      * exact IH.
Qed.

Lemma lookup_app k d e :
  Py.lookup k (d ++ e) =
    match Py.lookup k d with
    | Some v => Some v
    | None => Py.lookup k e
    end.
Proof.
  induction d as [| [k0 v0] d IH]; simpl; [reflexivity |].
  destruct (k0 =? k)%string; [reflexivity | exact IH].
Qed.

Lemma lookup_update k e :
  forall d,
    Py.lookup k (Py.update d e) =
      match Py.lookup k (rev e) with
      | Some v => Some v
      | None => Py.lookup k d
      end.
Proof.
  unfold Py.update.
  induction e as [| [k' v'] e IH]; intros d; simpl; [reflexivity |].
  rewrite IH, lookup_app, lookup_store. simpl.
  destruct (Py.lookup k (rev e)); [reflexivity |].
  destruct (k' =? k)%string; reflexivity.
Qed.

Lemma lookup_set_if k kw field wrap d :
  Py.lookup k (set_if kw field wrap d) =
    if (field =? k)%string then
      match given kw with
      | Some x => Some (wrap x)
      | None => Py.lookup k d
      end
    else Py.lookup k d.
Proof.
  unfold set_if, given. destruct kw as [x |].
  - destruct (Py.truthy x).
    + apply lookup_store.
    + destruct (field =? k)%string; reflexivity.
  - destruct (field =? k)%string; reflexivity.
Qed.

(** X7. [create_task] refuses an empty project key, summary or description
    with [ValueError] before anything is sent; with the three of them it
    never raises and sends one request, whatever the site answers. *)
Theorem create_task_guard pk summary description issue_type kwargs (s : St H) :
  let run := create_task H pk summary description issue_type kwargs s in
  (pk = "" \/ summary = "" \/ description = "" ->
   run = (Raise ValueError, s)) /\
  (pk <> "" -> summary <> "" -> description <> "" ->
   exists payload,
     fst run = Ok (error_value (fst (remote H (CreateTask payload) (world s)))) /\
     requests (snd run) = requests s ++ [CreateTask payload]).
Proof.
  intros run. subst run. unfold create_task. split.
  - intros [-> | [-> | ->]]; cbn [String.eqb orb];
      rewrite ?orb_true_r; reflexivity.
  - intros Hp Hs Hd.
    apply String.eqb_neq in Hp, Hs, Hd. rewrite Hp, Hs, Hd.
    cbn [orb]. cbv zeta. eexists. split; reflexivity.
Qed.

(** X8. The fields of the ticket [create_task] posts: project, summary,
    description and issue type as given; assignee, due date and labels when
    they are given and not empty, and left out otherwise; and over all of
    these the custom fields, which replace a field of the same name (the
    last custom field of a name is the one posted). *)
Theorem create_task_payload pk summary description issue_type kwargs (s : St H) :
  pk <> "" -> summary <> "" -> description <> "" ->
  exists payload,
    create_task H pk summary description issue_type kwargs s =
      _request H (CreateTask payload) s /\
    forall name,
      posted_field payload name =
        expected_field pk summary description issue_type kwargs name.
Proof.
  intros Hp Hs Hd. apply String.eqb_neq in Hp, Hs, Hd.
  unfold create_task. rewrite Hp, Hs, Hd. cbn [orb]. cbv zeta.
  eexists. split; [reflexivity |]. intros name.
  unfold posted_field, expected_field. cbn [Py.lookup String.eqb Ascii.eqb Bool.eqb].
  cbv zeta.
  assert (Hc :
    forall base,
      Py.lookup name
        (match custom_fields kwargs with
         | Some (c :: cs) => Py.update base (c :: cs)
         | _ => base
         end) =
      match Py.lookup name
              (rev (match custom_fields kwargs with
                    | Some l => l
                    | None => []
                    end)) with
      | Some v => Some v
      | None => Py.lookup name base
      end).
  { intros base. destruct (custom_fields kwargs) as [[| c cs] |];
      [reflexivity | apply lookup_update | reflexivity]. }
  rewrite Hc.
  destruct (Py.lookup name _) as [v |]; [reflexivity |].
  rewrite !lookup_set_if. cbn [Py.lookup].
  rewrite !(String.eqb_sym _ name).
  destruct (name =? "project")%string eqn:E1.
  { apply String.eqb_eq in E1. subst name. reflexivity. }
  destruct (name =? "summary")%string eqn:E2.
  { apply String.eqb_eq in E2. subst name. reflexivity. }
  destruct (name =? "description")%string eqn:E3.
  { apply String.eqb_eq in E3. subst name. reflexivity. }
  destruct (name =? "issuetype")%string eqn:E4.
  { apply String.eqb_eq in E4. subst name. reflexivity. }
  destruct (name =? "assignee")%string eqn:E5.
  { apply String.eqb_eq in E5. subst name. cbn [String.eqb Ascii.eqb Bool.eqb].
    destruct (given (assignee_id kwargs)); reflexivity. }
  destruct (name =? "duedate")%string eqn:E6.
  { apply String.eqb_eq in E6. subst name. cbn [String.eqb Ascii.eqb Bool.eqb].
    destruct (given (duedate kwargs)); reflexivity. }
  destruct (name =? "labels")%string eqn:E7.
  { apply String.eqb_eq in E7. subst name.
    destruct (given (task_labels kwargs)); reflexivity. }
  reflexivity.
Qed.


(** ** What the extractor returns *)

Lemma In_set {A} k (a : A) d k' a' :
  In (k', a') (Py.set k a d) -> (exists a0, In (k', a0) d) \/ k' = k.
Proof.
  induction d as [| [k0 a0] d IH]; simpl.
  - intros [E | []]. inversion E. right. reflexivity.
  - destruct (Py.key_eqb k0 k); simpl.
    + intros [E | Hin].
      * inversion E; subst. left. exists a0. left. reflexivity.
      * left. exists a'. right. exact Hin.
    + intros [E | Hin].
      * inversion E; subst. left. exists a'. left. reflexivity.
      * destruct (IH Hin) as [[a1 H1] | ->].
        -- left. exists a1. right. exact H1.
        -- right. reflexivity.
Qed.

Lemma extract_attributes_names amap attrs :
  forall acc out,
    extract_attributes amap attrs acc = Ok out ->
    forall k vs,
      In (k, vs) out ->
      (exists vs0, In (k, vs0) acc) \/
      (Py.truthy k = true /\ exists attr_id, Py.find attr_id amap = Some k).
Proof.
  induction attrs as [| attr attrs IH]; intros acc out E k vs Hin.
  - simpl in E. inversion E; subst. left. exists vs. exact Hin.
  - cbn [extract_attributes] in E.
    destruct (Py.getitem attr "objectTypeAttributeId") as [attr_id | e];
      [| discriminate].
    cbn [Py.bind] in E. unfold Py.dict_get in E.
    destruct (Py.hashable attr_id); [| discriminate].
    cbn [Py.bind] in E.
    destruct (Py.find attr_id amap) as [name |] eqn:Ef.
    + destruct (Py.truthy name) eqn:Et.
      * destruct (Py.get attr "objectAttributeValues" (VList []))
          as [raw | e]; [| discriminate].
        cbn [Py.bind] in E.
        destruct (Py.iter raw) as [entries | e]; [| discriminate].
        cbn [Py.bind] in E.
        destruct (extract_values entries []) as [values | e]; [| discriminate].
        cbn [Py.bind] in E. unfold Py.dict_setitem in E.
        destruct (Py.hashable name); [| discriminate].
        cbn [Py.bind] in E.
        destruct (IH _ _ E k vs Hin) as [[vs0 H0] | Hr]; [| right; exact Hr].
        destruct (In_set _ _ _ _ _ H0) as [Hacc | ->].
        -- left. exact Hacc.
        -- right. split; [exact Et |]. exists attr_id. exact Ef.
      * apply (IH _ _ E k vs Hin).
    + cbn [Py.truthy] in E. apply (IH _ _ E k vs Hin).
Qed.

(** X9. Every name under which [extract_attribute_values] returns values is
    a name of the attribute map, and not an empty one: a record whose id
    the map does not know, or maps to an empty name, leaves no trace.  With
    an empty map nothing is extracted. *)
Theorem extracted_names_come_from_the_map object_data amap out :
  extract_attribute_values object_data amap = Ok out ->
  (forall k vs,
     In (k, vs) out ->
     Py.truthy k = true /\ exists attr_id, Py.find attr_id amap = Some k) /\
  (amap = [] -> out = []).
Proof.
  intros E. unfold extract_attribute_values in E.
  destruct (Py.get object_data "attributes" (VList [])) as [raw | e];
    [| discriminate].
  cbn [Py.bind] in E.
  destruct (Py.iter raw) as [attrs | e]; [| discriminate].
  cbn [Py.bind] in E.
  assert (Hall : forall k vs,
            In (k, vs) out ->
            Py.truthy k = true /\ exists attr_id, Py.find attr_id amap = Some k).
  { intros k vs Hin.
    destruct (extract_attributes_names amap attrs [] out E k vs Hin)
      as [[vs0 []] | Hr].
    exact Hr. }
  split; [exact Hall |].
  intros ->. destruct out as [| [k vs] out]; [reflexivity |].
  destruct (Hall k vs (or_introl eq_refl)) as [_ [attr_id Hf]]. discriminate.
Qed.

(** ** Assets that are passed over *)

(** X10. An asset whose "Update" attribute has no first value, an empty one,
    one that is not a string or one that does not parse as a date is passed
    over: nothing is sent, no handler is entered, and the log gets the
    warning (after the parse error, when there was a value). *)
Theorem asset_without_date_is_skipped asset attributes v (s : St H) :
  extract_attribute_values asset (attribute_map cfg) = Ok attributes ->
  first_value attributes "Update" = Ok v ->
  Py.truthy v = false \/ parse_date H v = None ->
  let run := process_asset_update H cfg asset s in
  fst run = Ok tt /\
  requests (snd run) = requests s /\
  entered (snd run) = entered s /\
  log (snd run) =
    log s ++ (if Py.truthy v then [(ERROR, ErrorParsingUpdateDate)] else [])
          ++ [(WARNING, NoValidUpdateDate)].
Proof.
  intros He Hf Hv run. subst run. unfold process_asset_update.
  rewrite bind_lift, He. unfold extract_update_date.
  rewrite bind_assoc, bind_lift, Hf.
  destruct (Py.truthy v) eqn:Et.
  - destruct Hv as [Hv | Hv]; [discriminate |]. rewrite Hv.
    unfold bind, note, ret. cbn [fst snd requests entered log].
    rewrite <- app_assoc. repeat split.
  - unfold bind, note, ret. cbn [fst snd requests entered log].
    repeat split.
Qed.

Lemma idle_refl (s : St H) : idle H s s.
Proof. split; reflexivity. Qed.

Lemma idle_trans (s1 s2 s3 : St H) : idle H s1 s2 -> idle H s2 s3 -> idle H s1 s3.
Proof. unfold idle. intros [A B] [C D]. split; congruence. Qed.

Lemma extract_attributes_without_map attrs :
  forall acc out, extract_attributes [] attrs acc = Ok out -> out = acc.
Proof.
  induction attrs as [| attr attrs IH]; intros acc out E.
  - simpl in E. congruence.
  - cbn [extract_attributes] in E.
    destruct (Py.getitem attr "objectTypeAttributeId") as [attr_id | e];
      [| discriminate].
    cbn [Py.bind] in E. unfold Py.dict_get in E.
    destruct (Py.hashable attr_id); [| discriminate].
    cbn [Py.bind Py.find Py.truthy] in E. apply (IH _ _ E).
Qed.

Lemma idle_asset_without_map asset :
  attribute_map cfg = [] -> respects (idle H) (process_asset_update H cfg asset).
Proof.
  intros Hm s. unfold process_asset_update. rewrite bind_lift, Hm.
  destruct (extract_attribute_values asset []) as [attributes | e] eqn:He;
    [| apply idle_refl].
  assert (attributes = []) as ->.
  { unfold extract_attribute_values in He.
    destruct (Py.get asset "attributes" (VList [])) as [raw | e];
      [| discriminate].
    cbn [Py.bind] in He.
    destruct (Py.iter raw) as [attrs | e]; [| discriminate].
    apply (extract_attributes_without_map attrs [] _ He). }
  split; reflexivity.
Qed.

Lemma run_iteration_run (s : St H) :
  run_iteration H cfg s =
    bind H
      (lift H
         (Py.get (error_value (fst (remote H (ObjectAql (pass_query cfg))
                                      (world s))))
                 "values" (VList [])))
      (fun values =>
         bind H (process_assets_with_update H cfg values)
           (fun _ => note H INFO EndOfIteration))
      (after_query H cfg s).
Proof. reflexivity. Qed.

(** X11. With an empty attribute map (what the loader falls back to when
    the mapping cannot be read or built) a pass does nothing but ask for the
    assets: no asset has a date, so none gets a ticket, a comment or a
    transition, and no ticket is even looked at. *)
Theorem pass_with_empty_map_only_asks (s : St H) :
  attribute_map cfg = [] ->
  requests (snd (run_iteration H cfg s)) = requests s ++ [ObjectAql (pass_query cfg)] /\
  entered (snd (run_iteration H cfg s)) = entered s.
Proof.
  intros Hm.
  assert (Htail : forall assets,
            respects (idle H)
              (bind H (lift H (Py.get assets "values" (VList [])))
                 (fun values =>
                    bind H (process_assets_with_update H cfg values)
                      (fun _ => note H INFO EndOfIteration)))).
  { intros assets. unfold process_assets_with_update.
    apply (respects_bind (idle H) idle_trans);
      [apply (respects_lift (idle H) idle_refl) | intros values].
    apply (respects_bind (idle H) idle_trans);
      [| intros _ s0; split; reflexivity].
    apply (respects_bind (idle H) idle_trans);
      [apply (respects_lift (idle H) idle_refl) | intros items].
    apply (respects_for_each (idle H) idle_refl idle_trans).
    intros x. apply idle_asset_without_map. exact Hm. }
  rewrite run_iteration_run.
  destruct (Htail (error_value (fst (remote H (ObjectAql (pass_query cfg))
                                       (world s))))
              (after_query H cfg s)) as [Hr Hent].
  rewrite Hr, Hent. split; reflexivity.
Qed.

(** X12. Reading the first value of an attribute raises [IndexError] exactly
    when the attribute is there with no value at all, and nothing else ever;
    an asset whose "Update" attribute is like that ends
    [process_asset_update] with the exception, before anything is sent. *)
Theorem attribute_without_values_raises asset attributes (s : St H) :
  (forall name,
     first_value attributes name = Raise IndexError <->
     Py.find (VStr name) attributes = Some []) /\
  (forall name e, first_value attributes name = Raise e -> e = IndexError) /\
  (extract_attribute_values asset (attribute_map cfg) = Ok attributes ->
   Py.find (VStr "Update") attributes = Some [] ->
   process_asset_update H cfg asset s = (Raise IndexError, s)).
Proof.
  split; [| split].
  - intros name. unfold first_value.
    destruct (Py.find (VStr name) attributes) as [[| v vs] |]; simpl;
      split; intros E; try discriminate; reflexivity.
  - intros name e. unfold first_value.
    destruct (Py.find (VStr name) attributes) as [[| v vs] |]; simpl;
      intros E; inversion E; reflexivity.
  - intros He Hf. unfold process_asset_update.
    rewrite bind_lift, He. unfold extract_update_date.
    rewrite bind_assoc, bind_lift. unfold first_value. rewrite Hf. reflexivity.
Qed.

(** X13. A pass whose asset query fails.  After an HTTP error or a failed
    connection the pass takes the error for an answer without assets: it
    returns, having sent the query and nothing else.  After an empty answer
    it ends with [AttributeError]. *)
Theorem pass_without_answer (s : St H) :
  let answer := fst (remote H (ObjectAql (pass_query cfg)) (world s)) in
  let run := run_iteration H cfg s in
  (answer = NoBody -> fst run = Raise AttributeError) /\
  (is_failure answer = true -> answer <> NoBody ->
   fst run = Ok tt /\
   requests (snd run) = requests s ++ [ObjectAql (pass_query cfg)] /\
   entered (snd run) = entered s) /\
  (is_failure answer = true ->
   requests (snd run) = requests s ++ [ObjectAql (pass_query cfg)]).
Proof.
  intros answer run. subst answer run.
  unfold run_iteration, post_object_aql. fold (pass_query cfg).
  unfold bind, note, clear_task_cache, write_cache, _request, lift,
    process_assets_with_update. cbn [fst snd world requests entered].
  destruct (fst (remote H (ObjectAql (pass_query cfg)) (world s)))
    as [v | | err text | err]; cbn;
    (split; [| split]); intros; try discriminate; try contradiction;
    repeat split.
Qed.


(** ** What a pass sends *)

Lemma proper_refl (s : St H) : proper H s s.
Proof. exists []. rewrite app_nil_r. split; reflexivity. Qed.

Lemma proper_trans (s1 s2 s3 : St H) :
  proper H s1 s2 -> proper H s2 s3 -> proper H s1 s3.
Proof.
  intros (l1 & Q1 & F1) (l2 & Q2 & F2). exists (l1 ++ l2). split.
  - rewrite Q2, Q1, app_assoc. reflexivity.
  - rewrite forallb_app, F1, F2. reflexivity.
Qed.

Lemma proper_note l m : respects (proper H) (note H l m).
Proof.
  intros s. exists []. simpl. rewrite app_nil_r. split; reflexivity.
Qed.

Lemma proper_enter e : respects (proper H) (enter H e).
Proof.
  intros s. exists []. simpl. rewrite app_nil_r. split; reflexivity.
Qed.

Lemma proper_now : respects (proper H) (now H).
Proof.
  intros s. exists []. simpl. rewrite app_nil_r. split; reflexivity.
Qed.

Lemma proper_write_cache c : respects (proper H) (write_cache H c).
Proof.
  intros s. exists []. simpl. rewrite app_nil_r. split; reflexivity.
Qed.

Lemma proper_sent r :
  proper_request r = true -> respects (proper H) (_request H r).
Proof.
  intros Hr s. exists [r]. split; [reflexivity |]. simpl. rewrite Hr.
  reflexivity.
Qed.

Lemma read_is_proper r : is_read r = true -> proper_request r = true.
Proof. destruct r; simpl; try discriminate; reflexivity. Qed.

Lemma reads_are_proper l :
  forallb is_read l = true -> forallb proper_request l = true.
Proof.
  induction l as [| r l IH]; simpl; [reflexivity |].
  intros Hl. apply andb_prop in Hl. destruct Hl as [Hr Hl].
  rewrite (read_is_proper r Hr), (IH Hl). reflexivity.
Qed.

Lemma proper_lookup k : respects (proper H) (get_task_cached H k).
Proof.
  intros s. destruct (quiet_lookup k s) as (_ & (l & Hl & Hr) & _).
  exists l. split; [exact Hl | apply reads_are_proper; exact Hr].
Qed.

Lemma prefix_app h rest : String.prefix h (h ++ rest)%string = true.
Proof.
  induction h as [| a h IH]; simpl.
  - destruct rest; reflexivity.
  - destruct (ascii_dec a a) as [_ | Hn]; [exact IH | contradiction].
Qed.

Lemma prefix_split h :
  forall c, String.prefix h c = true -> exists rest, c = (h ++ rest)%string.
Proof.
  induction h as [| a h IH]; intros c E.
  - exists c. reflexivity.
  - destruct c as [| b c]; simpl in E; [discriminate |].
    destruct (ascii_dec a b) as [-> | _]; [| discriminate].
    destruct (IH c E) as [rest ->]. exists rest. reflexivity.
Qed.

Lemma proper_reminder k text :
  respects (proper H) (_request H (AddComment k (COMMENT_REMINDER text))).
Proof.
  apply proper_sent. unfold proper_request.
  change (COMMENT_REMINDER text)
    with (REMINDER_HEAD ++ (text ++ "). Please update the asset."))%string
    at 2.
  rewrite prefix_app. apply orb_true_r.
Qed.

Lemma proper_request_update k :
  respects (proper H) (_request H (AddComment k COMMENT_REQUEST_UPDATE)).
Proof. apply proper_sent. reflexivity. Qed.

#[local] Hint Resolve proper_refl proper_trans proper_note proper_enter
  proper_now proper_write_cache proper_sent proper_lookup proper_reminder
  proper_request_update : frame.

Lemma proper_decider issue asset attributes :
  respects (proper H) (process_linked_update_issue H issue asset attributes).
Proof.
  unfold process_linked_update_issue, status_name.
  frame_with proper_request.
Qed.

Lemma proper_creator asset attributes is_outdated :
  respects (proper H) (create_update_task H cfg asset attributes is_outdated).
Proof.
  intros s.
  destruct (creator_requests asset attributes is_outdated s)
    as (l & Hread & [Hr | (payload & name & date & an & a & Hr & _ & _ & _ &
                           Hdt & _ & _ & Hdue & Hlab & _)]).
  - exists l. split; [exact Hr | apply reads_are_proper; exact Hread].
  - exists (l ++ [CreateTask payload]). split; [exact Hr |].
    rewrite forallb_app, (reads_are_proper l Hread). simpl.
    rewrite Hlab, Hdue, Hdt. reflexivity.
Qed.

#[local] Hint Resolve proper_decider proper_creator : frame.

Lemma proper_asset asset :
  respects (proper H) (process_asset_update H cfg asset).
Proof.
  unfold process_asset_update, extract_update_date, handle_overdue_asset,
    handle_future_asset.
  frame_with proper_request.
Qed.

#[local] Hint Resolve proper_asset : frame.

(** X14. Whatever the site holds and answers, the writes of a pass are of
    three kinds only: a comment that is the request to update again or the
    reminder, a transition, and a new ticket that carries the label
    ["AssetUpdate"] and a due date that is not empty. *)
Theorem pass_sends_proper_requests (s : St H) :
  exists sent,
    requests (snd (run_iteration H cfg s)) = requests s ++ sent /\
    forall r,
      In r sent ->
      match r with
      | AddComment _ c =>
          c = COMMENT_REQUEST_UPDATE \/
          exists rest, c = (REMINDER_HEAD ++ rest)%string
      | CreateTask p =>
          posted_field p "labels" = Some (VList [VStr "AssetUpdate"]) /\
          exists d, posted_field p "duedate" = Some d /\ Py.truthy d = true
      | _ => True
      end.
Proof.
  assert (Hrun : respects (proper H) (run_iteration H cfg)).
  { unfold run_iteration, clear_task_cache, post_object_aql,
      process_assets_with_update.
    frame_with proper_request. }
  destruct (Hrun s) as (sent & Hs & Hall).
  exists sent. split; [exact Hs |].
  intros r Hin. rewrite forallb_forall in Hall. specialize (Hall r Hin).
  destruct r as [k | k c | k | k i | p | o | q]; try exact I.
  - simpl in Hall. apply orb_prop in Hall. destruct Hall as [E | E].
    + left. apply String.eqb_eq. exact E.
    + right. apply prefix_split. exact E.
  - cbn [proper_request] in Hall.
    destruct (posted_field p "labels") as [[| | | | [| [| | | l | |] []] |] |];
      try discriminate.
    destruct (posted_field p "duedate") as [d |]; try discriminate.
    apply andb_prop in Hall. destruct Hall as [El Ed].
    apply String.eqb_eq in El. subst l.
    split; [reflexivity |]. exists d. split; [reflexivity | exact Ed].
Qed.

(** ** How many tickets a pass posts *)

Lemma creates_refl n (s : St H) : creates H n s s.
Proof. exists []. rewrite app_nil_r. split; [reflexivity | simpl; lia]. Qed.

Lemma creates_trans (s1 s2 s3 : St H) :
  creates H 0 s1 s2 -> creates H 0 s2 s3 -> creates H 0 s1 s3.
Proof.
  intros (l1 & Q1 & F1) (l2 & Q2 & F2). exists (l1 ++ l2). split.
  - rewrite Q2, Q1, app_assoc. reflexivity.
  - rewrite filter_app, length_app. lia.
Qed.

Lemma creates_zero_refl (s : St H) : creates H 0 s s.
Proof. apply creates_refl. Qed.

Lemma creates_note l m : respects (creates H 0) (note H l m).
Proof.
  intros s. exists []. simpl. rewrite app_nil_r.
  split; [reflexivity | simpl; lia].
Qed.

Lemma creates_enter e : respects (creates H 0) (enter H e).
Proof.
  intros s. exists []. simpl. rewrite app_nil_r.
  split; [reflexivity | simpl; lia].
Qed.

Lemma creates_now : respects (creates H 0) (now H).
Proof.
  intros s. exists []. simpl. rewrite app_nil_r.
  split; [reflexivity | simpl; lia].
Qed.

Lemma creates_sent r :
  negb (is_create r) = true -> respects (creates H 0) (_request H r).
Proof.
  intros Hr s. exists [r]. split; [reflexivity |]. simpl.
  destruct (is_create r); [discriminate | simpl; lia].
Qed.

Lemma creates_lookup k : respects (creates H 0) (get_task_cached H k).
Proof.
  intros s. destruct (quiet_lookup k s) as (_ & (l & Hl & Hr) & _).
  exists l. split; [exact Hl |].
  assert (E : filter is_create l = []).
  { clear Hl. induction l as [| r l IH]; [reflexivity |].
    simpl in Hr. apply andb_prop in Hr. destruct Hr as [Hr Hrest].
    simpl. destruct r; try discriminate; simpl; apply IH; exact Hrest. }
  rewrite E. simpl. lia.
Qed.

#[local] Hint Resolve creates_zero_refl creates_trans creates_note
  creates_enter creates_now creates_sent creates_lookup : frame.

Lemma creates_decider issue asset attributes :
  respects (creates H 0)
    (process_linked_update_issue H issue asset attributes).
Proof.
  unfold process_linked_update_issue, status_name.
  frame_with (fun r => negb (is_create r)).
Qed.

Lemma creates_bind {A B} n1 n2 (m : M H A) (k : A -> M H B) :
  respects (creates H n1) m ->
  (forall a, respects (creates H n2) (k a)) ->
  respects (creates H (n1 + n2)) (bind H m k).
Proof.
  intros Hm Hk s.
  destruct (bind_cases m k s) as [(a & s' & E & ->) | (e & s' & E & ->)];
    specialize (Hm s); rewrite E in Hm; simpl in Hm;
    destruct Hm as (l1 & Q1 & F1).
  - destruct (Hk a s') as (l2 & Q2 & F2). exists (l1 ++ l2). split.
    + rewrite Q2, Q1, app_assoc. reflexivity.
    + rewrite filter_app, length_app. lia.
  - exists l1. split; [exact Q1 | simpl; lia].
Qed.

Lemma creates_more {A} n1 n2 (m : M H A) :
  n1 <= n2 -> respects (creates H n1) m -> respects (creates H n2) m.
Proof.
  intros Hn Hm s. destruct (Hm s) as (l & Q & F). exists l.
  split; [exact Q | lia].
Qed.

Lemma creates_creator asset attributes is_outdated :
  respects (creates H 1)
    (create_update_task H cfg asset attributes is_outdated).
Proof.
  intros s.
  assert (Hnone : forall l, forallb is_read l = true -> filter is_create l = []).
  { induction l as [| r l IH]; [reflexivity |]. simpl. intros Hr.
    apply andb_prop in Hr. destruct Hr as [Hr Hrest].
    destruct r; try discriminate; simpl; apply IH; exact Hrest. }
  destruct (creator_requests asset attributes is_outdated s)
    as (l & Hread & [Hr | (payload & name & date & an & a & Hr & _)]).
  - exists l. split; [exact Hr |]. rewrite (Hnone l Hread). simpl. lia.
  - exists (l ++ [CreateTask payload]). split; [exact Hr |].
    rewrite filter_app, (Hnone l Hread). simpl. lia.
Qed.

Lemma creates_then_note asset attributes is_outdated l m :
  respects (creates H 1)
    (bind H (create_update_task H cfg asset attributes is_outdated)
       (fun _ => note H l m)).
Proof.
  apply (creates_bind 1 0); [apply creates_creator | intros _].
  apply creates_note.
Qed.

Lemma creates_overdue asset attributes :
  respects (creates H 1) (handle_overdue_asset H cfg asset attributes).
Proof.
  unfold handle_overdue_asset.
  apply (creates_bind 0 1); [apply creates_enter | intros _].
  apply (creates_bind 0 1);
    [apply respects_lift; apply creates_zero_refl | intros asset_id].
  apply (creates_bind 0 1);
    [frame_with (fun r => negb (is_create r)) | intros linked].
  apply (creates_bind 0 1);
    [frame_with (fun r => negb (is_create r)) | intros us].
  destruct us as [| u us].
  - apply creates_then_note.
  - apply (creates_more 0 1); [lia |].
    apply respects_for_each; eauto with frame.
    intros issue. apply creates_decider.
Qed.

Lemma creates_future asset attributes update_date :
  respects (creates H 1)
    (handle_future_asset H cfg asset attributes update_date).
Proof.
  unfold handle_future_asset.
  apply (creates_bind 0 1); [apply creates_enter | intros _].
  apply (creates_bind 0 1);
    [apply respects_lift; apply creates_zero_refl | intros asset_id].
  apply (creates_bind 0 1);
    [frame_with (fun r => negb (is_create r)) | intros linked].
  apply (creates_bind 0 1);
    [frame_with (fun r => negb (is_create r)) | intros us].
  apply (creates_bind 0 1);
    [frame_with (fun r => negb (is_create r)) | intros found].
  destruct (negb found).
  - apply creates_then_note.
  - intros s. apply creates_refl.
Qed.

Lemma creates_asset asset :
  respects (creates H 1) (process_asset_update H cfg asset).
Proof.
  unfold process_asset_update.
  apply (creates_bind 0 1);
    [apply respects_lift; apply creates_zero_refl | intros attributes].
  apply (creates_bind 0 1);
    [unfold extract_update_date; frame_with (fun r => negb (is_create r)) |
     intros update_date].
  destruct update_date as [update_date |];
    [| apply (creates_more 0 1); [lia | apply creates_note]].
  apply (creates_bind 0 1); [apply creates_now | intros t].
  destruct (classify update_date t).
  - apply (creates_bind 0 1); [apply creates_note | intros _].
    apply creates_overdue.
  - apply (creates_bind 0 1); [apply creates_note | intros _].
    apply creates_future.
  - apply (creates_more 0 1); [lia | apply creates_note].
Qed.

(** X15. An asset gets at most one new ticket in a pass, whatever its class
    and whatever the site answers, and the assets of a pass together get at
    most as many tickets as there are assets. *)
Theorem one_ticket_per_asset :
  (forall asset (s : St H),
     exists sent,
       requests (snd (process_asset_update H cfg asset s)) =
         requests s ++ sent /\
       List.length (filter is_create sent) <= 1) /\
  (forall items (s : St H),
     exists sent,
       requests (snd (for_each H items (process_asset_update H cfg) s)) =
         requests s ++ sent /\
       List.length (filter is_create sent) <= List.length items).
Proof.
  split.
  - intros asset s. apply creates_asset.
  - intros items. change (respects (creates H (List.length items))
                            (for_each H items (process_asset_update H cfg))).
    induction items as [| x items IH]; simpl.
    + intros s. apply creates_refl.
    + apply (creates_bind 1 (List.length items));
        [apply creates_asset | intros _; exact IH].
Qed.

(** ** The cache during a pass *)

Lemma remembers_refl (s : St H) : remembers H s s.
Proof. apply cache_le_refl. Qed.

Lemma remembers_trans (s1 s2 s3 : St H) :
  remembers H s1 s2 -> remembers H s2 s3 -> remembers H s1 s3.
Proof. apply cache_le_trans. Qed.

Lemma remembers_note l m : respects (remembers H) (note H l m).
Proof. intros s. unfold remembers. simpl. apply cache_le_refl. Qed.

Lemma remembers_enter e : respects (remembers H) (enter H e).
Proof. intros s. unfold remembers. simpl. apply cache_le_refl. Qed.

Lemma remembers_now : respects (remembers H) (now H).
Proof. intros s. unfold remembers. simpl. apply cache_le_refl. Qed.

Lemma remembers_sent r : respects (remembers H) (_request H r).
Proof. intros s. unfold remembers. simpl. apply cache_le_refl. Qed.

Lemma remembers_lookup k : respects (remembers H) (get_task_cached H k).
Proof. intros s. unfold remembers. apply quiet_cache_le. apply quiet_lookup. Qed.

#[local] Hint Resolve remembers_refl remembers_trans remembers_note
  remembers_enter remembers_now remembers_sent remembers_lookup : frame.

Lemma remembers_decider issue asset attributes :
  respects (remembers H) (process_linked_update_issue H issue asset attributes).
Proof.
  unfold process_linked_update_issue, status_name.
  frame_with (fun _ : request => true).
Qed.

Lemma remembers_creator asset attributes is_outdated :
  respects (remembers H) (create_update_task H cfg asset attributes is_outdated).
Proof. unfold create_update_task. frame_with (fun _ : request => true). Qed.

#[local] Hint Resolve remembers_decider remembers_creator : frame.

Lemma remembers_assets assets :
  respects (remembers H) (process_assets_with_update H cfg assets).
Proof.
  unfold process_assets_with_update, process_asset_update,
    extract_update_date, handle_overdue_asset, handle_future_asset.
  frame_with (fun _ : request => true).
Qed.

(** X16. Within a pass the cache is never refreshed.  A ticket that is in
    the cache when the assets are processed is still there afterwards,
    unchanged, and a lookup then returns it without a request, also when
    the pass itself has commented on the ticket or moved it in between. *)
Theorem cached_ticket_stays assets k t (s : St H) :
  Py.hashable k = true ->
  Py.find k (task_cache s) = Some t ->
  let s' := snd (process_assets_with_update H cfg assets s) in
  Py.find k (task_cache s') = Some t /\
  get_task_cached H k s' = (Ok t, s').
Proof.
  intros Hk Hf s'.
  assert (Hf' : Py.find k (task_cache s') = Some t).
  { apply (remembers_assets assets s). exact Hf. }
  split; [exact Hf' | apply get_task_cached_hit; assumption].
Qed.


(** ** The reminder and the transition *)

(** X17. The reminder is posted before the transition is looked for.  For a
    ticket that is found, neither "Done" nor "In Progress", of an asset
    whose date has passed, the decider sends the reminder and the query for
    the transitions in every case; it returns when it could then move the
    ticket, and otherwise raises with the reminder already posted, so a
    ticket that cannot be moved gets the reminder again in every pass that
    gets to it. *)
Theorem reminder_precedes_the_transition issue asset attributes (s s1 : St H)
    key task status asset_id text date :
  Py.getitem issue "key" = Ok key ->
  get_task_cached H key (snd (enter H (ProcessLinkedUpdateIssue issue) s))
    = (Ok task, s1) ->
  Py.truthy task = true ->
  status_name task = Ok status ->
  first_value attributes "Update" = Ok (VStr text) ->
  text <> "" ->
  strptime H text = Some date ->
  Py.get asset "id" VNone = Ok asset_id ->
  status <> VStr "Done" ->
  status <> VStr "In Progress" ->
  (date <= fst (clock H (world s1)))%Z ->
  let run := process_linked_update_issue H issue asset attributes s in
  (exists tid,
     fst run = Ok tt /\
     requests (snd run) =
       requests s1 ++ [AddComment key (COMMENT_REMINDER text);
                       GetTransitions key; TransitionTask key tid])
  \/
  (exists e,
     fst run = Raise e /\
     requests (snd run) =
       requests s1 ++ [AddComment key (COMMENT_REMINDER text);
                       GetTransitions key]).
Proof.
  intros Hkey Hget Htask Hstatus Hfirst Htext Hparse Hid Hnd Hnp Hdue.
  apply (decider_due_requests issue asset attributes s s1 key task status
           asset_id text date); try assumption.
  - apply ne_str_true. exact Hnd.
  - apply ne_str_true. exact Hnp.
Qed.

(** X18. For the decider only an empty answer is a ticket that was not
    found: it logs the warning and sends nothing more.  After an HTTP error
    or a failed connection it goes on with the error in place of the ticket,
    reads no status off it, and, the date of the asset having passed, posts
    the reminder to the ticket it could not fetch and asks for its
    transitions. *)
Theorem decider_on_unfetched_ticket issue asset attributes (s : St H)
    key asset_id text date :
  let s0 := snd (enter H (ProcessLinkedUpdateIssue issue) s) in
  let answer := fst (remote H (GetTask key) (world s0)) in
  let run := process_linked_update_issue H issue asset attributes s in
  Py.getitem issue "key" = Ok key ->
  Py.hashable key = true ->
  Py.find key (task_cache s) = None ->
  is_failure answer = true ->
  (answer = NoBody ->
   run = (Ok tt, snd (note H WARNING (TaskNotFound key) (fetched H key s0)))) /\
  (answer <> NoBody ->
   first_value attributes "Update" = Ok (VStr text) ->
   text <> "" ->
   strptime H text = Some date ->
   Py.get asset "id" VNone = Ok asset_id ->
   (date <= fst (clock H (snd (remote H (GetTask key) (world s0)))))%Z ->
   exists rest,
     requests (snd run) =
       requests s ++ GetTask key :: AddComment key (COMMENT_REMINDER text)
                  :: GetTransitions key :: rest).
Proof.
  intros s0 answer run Hkey Hk Hmiss Hfail.
  pose proof (get_task_cached_miss key s0 Hk Hmiss) as Hget.
  fold answer in Hget. split.
  - intros Hnone. subst run. unfold process_linked_update_issue.
    rewrite (bind_ok (enter H (ProcessLinkedUpdateIssue issue)) _ s s0 tt
               eq_refl).
    rewrite bind_lift, Hkey. rewrite (bind_ok _ _ _ _ _ Hget).
    rewrite Hnone. reflexivity.
  - intros Hsome Hfirst Htext Hparse Hid Hdue.
    assert (Htask : Py.truthy (error_value answer) = true /\
                    status_name (error_value answer) = Ok (VStr "")).
    { destruct answer as [v | | err t | err]; try discriminate;
        [contradiction | split; reflexivity | split; reflexivity]. }
    destruct Htask as [Htruthy Hstatus].
    destruct (decider_due_requests issue asset attributes s
                (fetched H key s0) key (error_value answer) (VStr "")
                asset_id text date Hkey Hget Htruthy Hstatus Hfirst Htext
                Hparse Hid eq_refl eq_refl Hdue)
      as [(tid & _ & Hr) | (e & _ & Hr)]; fold run in Hr; rewrite Hr;
      cbn [fetched requests enter snd]; subst s0; cbn [enter snd requests];
      rewrite <- app_assoc; eexists; reflexivity.
Qed.

(** ** [is_task_done] *)

Lemma done_of_status task status :
  status_name task = Ok status ->
  (fields <~ Py.get task "fields" (VDict []) ;;
   st <~ Py.get fields "status" (VDict []) ;;
   name <~ Py.get st "name" VNone ;;
   Ok (Py.eq_str name "Done")) = Ok (Py.eq_str status "Done").
Proof.
  unfold status_name.
  destruct (Py.get task "fields" (VDict [])) as [fields | e];
    [| discriminate].
  cbn [Py.bind].
  destruct (Py.get fields "status" (VDict [])) as [st | e]; [| discriminate].
  cbn [Py.bind].
  destruct st as [| b | n | t | l | d]; try discriminate.
  cbn [Py.get Py.bind].
  destruct (Py.lookup "name" d); intros E; inversion E; reflexivity.
Qed.

(** X19. [is_task_done] asks the site every time: it sends one fetch whether
    or not the ticket is in the cache, and leaves the cache as it was.  It
    answers that the ticket is done exactly when the status the site
    delivers reads ["Done"]; a ticket the site does not deliver is not done,
    and no exception is raised for it. *)
Theorem is_task_done_asks_the_site k (s : St H) :
  let answer := fst (remote H (GetTask k) (world s)) in
  let run := is_task_done H k s in
  requests (snd run) = requests s ++ [GetTask k] /\
  task_cache (snd run) = task_cache s /\
  (is_failure answer = true -> fst run = Ok false) /\
  (forall task status,
     answer = Body task -> Py.truthy task = true ->
     status_name task = Ok status ->
     fst run = Ok true <-> status = VStr "Done").
Proof.
  intros answer run. subst run. unfold is_task_done, get_task.
  rewrite (bind_ok (_request H (GetTask k)) _ s _ _ eq_refl).
  fold answer.
  assert (Hsame : forall (m : M H bool) s0,
            (forall s1, snd (m s1) = s1) ->
            requests (snd (m s0)) = requests s0 /\
            task_cache (snd (m s0)) = task_cache s0).
  { intros m s0 Hm. rewrite Hm. split; reflexivity. }
  match goal with
  | |- requests (snd (?m ?s0)) = _ /\ _ =>
      destruct (Hsame m s0) as [Hr Hc];
        [intros s1; destruct (Py.truthy (error_value answer)); reflexivity |]
  end.
  split; [rewrite Hr; reflexivity |].
  split; [rewrite Hc; reflexivity |].
  split.
  - intros Hf. destruct answer as [v | | err t | err]; try discriminate;
      reflexivity.
  - intros task status Ha Ht Hs. rewrite Ha. cbn [error_value]. rewrite Ht.
    unfold lift. cbn [fst]. rewrite (done_of_status task status Hs).
    split.
    + intros E. inversion E as [E']. destruct status; try discriminate.
      simpl in E'. apply String.eqb_eq in E'. subst. reflexivity.
    + intros ->. reflexivity.
Qed.

(** ** Queries built from filters *)

Lemma append_assoc (a b c : string) :
  ((a ++ b) ++ c = a ++ (b ++ c))%string.
Proof. induction a as [| x a IH]; simpl; [| rewrite IH]; reflexivity. Qed.

Lemma concat_app sep l1 l2 :
  l1 <> [] -> l2 <> [] ->
  String.concat sep (l1 ++ l2) =
    (String.concat sep l1 ++ sep ++ String.concat sep l2)%string.
Proof.
  intros H1 H2. induction l1 as [| x l1 IH]; [contradiction |].
  destruct l1 as [| y l1].
  - destruct l2 as [| z l2]; [contradiction | reflexivity].
  - change (String.concat sep ((x :: y :: l1) ++ l2))
      with (x ++ sep ++ String.concat sep ((y :: l1) ++ l2))%string.
    rewrite IH by discriminate.
    change (String.concat sep (x :: y :: l1))
      with (x ++ sep ++ String.concat sep (y :: l1))%string.
    rewrite !append_assoc. reflexivity.
Qed.

(** X20. The query [build_aql_query] builds is the conjunction of one
    condition per filter, in the order of the filters: the query of two
    groups of filters is the query of the first, [" AND "], and the query of
    the second; one filter gives its condition alone and no filter the
    empty query.  [get_assets_by_filter] sends that query, once. *)
Theorem aql_query_joins_conditions filters1 filters2 (s : St H) :
  filters1 <> [] -> filters2 <> [] ->
  build_aql_query H (filters1 ++ filters2) =
    (build_aql_query H filters1 ++ " AND " ++ build_aql_query H filters2)%string
  /\
  (forall field v,
     build_aql_query H [(field, v)] = aql_condition (repr H) field v) /\
  build_aql_query H [] = ""%string /\
  requests (snd (get_assets_by_filter H (filters1 ++ filters2) s)) =
    requests s ++
    [ObjectAql (build_aql_query H filters1 ++ " AND " ++
                build_aql_query H filters2)%string].
Proof.
  intros H1 H2.
  assert (E : build_aql_query H (filters1 ++ filters2) =
              (build_aql_query H filters1 ++ " AND " ++
               build_aql_query H filters2)%string).
  { unfold build_aql_query. rewrite map_app. apply concat_app.
    - destruct filters1; [contradiction | discriminate].
    - destruct filters2; [contradiction | discriminate]. }
  split; [exact E |]. split; [reflexivity |]. split; [reflexivity |].
  unfold get_assets_by_filter, post_object_aql. rewrite E. reflexivity.
Qed.

(** ** The attribute map built from the catalogue *)

Lemma attribute_pairs_lists attrs :
  forall l acc,
    Forall2 listed_as attrs l ->
    Forall (fun id_name => Py.hashable (fst id_name) = true) l ->
    exists d,
      attribute_pairs attrs acc = Ok d /\
      forall attr_id,
        Py.find attr_id d =
          match listed_name attr_id l with
          | Some n => Some n
          | None => Py.find attr_id acc
          end.
Proof.
  induction attrs as [| attr attrs IH]; intros l acc Hl Hh;
    inversion Hl; subst.
  - exists acc. split; reflexivity.
  - match goal with Hx : listed_as attr ?y |- _ =>
      destruct y as [i n]; destruct Hx as (d0 & -> & Hn & Hi)
    end.
    inversion Hh; subst. cbn [fst snd] in *.
    cbn [attribute_pairs Py.getitem]. rewrite Hi, Hn. cbn [Py.bind].
    unfold Py.dict_setitem.
    match goal with Hx : Py.hashable i = true |- _ => rewrite Hx end.
    cbn [Py.bind].
    match goal with
    | Hf2 : Forall2 listed_as attrs ?l', Hfa : Forall _ ?l' |- _ =>
        destruct (IH l' (Py.set i n acc) Hf2 Hfa) as (d & Hd & Hfind)
    end.
    exists d. split; [exact Hd |]. intros attr_id. rewrite Hfind.
    cbn [listed_name].
    match goal with
    | |- context [listed_name attr_id ?l'] => destruct (listed_name attr_id l')
    end; [reflexivity |].
    destruct (Py.key_eqb i attr_id) eqn:E.
    + rewrite (find_equal_keys i attr_id _ E).
      apply find_set_same. assumption.
    + apply find_set_other. exact E.
Qed.

(** X21. The attribute map [get_attribute_dict] builds from the attributes
    the catalogue lists: every listed id is mapped to its name, the name
    listed last when an id is listed twice, and no other id is mapped.
    From an empty answer it builds the empty map; from the error that a
    failed request comes back as it builds nothing but raises [TypeError]. *)
Theorem attribute_dict_lists_names attrs l :
  Forall2 listed_as attrs l ->
  Forall (fun id_name => Py.hashable (fst id_name) = true) l ->
  (exists d,
     attribute_dict_of (VList attrs) = Ok d /\
     forall attr_id, Py.find attr_id d = listed_name attr_id l) /\
  attribute_dict_of VNone = Ok [] /\
  (forall err text,
     attribute_dict_of (error_value (HttpError err text)) = Raise TypeError) /\
  (forall err,
     attribute_dict_of (error_value (Failed err)) = Raise TypeError).
Proof.
  intros Hl Hh. split; [| repeat split].
  destruct attrs as [| attr attrs].
  - inversion Hl; subst. exists []. split; reflexivity.
  - destruct (attribute_pairs_lists (attr :: attrs) l [] Hl Hh)
      as (d & Hd & Hfind).
    exists d. split; [exact Hd |]. intros attr_id. rewrite Hfind.
    destruct (listed_name attr_id l); reflexivity.
Qed.


(** ** The label *)

(** X22. The label is matched exactly.  A ticket whose labels are a list is
    a remediation ticket exactly when one of them is the string
    ["AssetUpdate"], letter for letter; a ticket without labels, or without
    fields, is none, and no exception is raised for it. *)
Theorem label_is_matched_exactly d :
  d <> [] ->
  (forall fields labels,
     Py.lookup "fields" d = Some (VDict fields) ->
     Py.lookup "labels" fields = Some (VList labels) ->
     is_task_for_update (VDict d) =
       Ok (existsb (fun l => Py.eq_str l "AssetUpdate") labels) /\
     (is_task_for_update (VDict d) = Ok true <->
      In (VStr "AssetUpdate") labels)) /\
  (forall fields,
     Py.lookup "fields" d = Some (VDict fields) ->
     Py.lookup "labels" fields = None ->
     is_task_for_update (VDict d) = Ok false) /\
  (Py.lookup "fields" d = None -> is_task_for_update (VDict d) = Ok false).
Proof.
  intros Hd.
  assert (Ht : Py.truthy (VDict d) = true).
  { destruct d; [contradiction | reflexivity]. }
  unfold is_task_for_update. rewrite Ht. cbn [negb Py.get].
  split; [| split].
  - intros fields labels Hf Hl. rewrite Hf. cbn [Py.bind Py.get]. rewrite Hl.
    cbn [Py.bind Py.contains_str]. split; [reflexivity |].
    split.
    + intros E.
      assert (E' : existsb (fun l => Py.eq_str l "AssetUpdate") labels = true)
        by congruence.
      apply existsb_exists in E'.
      destruct E' as (l & Hin & Hl'). destruct l; try discriminate.
      simpl in Hl'. apply String.eqb_eq in Hl'. subst. exact Hin.
    + intros Hin. f_equal. apply existsb_exists.
      exists (VStr "AssetUpdate"). split; [exact Hin | reflexivity].
  - intros fields Hf Hl. rewrite Hf. cbn [Py.bind Py.get]. rewrite Hl.
    reflexivity.
  - intros Hf. rewrite Hf. reflexivity.
Qed.


End Properties.

(** * The properties on the example sites *)

Lemma site_reads_pure answer clock_reads :
  reads_pure (site_host answer clock_reads).
Proof. intros r w _. reflexivity. Qed.


(** C3 on the plain site: the laptop, due on 2024-01-01, is overdue on
    2024-06-01. *)
Lemma urgency_classification_witness :
  extract_attribute_values (asset_record "1" "Laptop" "2024-01-01")
    (attribute_map demo_config) = Ok (attributes_of "Laptop" "2024-01-01") /\
  first_value (attributes_of "Laptop" "2024-01-01") "Update"
    = Ok (VStr "2024-01-01") /\
  Py.truthy (VStr "2024-01-01") = true /\
  parse_date (demo_host plain_site) (VStr "2024-01-01")
    = Some (Iso.instant 2024 1 1 0 0 0) /\
  classify (Iso.instant 2024 1 1 0 0 0) demo_now = Overdue.
Proof.
  repeat (split; [reflexivity |]).
  destruct (urgency_classification (demo_host plain_site) demo_config
              (asset_record "1" "Laptop" "2024-01-01")
              (attributes_of "Laptop" "2024-01-01") (VStr "2024-01-01")
              (Iso.instant 2024 1 1 0 0 0) (fresh tt)
              eq_refl eq_refl eq_refl eq_refl) as (Hc & _).
  apply (proj1 (Hc (Iso.instant 2024 1 1 0 0 0) demo_now)).
  vm_compute. discriminate.
Defined.

(** C4 on the plain site: "AU-1" is "To Do" and overdue, and the site lists
    the transition "In Progress" with the id "21"; the reminder is posted and
    the ticket moved by that transition. *)
Lemma lifecycle_decision_witness :
  let H := demo_host plain_site in
  let issue := link "AU-1" in
  let asset := asset_record "1" "Laptop" "2024-01-01" in
  let attributes := attributes_of "Laptop" "2024-01-01" in
  let lookup :=
    get_task_cached H (VStr "AU-1")
      (snd (enter H (ProcessLinkedUpdateIssue issue) (fresh tt))) in
  let ts := [VDict [("id", VStr "21"); ("name", VStr "In Progress")];
             VDict [("id", VStr "31"); ("name", VStr "Done")]] in
  let l := [(VStr "21", VStr "In Progress"); (VStr "31", VStr "Done")] in
  let run := process_linked_update_issue H issue asset attributes (fresh tt) in
  Py.getitem issue "key" = Ok (VStr "AU-1") /\
  lookup = (Ok (ticket "To Do" ["AssetUpdate"]), snd lookup) /\
  Py.truthy (ticket "To Do" ["AssetUpdate"]) = true /\
  status_name (ticket "To Do" ["AssetUpdate"]) = Ok (VStr "To Do") /\
  first_value attributes "Update" = Ok (VStr "2024-01-01") /\
  "2024-01-01" <> "" /\
  strptime H "2024-01-01" = Some (Iso.instant 2024 1 1 0 0 0) /\
  Py.get asset "id" VNone = Ok (VStr "1") /\
  fst (remote H (GetTransitions (VStr "AU-1")) tt) =
    Body (VDict [("transitions", VList ts)]) /\
  Forall2 listed_as ts l /\
  first_named "In Progress" l = VStr "21" /\
  fst run = Ok tt /\
  requests (snd run)
    = [GetTask (VStr "AU-1");
       AddComment (VStr "AU-1") (COMMENT_REMINDER "2024-01-01");
       GetTransitions (VStr "AU-1");
       TransitionTask (VStr "AU-1") (VStr "21")].
Proof.
  intros H issue asset attributes lookup ts l run.
  assert (Htext : "2024-01-01" <> "") by discriminate.
  assert (Hl : Forall2 listed_as ts l).
  { constructor; [eexists; repeat split |].
    constructor; [eexists; repeat split | constructor]. }
  do 5 (split; [reflexivity |]). split; [exact Htext |].
  do 3 (split; [reflexivity |]). split; [exact Hl |].
  split; [reflexivity |].
  destruct (lifecycle_decision H issue asset attributes (fresh tt) (snd lookup)
              (VStr "AU-1") (ticket "To Do" ["AssetUpdate"]) (VStr "To Do")
              (VStr "1") "2024-01-01" (Iso.instant 2024 1 1 0 0 0)
              eq_refl eq_refl eq_refl eq_refl eq_refl Htext eq_refl eq_refl)
    as (Hreminder & _).
  destruct Hreminder as (_ & _ & _ & _ & _ & Hlisted).
  - discriminate.
  - vm_compute. discriminate.
  - discriminate.
  - exact (proj1 (Hlisted [("transitions", VList ts)] ts l eq_refl eq_refl Hl)
             eq_refl).
Defined.

(** C8 on the plain site: an "Update" that is no date stops the decider
    after the ticket was fetched. *)
Lemma decider_date_and_status_witness :
  let H := demo_host plain_site in
  let issue := link "AU-1" in
  let asset := asset_record "1" "Laptop" "next week" in
  let attributes := attributes_of "Laptop" "next week" in
  let lookup :=
    get_task_cached H (VStr "AU-1")
      (snd (enter H (ProcessLinkedUpdateIssue issue) (fresh tt))) in
  let run := process_linked_update_issue H issue asset attributes (fresh tt) in
  parse_date H (VStr "next week") = None /\
  Py.getitem issue "key" = Ok (VStr "AU-1") /\
  lookup = (Ok (ticket "To Do" ["AssetUpdate"]), snd lookup) /\
  Py.truthy (ticket "To Do" ["AssetUpdate"]) = true /\
  status_name (ticket "To Do" ["AssetUpdate"]) = Ok (VStr "To Do") /\
  first_value attributes "Update" = Ok (VStr "next week") /\
  fst run = Ok tt /\
  requests (snd run) = [GetTask (VStr "AU-1")].
Proof.
  intros H issue asset attributes lookup run.
  do 6 (split; [reflexivity |]).
  destruct (decider_date_and_status H issue asset attributes (fresh tt))
    as (Hstop & _).
  assert (Hno : forall v d,
            first_value attributes "Update" = Ok v ->
            Py.truthy v = true -> parse_date H v = Some d -> False).
  { intros v d Hf _ Hp.
    assert (Hv : v = VStr "next week") by (vm_compute in Hf; congruence).
    subst v. vm_compute in Hp. discriminate. }
  destruct (Hstop Hno) as (_ & Hfound).
  destruct (Hfound (snd lookup) (VStr "AU-1") (ticket "To Do" ["AssetUpdate"])
                (VStr "To Do") (VStr "next week")
                eq_refl eq_refl eq_refl eq_refl eq_refl)
    as (Hok & Hreq & _).
  split; [exact Hok | exact Hreq].
Defined.

(** C7 on the bare site: the responsible person maps to id 0, and the
    ticket is posted without assignee. *)
Lemma creator_submission_witness :
  let H := demo_host bare_site in
  let asset := asset_record "1" "Laptop" "2024-01-01" in
  let attributes := attributes_for "Laptop" "2024-01-01" "Bo Ek" in
  let links :=
    linked_update_issues H (VStr "1")
      (snd (enter H (CreateUpdateTask true) (fresh tt))) in
  let run := create_update_task H demo_config asset attributes true (fresh tt) in
  getenv_set (JIRA_WORKSPACE_ID demo_config) = Some "ws-1" /\
  getenv_set (JIRA_PROJECT_KEY demo_config) = Some "OPS" /\
  Py.get asset "id" VNone = Ok (VStr "1") /\
  Py.truthy (VStr "1") = true /\
  links = (Ok [], snd links) /\
  first_value attributes "Name" = Ok (VStr "Laptop") /\
  first_value attributes "Update" = Ok (VStr "2024-01-01") /\
  extract_assignee_name attributes = Ok (VStr "Bo Ek") /\
  Py.find (VStr "Bo Ek") (ASSIGNEE_MAPPING demo_config) = Some (VInt 0) /\
  exists payload,
    In (CreateTask payload) (requests (snd run)) /\
    posted_field payload "assignee" = None /\
    posted_field payload "labels" = Some (VList [VStr "AssetUpdate"]) /\
    posted_field payload "duedate" = Some (VStr "2024-01-01").
Proof.
  intros H asset attributes links run.
  do 9 (split; [reflexivity |]).
  destruct (creator_submission H demo_config asset attributes true (fresh tt))
    as (sent & Hreq & _ & _ & Hall & Hsub).
  destruct (Hsub "ws-1" "OPS" (VStr "1") (snd links) (VStr "Laptop")
              (VStr "2024-01-01") (VStr "Bo Ek")
              eq_refl eq_refl eq_refl eq_refl eq_refl eq_refl eq_refl eq_refl
              eq_refl eq_refl (or_intror eq_refl))
    as (payload & Hin & Hno).
  - intros i Hi. assert (Hz : i = VInt 0) by (vm_compute in Hi; congruence).
    subst i. reflexivity.
  - exists payload. destruct (Hall payload Hin) as (_ & Hdate & Hlabels & _).
    destruct Hdate as (date & Hd & _ & Hp).
    assert (Hdd : date = VStr "2024-01-01") by (vm_compute in Hd; congruence).
    subst date. repeat split; try assumption.
    subst run. rewrite Hreq. exact Hin.
Defined.

(** C9 on the site whose ticket is "Done": the creator asks for the links
    itself, finds the ticket and returns; the handler of the router enters
    the creator and sends nothing but reads. *)
Lemma creator_rechecks_links_witness :
  let H := demo_host (soon_site "Done") in
  let asset := asset_record "5" "Router" "2024-06-04" in
  let attributes := attributes_of "Router" "2024-06-04" in
  let own_look :=
    linked_update_issues H (VStr "5")
      (snd (enter H (CreateUpdateTask false) (fresh tt))) in
  let creator := create_update_task H demo_config asset attributes false (fresh tt) in
  let links :=
    linked_update_issues H (VStr "5")
      (snd (enter H (HandleFutureAsset asset) (fresh tt))) in
  let run :=
    handle_future_asset H demo_config asset attributes
      (Iso.instant 2024 6 4 0 0 0) (fresh tt) in
  getenv_set (JIRA_WORKSPACE_ID demo_config) = Some "ws-1" /\
  getenv_set (JIRA_PROJECT_KEY demo_config) = Some "OPS" /\
  Py.get asset "id" VNone = Ok (VStr "5") /\
  Py.truthy (VStr "5") = true /\
  own_look = (Ok [link "AU-9"], snd own_look) /\
  requests (snd own_look) = [ConnectedTickets (VStr "5"); GetTask (VStr "AU-9")] /\
  fst creator = Ok tt /\
  requests (snd creator) = requests (snd own_look) /\
  log (snd creator) =
    log (snd own_look) ++ [(INFO, AlreadyHasLinkedUpdateIssue (VStr "5"))] /\
  reads_pure H /\
  Py.getitem asset "id" = Ok (VStr "5") /\
  links = (Ok [link "AU-9"], snd links) /\
  cached_status (task_cache (snd links)) (link "AU-9") (VStr "AU-9")
    (VStr "Done") /\
  first_active [(VStr "AU-9", VStr "Done")] = None /\
  entered (snd run) = [HandleFutureAsset asset; CreateUpdateTask false] /\
  fst run = Ok tt /\
  exists l, requests (snd run) = l /\ forallb is_read l = true.
Proof.
  intros H asset attributes own_look creator links run.
  assert (Hpure : reads_pure H) by apply site_reads_pure.
  assert (Hcached : cached_status (task_cache (snd links)) (link "AU-9")
                      (VStr "AU-9") (VStr "Done")).
  { exists (ticket "Done" ["AssetUpdate"]). repeat split. }
  destruct (creator_rechecks_links H demo_config asset attributes (VStr "5"))
    as (Hcreator & _ & Hsoon & _).
  destruct (Hcreator false (fresh tt) "ws-1" "OPS" eq_refl eq_refl eq_refl
              eq_refl) as (_ & Hfound & _).
  destruct (Hfound (snd own_look) (link "AU-9") [] eq_refl)
    as (Hok & Hreq & _ & Hlog & _).
  do 6 (split; [reflexivity |]).
  split; [exact Hok |]. split; [exact Hreq |]. split; [exact Hlog |].
  split; [exact Hpure |]. split; [reflexivity |]. split; [reflexivity |].
  split; [exact Hcached |]. split; [reflexivity |].
  destruct (Hsoon (Iso.instant 2024 6 4 0 0 0) (fresh tt) (snd links)
              [link "AU-9"] [(VStr "AU-9", VStr "Done")] eq_refl eq_refl
              ltac:(constructor; [exact Hcached | constructor]) eq_refl)
    as (Hentered & Hquiet).
  split; [exact Hentered |].
  destruct (Hquiet Hpure) as (Hok' & l & Hl & Hr); [discriminate |].
  split; [exact Hok' |]. exists l. split; [exact Hl | exact Hr].
Defined.

(** C1 on the site whose ticket is "In Progress": the handler stops at the
    ticket. *)
Lemma due_soon_active_ticket_witness :
  let H := demo_host (soon_site "In Progress") in
  let asset := asset_record "5" "Router" "2024-06-04" in
  let attributes := attributes_of "Router" "2024-06-04" in
  let links :=
    linked_update_issues H (VStr "5")
      (snd (enter H (HandleFutureAsset asset) (fresh tt))) in
  let run :=
    handle_future_asset H demo_config asset attributes
      (Iso.instant 2024 6 4 0 0 0) (fresh tt) in
  Py.getitem asset "id" = Ok (VStr "5") /\
  links = (Ok [link "AU-9"], snd links) /\
  cached_status (task_cache (snd links)) (link "AU-9") (VStr "AU-9")
    (VStr "In Progress") /\
  fst run = Ok tt /\
  entered (snd run) = [HandleFutureAsset asset] /\
  requests (snd run) = [ConnectedTickets (VStr "5"); GetTask (VStr "AU-9")].
Proof.
  intros H asset attributes links run.
  assert (Hcached : cached_status (task_cache (snd links)) (link "AU-9")
                      (VStr "AU-9") (VStr "In Progress")).
  { exists (ticket "In Progress" ["AssetUpdate"]). repeat split. }
  split; [reflexivity |]. split; [reflexivity |]. split; [exact Hcached |].
  destruct (due_soon_active_ticket H demo_config asset attributes
              (Iso.instant 2024 6 4 0 0 0) (fresh tt) (snd links) (VStr "5")
              [link "AU-9"] [(VStr "AU-9", VStr "In Progress")]
              eq_refl eq_refl ltac:(constructor; [exact Hcached | constructor]))
    as (_ & Hactive & _).
  destruct Hactive as (key & status & _ & Hok & Hentered & Hreq & _).
  - constructor. right. reflexivity.
  - split; [exact Hok |]. split; [exact Hentered | exact Hreq].
Defined.




(** * The scenarios of the specification, run

    The clock reads 2024-06-01; the laptop and the printer were due on
    2024-01-01, the router is due on 2024-06-04. *)

(** Scenario A: an overdue asset without linked tickets gets one ticket,
    with the summary "Update <name>". *)
Example scenario_no_ticket :
  let run := run_iteration (demo_host bare_site) demo_config (fresh tt) in
  fst run = Ok tt /\
  exists payload,
    filter is_create (requests (snd run)) = [CreateTask payload] /\
    posted_field payload "summary" = Some (VStr "Update Laptop") /\
    posted_field payload "duedate" = Some (VStr "2024-01-01") /\
    posted_field payload "labels" = Some (VList [VStr "AssetUpdate"]).
Proof. vm_compute. split; [reflexivity |]. eexists. repeat split. Qed.

(** Scenarios B, C and D in one pass: "AU-1" is "To Do" (reminder, then the
    transition), "AU-2" is "In Progress" (nothing), "AU-3" is "Done" (the
    request to update again); no ticket is created. *)
Example scenario_linked_tickets :
  let run := run_iteration (demo_host plain_site) demo_config (fresh tt) in
  fst run = Ok tt /\
  filter (fun r => negb (is_read r)) (requests (snd run)) =
    [AddComment (VStr "AU-1") (COMMENT_REMINDER "2024-01-01");
     TransitionTask (VStr "AU-1") (VStr "21");
     AddComment (VStr "AU-3") COMMENT_REQUEST_UPDATE].
Proof. vm_compute. split; reflexivity. Qed.

(** Scenario E: due in three days, one linked ticket "In Progress": nothing
    is created and the creator is not entered. *)
Example scenario_due_soon :
  let run :=
    run_iteration (demo_host (soon_site "In Progress")) demo_config (fresh tt) in
  fst run = Ok tt /\
  filter (fun r => negb (is_read r)) (requests (snd run)) = [] /\
  filter is_creator (entered (snd run)) = [].
Proof. vm_compute. repeat split. Qed.

(** * Where the code departs from the specification *)

(** C1 as stated fails.  The asset is due in three days and its one linked
    remediation ticket has the status "To Do": the handler does not stop at
    the ticket.  It enters the creator, which asks the site for the links a
    second time, and the log says a new task is being created. *)
Lemma due_soon_to_do_is_not_active :
  let H := demo_host (soon_site "To Do") in
  let asset := asset_record "5" "Router" "2024-06-04" in
  let attributes := attributes_of "Router" "2024-06-04" in
  let run :=
    handle_future_asset H demo_config asset attributes
      (Iso.instant 2024 6 4 0 0 0) (fresh tt) in
  classify (Iso.instant 2024 6 4 0 0 0) demo_now = DueSoon /\
  fst (linked_update_issues H (VStr "5") (fresh tt)) = Ok [link "AU-9"] /\
  Py.find (VStr "AU-9") (task_cache (snd run))
    = Some (ticket "To Do" ["AssetUpdate"]) /\
  status_name (ticket "To Do" ["AssetUpdate"]) = Ok (VStr "To Do") /\
  In (CreateUpdateTask false) (entered (snd run)) /\
  entered (snd run) = [HandleFutureAsset asset; CreateUpdateTask false] /\
  requests (snd run) =
    [ConnectedTickets (VStr "5"); GetTask (VStr "AU-9");
     ConnectedTickets (VStr "5")] /\
  log (snd run) =
    [(INFO, AlreadyHasLinkedUpdateIssue (VStr "5"));
     (INFO, NewUpdateTaskIsBeingCreated (VStr "5"))].
Proof.
  vm_compute. repeat split. right. left. reflexivity.
Qed.


(** C4 as stated fails.  "AU-1" is "To Do" and its asset was due five months
    ago, but the workflow of the ticket has no transition named
    "In Progress": the reminder is posted, the ticket is not moved, and the
    decider ends with [ValueError]. *)
Lemma reminder_without_transition :
  let H := demo_host stuck_site in
  let issue := link "AU-1" in
  let asset := asset_record "1" "Laptop" "2024-01-01" in
  let attributes := attributes_of "Laptop" "2024-01-01" in
  let run := process_linked_update_issue H issue asset attributes (fresh tt) in
  fst (get_task_cached H (VStr "AU-1") (fresh tt))
    = Ok (ticket "To Do" ["AssetUpdate"]) /\
  is_task_for_update (ticket "To Do" ["AssetUpdate"]) = Ok true /\
  status_name (ticket "To Do" ["AssetUpdate"]) = Ok (VStr "To Do") /\
  first_value attributes "Update" = Ok (VStr "2024-01-01") /\
  parse_date H (VStr "2024-01-01") = Some (Iso.instant 2024 1 1 0 0 0) /\
  (Iso.instant 2024 1 1 0 0 0 <=? demo_now)%Z = true /\
  fst run = Raise ValueError /\
  requests (snd run) =
    [GetTask (VStr "AU-1");
     AddComment (VStr "AU-1") (COMMENT_REMINDER "2024-01-01");
     GetTransitions (VStr "AU-1")] /\
  (forall tid, ~ In (TransitionTask (VStr "AU-1") tid) (requests (snd run))).
Proof.
  vm_compute. do 8 (split; [reflexivity |]).
  intros tid [C | [C | [C | []]]]; discriminate.
Qed.


(** C9 as stated fails.  The router is due in three days and its one linked
    remediation ticket is "Done".  The handler sees the ticket; the site
    then fails on the query the creator sends for the links, the creator
    takes the router for an asset without links, and a second ticket is
    posted. *)
Lemma failed_recheck_creates_a_ticket :
  let H := flaky_host in
  let asset := asset_record "5" "Router" "2024-06-04" in
  let attributes := attributes_of "Router" "2024-06-04" in
  let run :=
    handle_future_asset H demo_config asset attributes
      (Iso.instant 2024 6 4 0 0 0) (fresh 0) in
  classify (Iso.instant 2024 6 4 0 0 0) demo_now = DueSoon /\
  fst (linked_update_issues H (VStr "5") (fresh 0)) = Ok [link "AU-9"] /\
  Py.find (VStr "AU-9") (task_cache (snd run))
    = Some (ticket "Done" ["AssetUpdate"]) /\
  is_task_for_update (ticket "Done" ["AssetUpdate"]) = Ok true /\
  status_name (ticket "Done" ["AssetUpdate"]) = Ok (VStr "Done") /\
  fst run = Ok tt /\
  entered (snd run) = [HandleFutureAsset asset; CreateUpdateTask false] /\
  exists payload,
    requests (snd run) =
      [ConnectedTickets (VStr "5"); GetTask (VStr "AU-9");
       ConnectedTickets (VStr "5"); CreateTask payload] /\
    posted_field payload "summary" = Some (VStr "Update Router") /\
    posted_field payload "labels" = Some (VList [VStr "AssetUpdate"]).
Proof.
  vm_compute. do 7 (split; [reflexivity |]).
  eexists. split; [reflexivity |]. split; reflexivity.
Qed.

(** * More properties on the example sites *)

(** X1 on the mixed site: of the four links of the laptop the two labelled
    tickets are kept, in order, after three fetches that were answered and
    one that was not. *)
Lemma filter_keeps_the_labelled_witness :
  let H := demo_host mixed_site in
  let linked := VList (map link ["AU-1"; "HR-7"; "AU-404"; "AU-2"]) in
  let run := filter_update_issues H linked (fresh tt) in
  run = (Ok [link "AU-1"; link "AU-2"], snd run) /\
  exists items sent,
    Py.iter linked = Ok items /\
    [link "AU-1"; link "AU-2"] = filter (labelled (task_cache (snd run))) items /\
    requests (snd run) = [] ++ sent /\
    forallb is_fetch sent = true /\
    List.length sent <= List.length items.
Proof.
  intros H linked run. split; [reflexivity |].
  apply (filter_keeps_the_labelled H linked (fresh tt) (snd run)
           [link "AU-1"; link "AU-2"] eq_refl).
Defined.

(** X2 on the mixed site: "AU-404" does not exist; its link is dropped. *)
Lemma unfetched_ticket_is_dropped_witness :
  let H := demo_host mixed_site in
  let k := VStr "AU-404" in
  Py.get (link "AU-404") "key" VNone = Ok k /\
  Py.hashable k = true /\
  Py.find k (task_cache (fresh (tt : World H))) = None /\
  is_failure (fst (remote H (GetTask k) tt)) = true /\
  filter_loop H [link "AU-404"; link "AU-2"] [link "AU-1"] (fresh tt) =
    filter_loop H [link "AU-2"] [link "AU-1"] (fetched H k (fresh tt)) /\
  requests (fetched H k (fresh tt)) = [] ++ [GetTask k].
Proof.
  intros H k. do 4 (split; [reflexivity |]).
  apply (unfetched_ticket_is_dropped H (link "AU-404") k [link "AU-2"]
           [link "AU-1"] (fresh tt)); reflexivity.
Defined.

(** X3 on the mixed site: the second filtering of the four links sends
    nothing. *)
Lemma filter_again_is_free_witness :
  let H := demo_host mixed_site in
  let linked := VList (map link ["AU-1"; "HR-7"; "AU-404"; "AU-2"]) in
  let run := filter_update_issues H linked (fresh tt) in
  run = (Ok [link "AU-1"; link "AU-2"], snd run) /\
  cache_le (task_cache (snd run)) (task_cache (snd run)) /\
  filter_update_issues H linked (snd run) =
    (Ok [link "AU-1"; link "AU-2"], snd run).
Proof.
  intros H linked run. split; [reflexivity |].
  assert (Hle : cache_le (task_cache (snd run)) (task_cache (snd run))).
  { intros k t E. exact E. }
  split; [exact Hle |].
  apply (filter_again_is_free H linked (fresh tt) (snd run)
           [link "AU-1"; link "AU-2"] eq_refl (snd run) Hle).
Defined.

(** X4 on a site whose link query is down: the overdue laptop gets a new
    ticket. *)
Lemma link_outage_posts_a_ticket_witness :
  let H := site_host outage_answer demo_now in
  let asset := asset_record "1" "Laptop" "2024-01-01" in
  let attributes := attributes_of "Laptop" "2024-01-01" in
  (forall w, is_failure (fst (remote H (ConnectedTickets (VStr "1")) w)) = true) /\
  getenv_set (JIRA_WORKSPACE_ID demo_config) = Some "ws-1" /\
  getenv_set (JIRA_PROJECT_KEY demo_config) = Some "OPS" /\
  Py.getitem asset "id" = Ok (VStr "1") /\
  Py.truthy (VStr "1") = true /\
  first_value attributes "Name" = Ok (VStr "Laptop") /\
  Py.truthy (VStr "Laptop") = true /\
  first_value attributes "Update" = Ok (VStr "2024-01-01") /\
  Py.truthy (VStr "2024-01-01") = true /\
  extract_assignee_name attributes = Ok VNone /\
  resolved_assignee demo_config VNone = Ok VNone /\
  exists payload,
    requests (snd (handle_overdue_asset H demo_config asset attributes (fresh tt)))
      = [] ++ [ConnectedTickets (VStr "1"); ConnectedTickets (VStr "1");
               CreateTask payload] /\
    posted_field payload "labels" = Some (VList [VStr "AssetUpdate"]) /\
    posted_field payload "duedate" = Some (VStr "2024-01-01").
Proof.
  intros H asset attributes.
  assert (Hout : forall w,
            is_failure (fst (remote H (ConnectedTickets (VStr "1")) w)) = true)
    by (intros w; reflexivity).
  split; [exact Hout |]. do 10 (split; [reflexivity |]).
  apply (link_outage_posts_a_ticket H demo_config asset attributes (fresh tt)
           "ws-1" "OPS" (VStr "1") (VStr "Laptop") (VStr "2024-01-01")
           VNone VNone Hout); reflexivity.
Defined.

(** X5 on the plain site: "AU-1" is moved by transition "21", the first one
    named "In Progress"; no transition is named "Start Progress". *)
Lemma transition_by_name_takes_the_first_witness :
  let H := demo_host plain_site in
  let k := VStr "AU-1" in
  let ts := [VDict [("id", VStr "21"); ("name", VStr "In Progress")];
             VDict [("id", VStr "31"); ("name", VStr "Done")]] in
  let l := [(VStr "21", VStr "In Progress"); (VStr "31", VStr "Done")] in
  fst (remote H (GetTransitions k) tt) = Body (VDict [("transitions", VList ts)]) /\
  Py.lookup "transitions" [("transitions", VList ts)] = Some (VList ts) /\
  Forall2 listed_as ts l /\
  Py.truthy (first_named "In Progress" l) = true /\
  Py.truthy (first_named "Start Progress" l) = false /\
  requests (snd (transition_task_by_name H k "In Progress" (fresh tt))) =
    [] ++ [GetTransitions k; TransitionTask k (VStr "21")] /\
  fst (transition_task_by_name H k "Start Progress" (fresh tt)) =
    Raise ValueError /\
  requests (snd (transition_task_by_name H k "Start Progress" (fresh tt))) =
    [] ++ [GetTransitions k].
Proof.
  intros H k ts l.
  assert (Hl : Forall2 listed_as ts l).
  { constructor; [eexists; repeat split |].
    constructor; [eexists; repeat split | constructor]. }
  do 2 (split; [reflexivity |]). split; [exact Hl |].
  do 2 (split; [reflexivity |]).
  split.
  - apply (proj1 (transition_by_name_takes_the_first H k "In Progress"
                    [("transitions", VList ts)] ts l (fresh tt)
                    eq_refl eq_refl Hl)).
    reflexivity.
  - apply (proj2 (transition_by_name_takes_the_first H k "Start Progress"
                    [("transitions", VList ts)] ts l (fresh tt)
                    eq_refl eq_refl Hl)).
    reflexivity.
Defined.

(** X6 on the plain site: the site has no ticket "AU-404" and answers the
    query for its transitions with an error. *)
Lemma transition_by_name_without_answer_witness :
  let H := demo_host plain_site in
  let k := VStr "AU-404" in
  is_failure (fst (remote H (GetTransitions k) tt)) = true /\
  transition_task_by_name H k "In Progress" (fresh tt) =
    (Raise ValueError, snd (_request H (GetTransitions k) (fresh tt))) /\
  requests (snd (transition_task_by_name H k "In Progress" (fresh tt))) =
    [] ++ [GetTransitions k].
Proof.
  intros H k. split; [reflexivity |].
  apply (transition_by_name_without_answer H k "In Progress" (fresh tt)).
  reflexivity.
Defined.

(** X7 on the bare site: without a summary nothing is sent; with one, one
    ticket is. *)
Lemma create_task_guard_witness :
  let H := demo_host bare_site in
  let kwargs := mkKwargs None None None None in
  create_task H "OPS" "" "Please update." "Task" kwargs (fresh tt) =
    (Raise ValueError, fresh tt) /\
  "OPS" <> "" /\ "Update Laptop" <> "" /\ "Please update." <> "" /\
  exists payload,
    fst (create_task H "OPS" "Update Laptop" "Please update." "Task" kwargs
           (fresh tt)) =
      Ok (error_value (fst (remote H (CreateTask payload) tt))) /\
    requests (snd (create_task H "OPS" "Update Laptop" "Please update." "Task"
                     kwargs (fresh tt))) = [] ++ [CreateTask payload].
Proof.
  intros H kwargs.
  assert (H1 : "OPS" <> "") by discriminate.
  assert (H2 : "Update Laptop" <> "") by discriminate.
  assert (H3 : "Please update." <> "") by discriminate.
  split.
  - apply (proj1 (create_task_guard H "OPS" "" "Please update." "Task" kwargs
                    (fresh tt))).
    right. left. reflexivity.
  - do 3 (split; [assumption |]).
    apply (proj2 (create_task_guard H "OPS" "Update Laptop" "Please update."
                    "Task" kwargs (fresh tt)) H1 H2 H3).
Defined.

(** X8 on the bare site: a custom field named "summary" replaces the
    summary, an assignee id of 0 is left out, the due date is posted. *)
Lemma create_task_payload_witness :
  let H := demo_host bare_site in
  let kwargs :=
    mkKwargs (Some (VInt 0)) (Some (VStr "2024-01-01")) None
             (Some [("summary", VStr "First"); ("summary", VStr "Second")]) in
  "OPS" <> "" /\ "Update Laptop" <> "" /\ "Please update." <> "" /\
  exists payload,
    create_task H "OPS" "Update Laptop" "Please update." "Task" kwargs (fresh tt)
      = _request H (CreateTask payload) (fresh tt) /\
    posted_field payload "summary" = Some (VStr "Second") /\
    posted_field payload "assignee" = None /\
    posted_field payload "labels" = None /\
    posted_field payload "duedate" = Some (VStr "2024-01-01") /\
    posted_field payload "project" = Some (VDict [("key", VStr "OPS")]).
Proof.
  intros H kwargs.
  assert (H1 : "OPS" <> "") by discriminate.
  assert (H2 : "Update Laptop" <> "") by discriminate.
  assert (H3 : "Please update." <> "") by discriminate.
  do 3 (split; [assumption |]).
  destruct (create_task_payload H "OPS" "Update Laptop" "Please update." "Task"
              kwargs (fresh tt) H1 H2 H3) as (payload & Hrun & Hfields).
  exists payload. split; [exact Hrun |].
  split; [exact (Hfields "summary") |].
  split; [exact (Hfields "assignee") |].
  split; [exact (Hfields "labels") |].
  split; [exact (Hfields "duedate") | exact (Hfields "project")].
Defined.

(** X9 with the map of the examples: the record of the unknown attribute
    "999" leaves no trace. *)
Lemma extracted_names_come_from_the_map_witness :
  let object_data :=
    VDict [("id", VStr "1");
           ("attributes",
            VList [literal "999" "blue"; literal "140" "2024-01-01"])] in
  let out := [(VStr "Update", [VStr "2024-01-01"])] in
  extract_attribute_values object_data (attribute_map demo_config) = Ok out /\
  forall k vs,
    In (k, vs) out ->
    Py.truthy k = true /\
    exists attr_id, Py.find attr_id (attribute_map demo_config) = Some k.
Proof.
  intros object_data out. split; [reflexivity |].
  exact (proj1 (extracted_names_come_from_the_map object_data
                  (attribute_map demo_config) out eq_refl)).
Defined.

(** X10 on the plain site: an asset to be updated "next week" is passed
    over. *)
Lemma asset_without_date_is_skipped_witness :
  let H := demo_host plain_site in
  let asset := asset_record "1" "Laptop" "next week" in
  let run := process_asset_update H demo_config asset (fresh tt) in
  extract_attribute_values asset (attribute_map demo_config)
    = Ok (attributes_of "Laptop" "next week") /\
  first_value (attributes_of "Laptop" "next week") "Update"
    = Ok (VStr "next week") /\
  parse_date H (VStr "next week") = None /\
  fst run = Ok tt /\
  requests (snd run) = [] /\
  entered (snd run) = [] /\
  log (snd run) = [(ERROR, ErrorParsingUpdateDate); (WARNING, NoValidUpdateDate)].
Proof.
  intros H asset run. do 3 (split; [reflexivity |]).
  apply (asset_without_date_is_skipped H demo_config asset
           (attributes_of "Laptop" "next week") (VStr "next week") (fresh tt)
           eq_refl eq_refl (or_intror eq_refl)).
Defined.

(** X11 on the plain site: without an attribute map the two overdue assets
    are not touched. *)
Lemma pass_with_empty_map_only_asks_witness :
  let H := demo_host plain_site in
  let cfg := mkConfig (Some "ws-1") (Some "OPS") (Some "7") [] [] in
  attribute_map cfg = [] /\
  requests (snd (run_iteration H cfg (fresh tt))) =
    [] ++ [ObjectAql (pass_query cfg)] /\
  entered (snd (run_iteration H cfg (fresh tt))) = [].
Proof.
  intros H cfg. split; [reflexivity |].
  apply (pass_with_empty_map_only_asks H cfg (fresh tt) eq_refl).
Defined.

(** X12 on the plain site: an asset whose "Update" attribute lists no
    value. *)
Lemma attribute_without_values_raises_witness :
  let H := demo_host plain_site in
  let asset :=
    VDict [("id", VStr "1");
           ("attributes",
            VList [VDict [("objectTypeAttributeId", VStr "140");
                          ("objectAttributeValues", VList [])]])] in
  let attributes := [(VStr "Update", [])] in
  extract_attribute_values asset (attribute_map demo_config) = Ok attributes /\
  Py.find (VStr "Update") attributes = Some [] /\
  first_value attributes "Update" = Raise IndexError /\
  process_asset_update H demo_config asset (fresh tt) =
    (Raise IndexError, fresh tt).
Proof.
  intros H asset attributes. do 2 (split; [reflexivity |]).
  destruct (attribute_without_values_raises H demo_config asset attributes
              (fresh tt)) as (Hfirst & _ & Hrun).
  split; [apply Hfirst; reflexivity | apply Hrun; reflexivity].
Defined.

(** X13 on a site that cannot be reached: the pass returns after its
    query. *)
Lemma pass_without_answer_witness :
  let H := site_host outage_answer demo_now in
  let answer := fst (remote H (ObjectAql (pass_query demo_config)) tt) in
  let run := run_iteration H demo_config (fresh tt) in
  is_failure answer = true /\
  answer <> NoBody /\
  fst run = Ok tt /\
  requests (snd run) = [] ++ [ObjectAql (pass_query demo_config)] /\
  entered (snd run) = [].
Proof.
  intros H answer run.
  assert (Hn : answer <> NoBody) by discriminate.
  split; [reflexivity |]. split; [exact Hn |].
  destruct (pass_without_answer H demo_config (fresh tt)) as (_ & Herr & _).
  apply (Herr eq_refl Hn).
Defined.

(** X16 on the plain site: "AU-1" was fetched as "To Do" before the assets
    are processed; the pass moves it, and the cache still holds it as
    "To Do". *)
Lemma cached_ticket_stays_witness :
  let H := demo_host plain_site in
  let k := VStr "AU-1" in
  let t := ticket "To Do" ["AssetUpdate"] in
  let s := fetched H k (fresh tt) in
  let s' :=
    snd (process_assets_with_update H demo_config
           (VList (site_assets plain_site)) s) in
  Py.hashable k = true /\
  Py.find k (task_cache s) = Some t /\
  existsb (fun r => match r with
                    | TransitionTask (VStr "AU-1") _ => true
                    | _ => false
                    end) (requests s') = true /\
  Py.find k (task_cache s') = Some t /\
  get_task_cached H k s' = (Ok t, s').
Proof.
  intros H k t s s'. do 2 (split; [reflexivity |]).
  split; [vm_compute; reflexivity |].
  apply (cached_ticket_stays H demo_config (VList (site_assets plain_site))
           k t s eq_refl eq_refl).
Defined.

(** X17 on the stuck site: "AU-1" cannot be moved to "In Progress"; the
    decider raises, and the reminder is posted. *)
Lemma reminder_precedes_the_transition_witness :
  let H := demo_host stuck_site in
  let issue := link "AU-1" in
  let asset := asset_record "1" "Laptop" "2024-01-01" in
  let attributes := attributes_of "Laptop" "2024-01-01" in
  let lookup :=
    get_task_cached H (VStr "AU-1")
      (snd (enter H (ProcessLinkedUpdateIssue issue) (fresh tt))) in
  let run := process_linked_update_issue H issue asset attributes (fresh tt) in
  Py.getitem issue "key" = Ok (VStr "AU-1") /\
  lookup = (Ok (ticket "To Do" ["AssetUpdate"]), snd lookup) /\
  Py.truthy (ticket "To Do" ["AssetUpdate"]) = true /\
  status_name (ticket "To Do" ["AssetUpdate"]) = Ok (VStr "To Do") /\
  first_value attributes "Update" = Ok (VStr "2024-01-01") /\
  "2024-01-01" <> "" /\
  strptime H "2024-01-01" = Some (Iso.instant 2024 1 1 0 0 0) /\
  Py.get asset "id" VNone = Ok (VStr "1") /\
  VStr "To Do" <> VStr "Done" /\
  VStr "To Do" <> VStr "In Progress" /\
  (Iso.instant 2024 1 1 0 0 0 <= fst (clock H (world (snd lookup))))%Z /\
  exists e,
    fst run = Raise e /\
    requests (snd run) =
      requests (snd lookup) ++
      [AddComment (VStr "AU-1") (COMMENT_REMINDER "2024-01-01");
       GetTransitions (VStr "AU-1")].
Proof.
  intros H issue asset attributes lookup run.
  assert (Htext : "2024-01-01" <> "") by discriminate.
  assert (Hnd : VStr "To Do" <> VStr "Done") by discriminate.
  assert (Hnp : VStr "To Do" <> VStr "In Progress") by discriminate.
  assert (Hdue : (Iso.instant 2024 1 1 0 0 0
                  <= fst (clock H (world (snd lookup))))%Z)
    by (vm_compute; discriminate).
  do 5 (split; [reflexivity |]). split; [exact Htext |].
  do 2 (split; [reflexivity |]).
  split; [exact Hnd |]. split; [exact Hnp |]. split; [exact Hdue |].
  destruct (reminder_precedes_the_transition H issue asset attributes
              (fresh tt) (snd lookup) (VStr "AU-1")
              (ticket "To Do" ["AssetUpdate"]) (VStr "To Do") (VStr "1")
              "2024-01-01" (Iso.instant 2024 1 1 0 0 0)
              eq_refl eq_refl eq_refl eq_refl eq_refl Htext eq_refl eq_refl
              Hnd Hnp Hdue) as [(tid & Hok & _) | Hraised].
  - vm_compute in Hok. discriminate.
  - exact Hraised.
Defined.

(** X18 on the plain site: the decider, given a link to "AU-404", which the
    site does not have, posts the reminder to it. *)
Lemma decider_on_unfetched_ticket_witness :
  let H := demo_host plain_site in
  let issue := link "AU-404" in
  let key := VStr "AU-404" in
  let asset := asset_record "1" "Laptop" "2024-01-01" in
  let attributes := attributes_of "Laptop" "2024-01-01" in
  let run := process_linked_update_issue H issue asset attributes (fresh tt) in
  Py.getitem issue "key" = Ok key /\
  Py.hashable key = true /\
  Py.find key (task_cache (fresh (tt : World H))) = None /\
  is_failure (fst (remote H (GetTask key) tt)) = true /\
  fst (remote H (GetTask key) tt) <> NoBody /\
  first_value attributes "Update" = Ok (VStr "2024-01-01") /\
  "2024-01-01" <> "" /\
  strptime H "2024-01-01" = Some (Iso.instant 2024 1 1 0 0 0) /\
  Py.get asset "id" VNone = Ok (VStr "1") /\
  (Iso.instant 2024 1 1 0 0 0 <= demo_now)%Z /\
  exists rest,
    requests (snd run) =
      [] ++ GetTask key
         :: AddComment key (COMMENT_REMINDER "2024-01-01")
         :: GetTransitions key :: rest.
Proof.
  intros H issue key asset attributes run.
  assert (Htext : "2024-01-01" <> "") by discriminate.
  assert (Hsome : fst (remote H (GetTask key) tt) <> NoBody) by discriminate.
  assert (Hdue : (Iso.instant 2024 1 1 0 0 0 <= demo_now)%Z)
    by (vm_compute; discriminate).
  do 4 (split; [reflexivity |]). split; [exact Hsome |].
  split; [reflexivity |]. split; [exact Htext |].
  do 2 (split; [reflexivity |]). split; [exact Hdue |].
  destruct (decider_on_unfetched_ticket H issue asset attributes (fresh tt)
              key (VStr "1") "2024-01-01" (Iso.instant 2024 1 1 0 0 0)
              eq_refl eq_refl eq_refl eq_refl) as (_ & Herr).
  apply (Herr Hsome eq_refl Htext eq_refl eq_refl Hdue).
Defined.

(** X19 on the plain site: "AU-3" is in the cache, and [is_task_done]
    fetches it all the same; it is done. *)
Lemma is_task_done_asks_the_site_witness :
  let H := demo_host plain_site in
  let k := VStr "AU-3" in
  let s := fetched H k (fresh tt) in
  let task := ticket "Done" ["AssetUpdate"] in
  Py.find k (task_cache s) = Some task /\
  fst (remote H (GetTask k) (world s)) = Body task /\
  Py.truthy task = true /\
  status_name task = Ok (VStr "Done") /\
  requests (snd (is_task_done H k s)) = [GetTask k] ++ [GetTask k] /\
  task_cache (snd (is_task_done H k s)) = task_cache s /\
  fst (is_task_done H k s) = Ok true.
Proof.
  intros H k s task. do 4 (split; [reflexivity |]).
  destruct (is_task_done_asks_the_site H k s) as (Hr & Hc & _ & Hdone).
  split; [exact Hr |]. split; [exact Hc |].
  apply (proj2 (Hdone task (VStr "Done") eq_refl eq_refl eq_refl)).
  reflexivity.
Defined.

(** X20: three filters, in two groups. *)
Lemma aql_query_joins_conditions_witness :
  let H := demo_host plain_site in
  let filters1 := [("objectTypeId", VInt 7)] in
  let filters2 :=
    [("Status", VList [VStr "Active"; VStr "Stock"]);
     ("Owner", VStr "Ann Lee")] in
  filters1 <> [] /\ filters2 <> [] /\
  build_aql_query H (filters1 ++ filters2) =
    "objectTypeId = 7 AND Status IN (Active, Stock) AND Owner = 'Ann Lee'" /\
  requests (snd (get_assets_by_filter H (filters1 ++ filters2) (fresh tt))) =
    [ObjectAql
       "objectTypeId = 7 AND Status IN (Active, Stock) AND Owner = 'Ann Lee'"].
Proof.
  intros H filters1 filters2.
  assert (H1 : filters1 <> []) by discriminate.
  assert (H2 : filters2 <> []) by discriminate.
  split; [exact H1 |]. split; [exact H2 |].
  destruct (aql_query_joins_conditions H filters1 filters2 (fresh tt) H1 H2)
    as (Hjoin & _ & _ & Hsent).
  split; [exact Hjoin | exact Hsent].
Defined.

(** X21: the catalogue lists "Name" and "Update", and "Update" twice. *)
Lemma attribute_dict_lists_names_witness :
  let attrs :=
    [VDict [("id", VStr "134"); ("name", VStr "Name")];
     VDict [("id", VStr "140"); ("name", VStr "Next update")];
     VDict [("id", VStr "140"); ("name", VStr "Update")]] in
  let l :=
    [(VStr "134", VStr "Name"); (VStr "140", VStr "Next update");
     (VStr "140", VStr "Update")] in
  Forall2 listed_as attrs l /\
  Forall (fun id_name => Py.hashable (fst id_name) = true) l /\
  listed_name (VStr "140") l = Some (VStr "Update") /\
  exists d,
    attribute_dict_of (VList attrs) = Ok d /\
    forall attr_id, Py.find attr_id d = listed_name attr_id l.
Proof.
  intros attrs l.
  assert (Hl : Forall2 listed_as attrs l).
  { repeat (constructor; [eexists; repeat split |]). constructor. }
  assert (Hh : Forall (fun id_name => Py.hashable (fst id_name) = true) l).
  { repeat (constructor; [reflexivity |]). constructor. }
  split; [exact Hl |]. split; [exact Hh |]. split; [reflexivity |].
  exact (proj1 (attribute_dict_lists_names attrs l Hl Hh)).
Defined.

(** X22: a label that differs in case is another label. *)
Lemma label_is_matched_exactly_witness :
  let fields :=
    [("status", VDict [("name", VStr "To Do")]);
     ("labels", VList [VStr "assetupdate"; VStr "AssetUpdates"])] in
  let d := [("fields", VDict fields)] in
  d <> [] /\
  Py.lookup "fields" d = Some (VDict fields) /\
  Py.lookup "labels" fields =
    Some (VList [VStr "assetupdate"; VStr "AssetUpdates"]) /\
  is_task_for_update (VDict d) = Ok false.
Proof.
  intros fields d.
  assert (Hd : d <> []) by discriminate.
  split; [exact Hd |]. do 2 (split; [reflexivity |]).
  destruct (label_is_matched_exactly d Hd) as (Hlist & _).
  exact (proj1 (Hlist fields [VStr "assetupdate"; VStr "AssetUpdates"]
                  eq_refl eq_refl)).
Defined.
